(** * emailScanner: the tiered decision pipeline

    A shallow embedding of the decision logic of the mail triage tool
    (rules.py, sender_memory.py, confidence_calibration.py,
    ollama_analyzer.py, scanner.py, learn_patterns.py) and the properties
    of its specification checked against it.

    Conventions of the embedding:
    - Python [float] values are modelled as exact rationals [Q]; binary
      rounding is not modelled, so a computed value stands for the
      double next to it, and a property that compares computed values
      with a threshold is stated away from rounding distance of the
      threshold.  The IEEE specials that [json.loads] can produce (NaN,
      Infinity) are kept where the code can meet them.
    - [str] is [string], a character standing for its code point: the
      texts are those of code points below 256.  [str.strip] and
      [str.split] remove the blanks of that range; [str.lower] maps its
      upper-case letters.
    - A [datetime] is its wall-clock reading in microseconds together
      with its optional UTC offset; the clock ([datetime.now(UTC)]) is an
      explicit argument [now].
    - The SQL tables are lists of rows in row-id order; a query is a
      filter over them and [first()] is the head of the result.
    - Logging is not modelled. *)

From Stdlib Require Import ZArith QArith Qminmax Qabs String Ascii List Lia Lqa
  DecimalString Bool.
Import ListNotations.

Open Scope string_scope.
Open Scope Z_scope.

(* ================================================================= *)
(** ** Python values and string helpers *)

Module Py.

(** A Python float: a finite number or one of the IEEE specials. *)
Inductive pyfloat : Type :=
| Fin (q : Q)
| Nan
| Inf (negative : bool).

(** The values [json.loads] can return. *)
#[local] Set Warnings "-register-all".
Inductive pyval : Type :=
| PNone
| PBool (b : bool)
| PInt (z : Z)
| PFloat (f : pyfloat)
| PStr (s : string)
| PList (l : list pyval)
| PDict (items : list (string * pyval)).

(** [str(n)] for an integer. *)
Definition str_of_Z (z : Z) : string := NilEmpty.string_of_int (Z.to_int z).
Definition str_of_nat (n : nat) : string := str_of_Z (Z.of_nat n).

(** The upper-case letters: A to Z and, of the upper half, U+00C0 to
    U+00DE without the multiplication sign. *)
Definition is_upper (c : ascii) : bool :=
  let n := nat_of_ascii c in
  ((65 <=? n)%nat && (n <=? 90)%nat)
  || ((192 <=? n)%nat && (n <=? 222)%nat && negb (n =? 215)%nat).

Definition lower_char (c : ascii) : ascii :=
  if is_upper c then ascii_of_nat (nat_of_ascii c + 32) else c.

(** [s.lower()] *)
Fixpoint lower (s : string) : string :=
  match s with
  | EmptyString => EmptyString
  | String c s' => String (lower_char c) (lower s')
  end.

(** [needle in hay] on strings. *)
Fixpoint contains (needle hay : string) : bool :=
  match hay with
  | EmptyString => String.prefix needle EmptyString
  | String _ hay' => String.prefix needle hay || contains needle hay'
  end.

(** [any(p in s for p in ps)], as the [for ... if ... return True]
    loops of the source. *)
Definition any_in (ps : list string) (s : string) : bool :=
  existsb (fun p => contains p s) ps.

(** The characters [str.split()] and [str.strip()] treat as blank
    ([str.isspace]): tab to carriage return, the four separators, the
    space, and of the upper half next line (U+0085) and no-break space
    (U+00A0). *)
Definition is_space (c : ascii) : bool :=
  let n := nat_of_ascii c in
  ((9 <=? n)%nat && (n <=? 13)%nat) || ((28 <=? n)%nat && (n <=? 32)%nat)
  || (n =? 133)%nat || (n =? 160)%nat.

(** [len(s.split())]: the number of maximal runs of non-blank
    characters; [in_word] tells whether the previous character
    belonged to a word. *)
Fixpoint count_words (in_word : bool) (s : string) : nat :=
  match s with
  | EmptyString => 0%nat
  | String c s' =>
      if is_space c then count_words false s'
      else if in_word then count_words true s'
      else S (count_words true s')
  end.

Definition split_len (s : string) : nat := count_words false s.

Fixpoint lstrip (s : string) : string :=
  match s with
  | EmptyString => EmptyString
  | String c s' => if is_space c then lstrip s' else s
  end.

Fixpoint rstrip (s : string) : string :=
  match s with
  | EmptyString => EmptyString
  | String c s' =>
      match rstrip s' with
      | EmptyString => if is_space c then EmptyString else String c EmptyString
      | r => String c r
      end
  end.

(** [s.strip()] *)
Definition strip (s : string) : string := rstrip (lstrip s).

(** [s.split('\n')] *)
Fixpoint split_lines (s : string) : list string :=
  match s with
  | EmptyString => [EmptyString]
  | String c s' =>
      if Ascii.eqb c "010"%char then EmptyString :: split_lines s'
      else match split_lines s' with
           | [] => [String c EmptyString]
           | l :: ls => String c l :: ls
           end
  end.

(** ['\n'.join(ls)] *)
Fixpoint join_lines (ls : list string) : string :=
  match ls with
  | [] => EmptyString
  | [l] => l
  | l :: ls' => l ++ String "010"%char (join_lines ls')
  end.

(** [ls[1:-1]] *)
Definition slice_1_m1 {A : Type} (ls : list A) : list A :=
  removelast (tl ls).

(** Keyed access to a dict given by its items. *)
Fixpoint dict_get (k : string) (d : list (string * pyval)) : option pyval :=
  match d with
  | [] => None
  | (k', v) :: d' => if String.eqb k k' then Some v else dict_get k d'
  end.

End Py.

(* ================================================================= *)
(** ** Timestamps *)

Module Time.

Record datetime : Type := mkDatetime {
  wall_us : Z;                 (* wall-clock reading, microseconds *)
  utcoffset_us : option Z      (* [None] for a naive datetime *)
}.

Definition us_per_day : Z := 86400 * 1000000.

(** The instant a datetime denotes once a naive one has been given
    [tzinfo=UTC] ([received_date.replace(tzinfo=UTC)]). *)
Definition utc_instant (d : datetime) : Z :=
  match utcoffset_us d with
  | None => wall_us d
  | Some off => wall_us d - off
  end.

(** [(now - received_date).days]: [timedelta.days] is the floor of the
    difference in days. *)
Definition age_days (now : Z) (received_date : datetime) : Z :=
  (now - utc_instant received_date) / us_per_day.

End Time.

(* ================================================================= *)
(** ** rules.py: the rule matcher *)

Module Rules.
Import Py Time.

(** The message dictionary handed through the pipeline. *)
Record email_data : Type := mkEmailData {
  email_id : string;
  sender : string;
  recipient : string;
  subject : string;
  body_preview : string;
  body_full : string;
  date : option datetime;
  size_bytes : Z;
  has_attachments : bool
}.

(** The result dictionary every tier produces. [extra] is the
    tier-specific key ([rule_matched] or [skip_reason]); [model_name]
    and [model_version] stay empty until the tier's caller sets them. *)
Record analysis_result : Type := mkResult {
  recommendation : string;
  confidence_score : Q;
  reasoning : pyval;
  category : pyval;
  priority : pyval;
  extra : option (string * string);
  model_name : string;
  model_version : string
}.

Record rule_stats : Type := mkStats {
  vip_kept : nat;
  event_kept : nat;
  old_event_deleted : nat;
  old_job_deleted : nat;
  old_newsletter_deleted : nat;
  old_promotional_deleted : nat;
  personal_kept : nat;
  auto_deleted : nat
}.

Record EmailRules : Type := mkRules {
  vip_senders : list string;
  event_keywords : list string;
  job_keywords : list string;
  old_event_days : Z;
  old_job_days : Z;
  newsletter_senders : list string;
  old_newsletter_days : Z;
  promotional_keywords : list string;
  old_promotional_days : Z;
  stats : rule_stats
}.

Definition DEFAULT_VIP_SENDERS : list string :=
  ["cdarling926@gmail.com"; "grace0614@gmail.com"].

Definition DEFAULT_EVENT_KEYWORDS : list string :=
  ["calendar"; "meeting"; "appointment"; "rsvp"; "invite"; "invitation";
   "event"; "reminder"; "scheduled"; "webinar"; "conference"].

Definition DEFAULT_JOB_KEYWORDS : list string :=
  ["job opportunity"; "job alert"; "career opportunity"; "now hiring";
   "we're hiring"; "position available"; "job opening"; "apply now";
   "recruitment"; "recruiter"].

Definition DEFAULT_NEWSLETTER_SENDERS : list string :=
  ["thedaily@theskimm.com"; "@newsletters."; "noreply@"; "news@"].

Definition DEFAULT_PROMOTIONAL_KEYWORDS : list string :=
  ["sale"; "discount"; "% off"; "limited time"; "deal"; "offer";
   "promotion"; "exclusive"; "flash sale"; "clearance"; "save now";
   "shop now"; "buy now"; "order now"].

(** [xs or default] on a list argument ([None] and [[]] are both falsy). *)
Definition or_default (xs default : list string) : list string :=
  match xs with [] => default | _ => xs end.

Definition zero_stats : rule_stats := mkStats 0 0 0 0 0 0 0 0.

(** [EmailRules.__init__] *)
Definition init (vip event job : list string) (old_event old_job : Z)
    (newsletter : list string) (old_newsletter : Z)
    (promotional : list string) (old_promotional : Z) : EmailRules :=
  {| vip_senders := map lower (or_default vip DEFAULT_VIP_SENDERS);
     event_keywords := map lower (or_default event DEFAULT_EVENT_KEYWORDS);
     job_keywords := map lower (or_default job DEFAULT_JOB_KEYWORDS);
     old_event_days := old_event;
     old_job_days := old_job;
     newsletter_senders :=
       map lower (or_default newsletter DEFAULT_NEWSLETTER_SENDERS);
     old_newsletter_days := old_newsletter;
     promotional_keywords :=
       map lower (or_default promotional DEFAULT_PROMOTIONAL_KEYWORDS);
     old_promotional_days := old_promotional;
     stats := zero_stats |}.

(** [f"{subject} {body}".lower()] *)
Definition text_of (subject body : string) : string :=
  lower (subject ++ " " ++ body).

Definition _is_vip_sender (r : EmailRules) (sender : string) : bool :=
  any_in (vip_senders r) sender.

Definition _is_event (r : EmailRules) (subject body : string) : bool :=
  any_in (event_keywords r) (text_of subject body).

Definition _is_old_event (r : EmailRules) (now : Z) (subject body : string)
    (received_date : datetime) : bool :=
  if negb (_is_event r subject body) then false
  else old_event_days r <? age_days now received_date.

Definition automated_patterns : list string :=
  ["noreply"; "no-reply"; "donotreply"; "notifications"; "alerts";
   "info@"; "support@"; "news@"; "marketing@"].

Definition digits : list string :=
  ["0"; "1"; "2"; "3"; "4"; "5"; "6"; "7"; "8"; "9"].

(** [re.search(pattern, text, re.IGNORECASE)] for each entry of
    [PROMOTIONAL_PATTERNS].  Five of the six patterns are literal; the
    third one, a run of digits followed by "% off", matches exactly when
    some digit is directly followed by "% off". *)
Definition promotional_pattern_matches (text : string) : list bool :=
  let t := lower text in
  [ contains "unsubscribe" t;
    contains "click here" t;
    existsb (fun d => contains (d ++ "% off") t) digits;
    contains "limited time" t;
    contains "don't miss" t;
    contains "exclusive offer" t ].

Definition _looks_like_personal (sender subject body : string) : bool :=
  if any_in automated_patterns (lower sender) then false
  else
    let text := text_of subject body in
    if existsb (fun b => b) (promotional_pattern_matches text) then false
    else if contains "@gmail.com" sender || contains "@yahoo.com" sender
              || contains "@hotmail.com" sender
    then (split_len subject <=? 6)%nat && negb (contains "unsubscribe" text)
    else false.

Definition _is_old_job_offer (r : EmailRules) (now : Z)
    (subject body : string) (received_date : datetime) : bool :=
  if age_days now received_date <? old_job_days r then false
  else any_in (job_keywords r) (text_of subject body).

Definition _is_old_newsletter (r : EmailRules) (now : Z)
    (sender subject : string) (received_date : datetime) : bool :=
  if age_days now received_date <? old_newsletter_days r then false
  else any_in (newsletter_senders r) (lower sender).

Definition _is_old_promotional (r : EmailRules) (now : Z)
    (subject body : string) (received_date : datetime) : bool :=
  if age_days now received_date <? old_promotional_days r then false
  else any_in (promotional_keywords r) (text_of subject body).

(** [if received_date and pred(received_date)] *)
Definition dated (d : option datetime) (pred : datetime -> bool) : bool :=
  match d with
  | None => false
  | Some received_date => pred received_date
  end.

Definition bump (r : EmailRules) (f : rule_stats -> rule_stats) : EmailRules :=
  {| vip_senders := vip_senders r;
     event_keywords := event_keywords r;
     job_keywords := job_keywords r;
     old_event_days := old_event_days r;
     old_job_days := old_job_days r;
     newsletter_senders := newsletter_senders r;
     old_newsletter_days := old_newsletter_days r;
     promotional_keywords := promotional_keywords r;
     old_promotional_days := old_promotional_days r;
     stats := f (stats r) |}.

Definition rule_result (rec : string) (conf : Q) (why cat prio rule : string)
  : analysis_result :=
  {| recommendation := rec;
     confidence_score := conf;
     reasoning := PStr why;
     category := PStr cat;
     priority := PStr prio;
     extra := Some ("rule_matched", rule);
     model_name := "";
     model_version := "" |}.

(** [EmailRules.check_email]: the verdict of the first matching rule and
    the rule engine with its counter updated, or [None] and the engine
    unchanged. *)
Definition check_email (r : EmailRules) (now : Z) (e : email_data)
  : option analysis_result * EmailRules :=
  let sender := lower (sender e) in
  let subject := lower (subject e) in
  let body := lower (body_preview e) in
  let received_date := date e in
  if dated received_date (_is_old_event r now subject body) then
    (Some (rule_result "delete" 0.93
             ("Old event notification (older than "
                ++ str_of_Z (old_event_days r)
                ++ " days) - no longer relevant")
             "event" "low" "old_event"),
     bump r (fun s => mkStats (vip_kept s) (event_kept s)
               (S (old_event_deleted s)) (old_job_deleted s)
               (old_newsletter_deleted s) (old_promotional_deleted s)
               (personal_kept s) (auto_deleted s)))
  else if _is_vip_sender r sender then
    (Some (rule_result "keep" 0.99 ("VIP sender: " ++ sender)
             "personal" "high" "vip_sender"),
     bump r (fun s => mkStats (S (vip_kept s)) (event_kept s)
               (old_event_deleted s) (old_job_deleted s)
               (old_newsletter_deleted s) (old_promotional_deleted s)
               (personal_kept s) (auto_deleted s)))
  else if _is_event r subject body then
    (Some (rule_result "keep" 0.95
             "Email appears to be event/calendar related"
             "event" "high" "event"),
     bump r (fun s => mkStats (vip_kept s) (S (event_kept s))
               (old_event_deleted s) (old_job_deleted s)
               (old_newsletter_deleted s) (old_promotional_deleted s)
               (personal_kept s) (auto_deleted s)))
  else if _looks_like_personal sender subject body then
    (Some (rule_result "keep" 0.90
             "Email appears to be from a personal contact"
             "personal" "medium" "personal_contact"),
     bump r (fun s => mkStats (vip_kept s) (event_kept s)
               (old_event_deleted s) (old_job_deleted s)
               (old_newsletter_deleted s) (old_promotional_deleted s)
               (S (personal_kept s)) (auto_deleted s)))
  else if dated received_date (_is_old_job_offer r now subject body) then
    (Some (rule_result "delete" 0.92
             "Old job offer (6+ months) - likely no longer relevant"
             "job" "low" "old_job_offer"),
     bump r (fun s => mkStats (vip_kept s) (event_kept s)
               (old_event_deleted s) (S (old_job_deleted s))
               (old_newsletter_deleted s) (old_promotional_deleted s)
               (personal_kept s) (auto_deleted s)))
  else if dated received_date (_is_old_newsletter r now sender subject) then
    (Some (rule_result "delete" 0.93
             ("Old newsletter/news source (older than "
                ++ str_of_Z (old_newsletter_days r) ++ " days)")
             "newsletter" "low" "old_newsletter"),
     bump r (fun s => mkStats (vip_kept s) (event_kept s)
               (old_event_deleted s) (old_job_deleted s)
               (S (old_newsletter_deleted s)) (old_promotional_deleted s)
               (personal_kept s) (auto_deleted s)))
  else if dated received_date (_is_old_promotional r now subject body) then
    (Some (rule_result "delete" 0.94
             ("Old promotional/sale email (older than "
                ++ str_of_Z (old_promotional_days r) ++ " days)")
             "promotional" "low" "old_promotional"),
     bump r (fun s => mkStats (vip_kept s) (event_kept s)
               (old_event_deleted s) (old_job_deleted s)
               (old_newsletter_deleted s) (S (old_promotional_deleted s))
               (personal_kept s) (auto_deleted s)))
  else (None, r).

End Rules.

(* ================================================================= *)
(** ** models.py: the tables *)

Module Db.
Import Py Time.

Record Email : Type := mkEmail {
  e_id : Z;
  e_email_id : string;
  e_sender : string;
  e_recipient : string;
  e_subject : string;
  e_body_preview : string;
  e_body_full : string;
  e_received_date : option datetime;
  e_size_bytes : Z;
  e_has_attachments : bool;
  e_folder : string;
  e_fetched_at : Z
}.

Record Analysis : Type := mkAnalysis {
  a_id : Z;
  a_email_id : Z;
  a_recommendation : string;
  a_confidence_score : Q;
  a_reasoning : pyval;
  a_category : pyval;
  a_priority : pyval;
  a_model_name : string;
  a_model_version : string;
  a_status : string;
  a_analyzed_at : Z
}.

Record Decision : Type := mkDecision {
  d_id : Z;
  d_email_id : Z;
  d_approved : bool;
  d_action_taken : option string;
  d_notes : string;
  d_decided_at : Z
}.

Record database : Type := mkDb {
  emails : list Email;
  analyses : list Analysis;
  decisions : list Decision
}.

(** The key an inserted row receives: one more than the largest key
    of the table. *)
Definition next_id {A : Type} (key : A -> Z) (rows : list A) : Z :=
  1 + fold_right (fun r m => Z.max (key r) m) 0 rows.

(** [query(Email).filter_by(email_id=...).first()] *)
Definition email_by_email_id (db : database) (eid : string) : option Email :=
  find (fun e => String.eqb (e_email_id e) eid) (emails db).

(** [query(Analysis).filter_by(email_id=...).first()] *)
Definition analysis_by_email (db : database) (id : Z) : option Analysis :=
  find (fun a => a_email_id a =? id) (analyses db).

(** [action_taken == name] where the column may be NULL. *)
Definition action_is (name : string) (d : Decision) : bool :=
  match d_action_taken d with
  | Some a => String.eqb a name
  | None => false
  end.

(** [sum(1 for x in xs if p(x))] *)
Definition count {A : Type} (p : A -> bool) (xs : list A) : nat :=
  length (filter p xs).

(** [n / d] on two counts, as a float. *)
Definition ratio (n d : nat) : Q :=
  (inject_Z (Z.of_nat n) / inject_Z (Z.of_nat d))%Q.

Definition Qsum (qs : list Q) : Q := fold_right Qplus 0%Q qs.

End Db.

(* ================================================================= *)
(** ** sender_memory.py: per-sender history *)

Module SenderMemory.
Import Py Rules Db.

Record sender_stats : Type := mkSenderStats {
  total_decisions : nat;
  kept_count : nat;
  deleted_count : nat;
  archived_count : nat;
  keep_rate : Q;
  delete_rate : Q;
  avg_confidence : Q;
  most_common_action : option string;
  has_pattern : bool
}.

(** The rows of Email joined to Decision and to Analysis on the
    email key, restricted to one sender. *)
Definition sender_rows (db : database) (sender : string)
  : list (Email * Decision * Analysis) :=
  flat_map (fun e =>
    flat_map (fun d =>
      map (fun a => (e, d, a))
          (filter (fun a => a_email_id a =? e_id e) (analyses db)))
      (filter (fun d => d_email_id d =? e_id e) (decisions db)))
    (filter (fun e => String.eqb (e_sender e) sender) (emails db)).

(** [max(action_counts, key=action_counts.get)] over the keys in
    insertion order: the first key holding the largest count. *)
Definition most_common (kept deleted archived : nat) : string * nat :=
  let best := ("kept", kept) in
  let best := if (snd best <? deleted)%nat then ("deleted", deleted) else best in
  if (snd best <? archived)%nat then ("archived", archived) else best.

Definition get_sender_stats (db : database) (sender : string) : sender_stats :=
  let decisions := sender_rows db sender in
  match decisions with
  | [] => mkSenderStats 0 0 0 0 0 0 0 None false
  | _ =>
    let total := length decisions in
    let kept := count (fun r => action_is "kept" (snd (fst r))) decisions in
    let deleted := count (fun r => action_is "deleted" (snd (fst r))) decisions in
    let archived := count (fun r => action_is "archived" (snd (fst r))) decisions in
    let confidences :=
      filter (fun c => negb (Qeq_bool c 0))
             (map (fun r => a_confidence_score (snd r)) decisions) in
    let avg_confidence :=
      match confidences with
      | [] => 0%Q
      | _ => (Qsum confidences / inject_Z (Z.of_nat (length confidences)))%Q
      end in
    let keep_rate := if (0 <? total)%nat then ratio kept total else 0%Q in
    let delete_rate := if (0 <? total)%nat then ratio deleted total else 0%Q in
    let mc := most_common kept deleted archived in
    let has_pattern :=
      (3 <=? total)%nat
      && (Qle_bool 0.9 keep_rate || Qle_bool 0.9 delete_rate) in
    {| total_decisions := total;
       kept_count := kept;
       deleted_count := deleted;
       archived_count := archived;
       keep_rate := keep_rate;
       delete_rate := delete_rate;
       avg_confidence := avg_confidence;
       most_common_action := if (0 <? snd mc)%nat then Some (fst mc) else None;
       has_pattern := has_pattern |}
  end.

Definition pattern_result (rec : string) (conf : Q) (why prio : string)
  : analysis_result :=
  {| recommendation := rec;
     confidence_score := conf;
     reasoning := PStr why;
     category := PStr "pattern_learned";
     priority := PStr prio;
     extra := Some ("skip_reason", "sender_history");
     model_name := "";
     model_version := "" |}.

(** [SenderMemory.should_skip_llm] *)
Definition should_skip_llm (db : database) (sender : string)
  : option analysis_result :=
  let stats := get_sender_stats db sender in
  if negb (has_pattern stats) then None
  else if Qle_bool 0.9 (keep_rate stats) then
    Some (pattern_result "keep" (keep_rate stats)
            ("Pattern detected: You've kept "
               ++ str_of_nat (kept_count stats) ++ "/"
               ++ str_of_nat (total_decisions stats)
               ++ " emails from this sender")
            "medium")
  else if Qle_bool 0.9 (delete_rate stats) then
    Some (pattern_result "delete" (delete_rate stats)
            ("Pattern detected: You've deleted "
               ++ str_of_nat (deleted_count stats) ++ "/"
               ++ str_of_nat (total_decisions stats)
               ++ " emails from this sender")
            "low")
  else None.

End SenderMemory.

(* ================================================================= *)
(** ** confidence_calibration.py: bucket statistics and calibration *)

Module Calibration.
Import Py Db.

Definition buckets : list (Q * Q * string) :=
  [ (0.0, 0.5, "very_low");
    (0.5, 0.7, "low");
    (0.7, 0.85, "medium");
    (0.85, 0.95, "high");
    (0.95, 1.0, "very_high") ]%Q.

Record bucket_stats : Type := mkBucketStats {
  min_confidence : Q;
  max_confidence : Q;
  total_decisions : nat;
  correct_decisions : nat;
  accuracy : Q;
  avg_stated_confidence : Q;
  calibration_error : Q;
  sample_size_sufficient : bool
}.

(** The filter of the bucket query: the upper end is open unless the
    bucket reaches 1.0. *)
Definition in_range (min_conf max_conf c : Q) : bool :=
  Qle_bool min_conf c
  && (if Qle_bool 1.0 max_conf then Qle_bool c max_conf
      else negb (Qle_bool max_conf c)).

(** The rows of Decision joined to Email and to Analysis whose stated
    confidence lies in the bucket and which carry a human action. *)
Definition bucket_rows (db : database) (min_conf max_conf : Q)
  : list (Decision * Analysis) :=
  flat_map (fun d =>
    flat_map (fun e =>
      map (fun a => (d, a))
          (filter (fun a => (a_email_id a =? e_id e)
                            && in_range min_conf max_conf (a_confidence_score a))
                  (analyses db)))
      (filter (fun e => e_id e =? d_email_id d) (emails db)))
    (filter (fun d => match d_action_taken d with Some _ => true | None => false end)
            (decisions db)).

Definition stats_of_bucket (db : database) (min_conf max_conf : Q) : bucket_stats :=
  let rows := bucket_rows db min_conf max_conf in
  let total := length rows in
  let correct := count (fun r => d_approved (fst r)) rows in
  (* [results.avg_confidence or (min_conf + max_conf) / 2]: the midpoint
     replaces an average that is NULL or zero.  The average is the exact
     mean; the AVG of the database is its double-precision sum divided
     by the count, which can differ from it in the last digits. *)
  let avg := (Qsum (map (fun r => a_confidence_score (snd r)) rows)
              / inject_Z (Z.of_nat total))%Q in
  let avg_confidence :=
    if (total =? 0)%nat || Qeq_bool avg 0 then ((min_conf + max_conf) / 2)%Q
    else avg in
  let accuracy := if (0 <? total)%nat then ratio correct total else 0%Q in
  {| min_confidence := min_conf;
     max_confidence := max_conf;
     total_decisions := total;
     correct_decisions := correct;
     accuracy := accuracy;
     avg_stated_confidence := avg_confidence;
     calibration_error :=
       if (0 <? total)%nat then (avg_confidence - accuracy)%Q else 0%Q;
     sample_size_sufficient := (5 <=? total)%nat |}.

(** [ConfidenceCalibrator.get_bucket_stats]: the dict from bucket name
    to statistics, in bucket order. *)
Definition get_bucket_stats (db : database) : list (string * bucket_stats) :=
  map (fun b => let '(min_conf, max_conf, name) := b in
                (name, stats_of_bucket db min_conf max_conf))
      buckets.

Fixpoint stats_get (name : string) (stats : list (string * bucket_stats))
  : option bucket_stats :=
  match stats with
  | [] => None
  | (k, v) :: stats' => if String.eqb name k then Some v else stats_get name stats'
  end.

(** The loop that looks for the bucket of a stated confidence. *)
Fixpoint find_bucket (stated : Q) (bs : list (Q * Q * string)) : option string :=
  match bs with
  | [] => None
  | (min_conf, max_conf, name) :: bs' =>
      if (Qle_bool min_conf stated && negb (Qle_bool max_conf stated))
         || (Qeq_bool max_conf 1.0 && Qle_bool stated max_conf)
      then Some name
      else find_bucket stated bs'
  end.

(** Python's [min(a, b)] and [max(a, b)]: the first argument unless
    the second is strictly smaller (larger). *)
Definition py_min (a b : Q) : Q := if negb (Qle_bool a b) then b else a.
Definition py_max (a b : Q) : Q := if negb (Qle_bool b a) then b else a.

(** [ConfidenceCalibrator.calibrate_confidence].  [pct] renders a float
    with the format [.1%]; the category argument is not used. *)
Definition calibrate_confidence (pct : Q -> string) (db : database)
    (stated_confidence : Q) (category : option pyval) : Q * string :=
  match find_bucket stated_confidence buckets with
  | None => (stated_confidence, "No calibration applied")
  | Some bucket_name =>
    let stats := get_bucket_stats db in
    match stats_get bucket_name stats with
    | None =>
        (stated_confidence, "Insufficient data for calibration (0 samples)")
    | Some bucket =>
      if negb (sample_size_sufficient bucket) then
        (stated_confidence,
         "Insufficient data for calibration ("
           ++ str_of_nat (total_decisions bucket) ++ " samples)")
      else
        let acc := accuracy bucket in
        let err := calibration_error bucket in
        let calibrated := (stated_confidence - err * 0.5)%Q in
        let calibrated := py_max 0.0 (py_min 1.0 calibrated) in
        let reasoning :=
          if negb (Qle_bool 0.05 (Qabs err)) then
            "Well-calibrated (AI accuracy: " ++ pct acc ++ ")"
          else if negb (Qle_bool err 0) then
            "Adjusted down (AI tends to be overconfident in this range: "
              ++ pct acc ++ " actual vs "
              ++ pct (avg_stated_confidence bucket) ++ " stated)"
          else
            "Adjusted up (AI tends to be underconfident in this range: "
              ++ pct acc ++ " actual vs "
              ++ pct (avg_stated_confidence bucket) ++ " stated)" in
        (calibrated, reasoning)
    end
  end.

End Calibration.

(* ================================================================= *)
(** ** The collaborators of the pipeline *)

Module Env.
Import Py Rules Db.

(** What the pipeline obtains from outside the repository: the JSON
    decoder and float parser of the Python library, number formatting,
    the classification service and the storage engine. *)
Record Collaborators : Type := mkEnv {
  (* [json.loads]; [None] stands for [JSONDecodeError] *)
  json_loads : string -> option pyval;
  (* [float(s)] on a string; [None] stands for [ValueError] *)
  float_of_str : string -> option pyfloat;
  (* the format [.1%] *)
  format_pct : Q -> string;
  (* the text [_call_ollama] returns for the prompt built from the
     message and the examples read from the database; [None] when the
     request fails (unreachable, timeout, non-2xx status) *)
  call_ollama : database -> email_data -> option string;
  (* whether the storage engine accepts a flush or commit that leads
     to the given state; [false] stands for any raised database error *)
  storage_ok : database -> bool;
  (* [OllamaAnalyzer.model] *)
  model : string
}.

End Env.

(* ================================================================= *)
(** ** ollama_analyzer.py: parsing the classifier's answer *)

Module Analyzer.
Import Py Rules Db Env Calibration.

Definition default_analysis : analysis_result :=
  {| recommendation := "keep";
     confidence_score := 0.5;
     reasoning := PStr "Unable to parse AI response";
     category := PStr "unknown";
     priority := PStr "medium";
     extra := None;
     model_name := "";
     model_version := "" |}.

Definition valid_recommendations : list string := ["delete"; "keep"; "archive"].

(** The least magnitude at which [float] of an integer raises
    [OverflowError]: the midpoint between the largest double and 2^1024. *)
Definition float_overflow : Z := 2 ^ 1024 - 2 ^ 970.

(** [float(v)]; [None] when the conversion raises. *)
Definition py_float (env : Collaborators) (v : pyval) : option pyfloat :=
  match v with
  | PInt z => if Z.abs z <? float_overflow then Some (Fin (inject_Z z)) else None
  | PFloat f => Some f
  | PBool b => Some (Fin (if b then 1 else 0))
  | PStr s => float_of_str env s
  | PNone | PList _ | PDict _ => None
  end.

(** [max(0.0, min(1.0, confidence))].  Comparisons with NaN are false,
    so [min] keeps 1.0 there; an infinity is cut to the nearer end. *)
Definition clamp01 (confidence : pyfloat) : Q :=
  match confidence with
  | Fin q => py_max 0.0 (py_min 1.0 q)
  | Nan => 1.0
  | Inf negative => if negative then 0.0 else 1.0
  end.

(** [d.setdefault(k, default)] followed by [d[k]]. *)
Definition setdefault (k : string) (default : string)
    (d : list (string * pyval)) : pyval :=
  match dict_get k d with
  | Some v => v
  | None => PStr default
  end.

(** The text handed to the JSON decoder: the answer stripped of
    surrounding blanks and, when it opens with a code fence, of its
    first and last line. *)
Definition unfenced (response : string) : string :=
  let response := strip response in
  if String.prefix "```" response
  then join_lines (slice_1_m1 (split_lines response))
  else response.

(** [OllamaAnalyzer._parse_analysis_response].  Every exception raised
    inside the [try] block ends in [default_analysis]. *)
Definition _parse_analysis_response (env : Collaborators) (response : string)
  : analysis_result :=
  match json_loads env (unfenced response) with
  | None => default_analysis
  | Some (PDict analysis) =>
      match dict_get "recommendation" analysis with
      | None => default_analysis
      | Some rec =>
          let recommendation :=
            match rec with
            | PStr s => if existsb (String.eqb s) valid_recommendations
                        then s else "keep"
            | _ => "keep"
            end in
          let confidence :=
            match dict_get "confidence_score" analysis with
            | Some v => option_map clamp01 (py_float env v)
            | None => Some 0.5%Q
            end in
          match confidence with
          | None => default_analysis
          | Some confidence =>
              {| recommendation := recommendation;
                 confidence_score := confidence;
                 reasoning := setdefault "reasoning" "No reasoning provided" analysis;
                 category := setdefault "category" "unknown" analysis;
                 priority := setdefault "priority" "medium" analysis;
                 extra := None;
                 model_name := "";
                 model_version := "" |}
          end
      end
  (* any other JSON value: the membership test or the subscription
     raises [TypeError] *)
  | Some _ => default_analysis
  end.

Definition with_model (name version : string) (a : analysis_result)
  : analysis_result :=
  {| recommendation := recommendation a;
     confidence_score := confidence_score a;
     reasoning := reasoning a;
     category := category a;
     priority := priority a;
     extra := extra a;
     model_name := name;
     model_version := version |}.

(** [OllamaAnalyzer.analyze_email]: [None] when the service gave no
    text ([if not response]). *)
Definition analyze_email (env : Collaborators) (db : database) (e : email_data)
  : option analysis_result :=
  match call_ollama env db e with
  | None => None
  | Some EmptyString => None
  | Some response =>
      Some (with_model (model env) "latest" (_parse_analysis_response env response))
  end.

End Analyzer.

(* ================================================================= *)
(** ** scanner.py: the orchestration of one message *)

Module Scanner.
Import Py Time Rules Db Env SenderMemory Calibration Analyzer.

(** [reasoning += suffix]: string concatenation, list extension by the
    characters of the suffix, [TypeError] otherwise. *)
Definition iadd_str (v : pyval) (suffix : string) : option pyval :=
  match v with
  | PStr s => Some (PStr (s ++ suffix))
  | PList l =>
      Some (PList (l ++ map (fun c => PStr (String c EmptyString))
                            (list_ascii_of_string suffix)))
  | _ => None
  end.

(** The tier-3 step after a successful classification: the calibrated
    confidence replaces the stated one only when they differ by more
    than 0.05.  The difference and the comparison are those of the exact
    values; the double-precision ones of the code can fall on the other
    side when the exact difference is within rounding distance of
    0.05. *)
Definition apply_calibration (env : Collaborators) (db : database)
    (a : analysis_result) : option analysis_result :=
  let original_confidence := confidence_score a in
  let '(calibrated_confidence, calibration_reason) :=
    calibrate_confidence (format_pct env) db original_confidence
                         (Some (category a)) in
  if negb (Qle_bool (Qabs (calibrated_confidence - original_confidence)) 0.05)
  then
    match iadd_str (reasoning a)
            (" (Confidence calibrated: " ++ calibration_reason ++ ")") with
    | None => None
    | Some reasoning' =>
        Some {| recommendation := recommendation a;
                confidence_score := calibrated_confidence;
                reasoning := reasoning';
                category := category a;
                priority := priority a;
                extra := extra a;
                model_name := model_name a;
                model_version := model_version a |}
    end
  else Some a.

Definition email_of (e : email_data) (id : Z) (folder : string) (now : Z) : Email :=
  {| e_id := id;
     e_email_id := email_id e;
     e_sender := sender e;
     e_recipient := recipient e;
     e_subject := subject e;
     e_body_preview := body_preview e;
     e_body_full := body_full e;
     e_received_date := date e;
     e_size_bytes := size_bytes e;
     e_has_attachments := has_attachments e;
     e_folder := folder;
     e_fetched_at := now |}.

Definition analysis_of (id email : Z) (r : analysis_result) (now : Z) : Analysis :=
  {| a_id := id;
     a_email_id := email;
     a_recommendation := recommendation r;
     a_confidence_score := confidence_score r;
     a_reasoning := reasoning r;
     a_category := category r;
     a_priority := priority r;
     a_model_name := model_name r;
     a_model_version := model_version r;
     a_status := "pending_review";
     a_analyzed_at := now |}.

(** Assigning the columns of the row [first()] returned: the first row
    of the table that belongs to the email. *)
Fixpoint update_first (email : Z) (r : analysis_result) (now : Z)
    (rows : list Analysis) : list Analysis :=
  match rows with
  | [] => []
  | a :: rows' =>
      if a_email_id a =? email then analysis_of (a_id a) email r now :: rows'
      else a :: update_first email r now rows'
  end.

(** The outcome of the three tiers for one message. *)
Inductive tier_outcome : Type :=
| Verdict (r : analysis_result)
| Failed.

(** The tiers of [_process_email] in their order; the rule engine is
    returned with its counters. *)
Definition run_tiers (env : Collaborators) (rules : EmailRules) (db : database)
    (now : Z) (e : email_data) : tier_outcome * EmailRules :=
  match check_email rules now e with
  | (Some rule_result, rules') =>
      (Verdict (with_model "rules_engine" "1.0" rule_result), rules')
  | (None, rules') =>
      match should_skip_llm db (sender e) with
      | Some pattern_result =>
          (Verdict (with_model "pattern_memory" "1.0" pattern_result), rules')
      | None =>
          match analyze_email env db e with
          | None => (Failed, rules')
          | Some analysis_result =>
              match apply_calibration env db analysis_result with
              | Some r => (Verdict r, rules')
              | None => (Failed, rules')
              end
          end
      end
  end.

(** The first step of [_process_email]: the stored row of the message,
    created and flushed when the message is new.  The flag tells whether
    a row was created. *)
Definition store_email (db : database) (e : email_data) (folder : string) (now : Z)
  : database * Email * bool :=
  match email_by_email_id db (email_id e) with
  | Some email_record => (db, email_record, false)
  | None =>
      let email_record := email_of e (next_id e_id (emails db)) folder now in
      (mkDb (emails db ++ [email_record]) (analyses db) (decisions db),
       email_record, true)
  end.

(** The last step: the verdict row of the message is updated when there
    is one and added otherwise. *)
Definition save_analysis (db : database) (email : Z) (r : analysis_result) (now : Z)
  : database :=
  match analysis_by_email db email with
  | Some _ =>
      mkDb (emails db) (update_first email r now (analyses db)) (decisions db)
  | None =>
      mkDb (emails db)
           (analyses db ++ [analysis_of (next_id a_id (analyses db)) email r now])
           (decisions db)
  end.

(** [EmailScanner._process_email].  The result is the database after
    the call, the rule engine and the returned flag; every failure
    path rolls the session back to the state it started from. *)
Definition _process_email (env : Collaborators) (rules : EmailRules)
    (db : database) (now : Z) (e : email_data) (folder : string)
  : database * EmailRules * bool :=
  let '(db1, email_record, created) := store_email db e folder now in
  if created && negb (storage_ok env db1) then (db, rules, false)
  else
    match run_tiers env rules db1 now e with
    | (Failed, rules') => (db, rules', false)
    | (Verdict analysis_result, rules') =>
        let db2 := save_analysis db1 (e_id email_record) analysis_result now in
        if storage_ok env db2 then (db2, rules', true)
        else (db, rules', false)
    end.

End Scanner.

(* ================================================================= *)
(** ** learn_patterns.py: the domain scan of the pattern miner *)

Module LearnPatterns.
Import Py Db.

Record pattern : Type := mkPattern {
  domain : string;
  action : string;
  total_decisions : nat;
  consistency_rate : Q;
  rule_type : string
}.

(** [substr(sender, instr(sender, '@') + 1)]: the text after the first
    "@", or the whole text when there is none. *)
Fixpoint after_at (s : string) : option string :=
  match s with
  | EmptyString => None
  | String c s' => if Ascii.eqb c "@"%char then Some s' else after_at s'
  end.

Definition domain_of (sender : string) : string :=
  match after_at sender with
  | Some d => d
  | None => sender
  end.

(** Decision joined to Email, keyed by the sender's domain. *)
Definition domain_rows (db : database) : list (string * Decision) :=
  flat_map (fun d =>
    map (fun e => (domain_of (e_sender e), d))
        (filter (fun e => e_id e =? d_email_id d) (emails db)))
    (decisions db).

Definition group (dom : string) (rows : list (string * Decision))
  : list (string * Decision) :=
  filter (fun r => String.eqb (fst r) dom) rows.

(** The grouped query: one row per domain with its counts, groups of
    fewer than [min_decisions] rows dropped by the HAVING clause. *)
Definition domain_groups (db : database) (min_decisions : nat)
  : list (string * nat * nat * nat) :=
  let rows := domain_rows db in
  filter (fun g => let '(_, total, _, _) := g in (min_decisions <=? total)%nat)
    (map (fun dom =>
            let g := group dom rows in
            (dom, length g,
             count (fun r => action_is "kept" (snd r)) g,
             count (fun r => action_is "deleted" (snd r)) g))
         (nodup string_dec (map fst rows))).

(** [get_domain_patterns] *)
Definition get_domain_patterns (db : database) (min_decisions : nat)
    (pattern_threshold : Q) : list pattern :=
  flat_map (fun g =>
    let '(dom, total, keep_count, delete_count) := g in
    if String.eqb dom EmptyString || contains "@" dom then []
    else
      let keep_rate := if (0 <? total)%nat then ratio keep_count total else 0%Q in
      let delete_rate := if (0 <? total)%nat then ratio delete_count total else 0%Q in
      if Qle_bool pattern_threshold delete_rate then
        [ {| domain := dom;
             action := "delete";
             total_decisions := total;
             consistency_rate := delete_rate;
             rule_type := "domain_auto_delete" |} ]
      else [])
    (domain_groups db min_decisions).

End LearnPatterns.

(* ================================================================= *)
(** * Properties *)

Import Py Time Rules Db Env.

(** ** Helper lemmas *)

Lemma Qle_bool_false_lt (x y : Q) : Qle_bool x y = false -> (y < x)%Q.
Proof.
  intros H. apply Qnot_le_lt. intros Hle.
  apply Qle_bool_iff in Hle. congruence.
Qed.

(** Splitting the chain of [if]s of a hypothesis, one test at a time. *)
Ltac split_ifs H :=
  repeat match type of H with
         | context [if ?c then _ else _] =>
             let E := fresh "E" in destruct c eqn:E
         end.

(* ----------------------------------------------------------------- *)
(** ** The rule matcher *)

Section RuleOrder.
Variables (r : EmailRules) (now : Z) (e : email_data).

(** C4. A message that matches both the old-event rule (an event
    keyword is present and the age exceeds [old_event_days]) and the
    VIP-sender rule receives the old-event verdict: delete with
    confidence 0.93.  Rule 1 is tested before rule 2 and the first
    match wins. *)
Theorem check_email_old_event_before_vip :
  forall d : datetime,
    date e = Some d ->
    _is_event r (lower (subject e)) (lower (body_preview e)) = true ->
    old_event_days r < age_days now d ->
    _is_vip_sender r (lower (sender e)) = true ->
    exists v r',
      check_email r now e = (Some v, r')
      /\ recommendation v = "delete"
      /\ confidence_score v = 0.93%Q
      /\ category v = PStr "event"
      /\ extra v = Some ("rule_matched", "old_event")
      /\ old_event_deleted (stats r') = S (old_event_deleted (stats r))
      /\ vip_kept (stats r') = vip_kept (stats r).
Proof.
  intros d Hdate Hevent Hage Hvip.
  unfold check_email. rewrite Hdate. unfold dated at 1.
  unfold _is_old_event. rewrite Hevent.
  apply Z.ltb_lt in Hage. rewrite Hage. cbv [negb].
  do 2 eexists. repeat split.
Qed.

End RuleOrder.

(** The thresholds of the age-gated rules, read off the code: the
    old-event rule needs an age above its threshold, the other three
    reject only an age below theirs. *)
Lemma old_event_gate r now s b d :
  _is_old_event r now s b d = true -> old_event_days r < age_days now d.
Proof.
  unfold _is_old_event. destruct (negb _); [discriminate|]. apply Z.ltb_lt.
Qed.

Lemma old_job_gate r now s b d :
  _is_old_job_offer r now s b d = true -> old_job_days r <= age_days now d.
Proof.
  unfold _is_old_job_offer. destruct (_ <? _) eqn:E; [discriminate|].
  intros _. apply Z.ltb_ge in E. exact E.
Qed.

Lemma old_newsletter_gate r now s b d :
  _is_old_newsletter r now s b d = true -> old_newsletter_days r <= age_days now d.
Proof.
  unfold _is_old_newsletter. destruct (_ <? _) eqn:E; [discriminate|].
  intros _. apply Z.ltb_ge in E. exact E.
Qed.

Lemma old_promotional_gate r now s b d :
  _is_old_promotional r now s b d = true -> old_promotional_days r <= age_days now d.
Proof.
  unfold _is_old_promotional. destruct (_ <? _) eqn:E; [discriminate|].
  intros _. apply Z.ltb_ge in E. exact E.
Qed.

(** A configuration with one VIP sender and the default keyword lists
    and thresholds (60, 180, 7 and 90 days). *)
Definition sample_rules : EmailRules :=
  Rules.init ["a@b.com"] [] [] 60 180 [] 7 [] 90.

Definition day (n : Z) : Z := n * us_per_day.

Definition epoch : datetime := mkDatetime 0 None.

Definition vip_event_mail : email_data :=
  {| email_id := "101"; sender := "Ann <A@B.com>"; recipient := "me@example.org";
     subject := "Team Meeting"; body_preview := "See you there";
     body_full := "See you there"; date := Some epoch; size_bytes := 120;
     has_attachments := false |}.

Lemma check_email_old_event_before_vip_witness :
  exists v r',
    check_email sample_rules (day 61) vip_event_mail = (Some v, r')
    /\ recommendation v = "delete"
    /\ confidence_score v = 0.93%Q
    /\ category v = PStr "event"
    /\ extra v = Some ("rule_matched", "old_event")
    /\ old_event_deleted (stats r') = S (old_event_deleted (stats sample_rules))
    /\ vip_kept (stats r') = vip_kept (stats sample_rules).
Proof.
  apply (check_email_old_event_before_vip sample_rules (day 61) vip_event_mail epoch).
  - reflexivity.
  - vm_compute; reflexivity.
  - vm_compute; reflexivity.
  - vm_compute; reflexivity.
Defined.

(** One day younger, the same message is kept by the VIP rule. *)
Example vip_event_mail_at_threshold :
  fst (check_email sample_rules (day 60) vip_event_mail)
  = Some (rule_result "keep" 0.99 "VIP sender: ann <a@b.com>"
            "personal" "high" "vip_sender").
Proof. vm_compute; reflexivity. Qed.

Definition job_mail : email_data :=
  {| email_id := "102"; sender := "jobs@staffing.example.com";
     recipient := "me@example.org";
     subject := "Job opportunity: senior developer";
     body_preview := "We found a role for you"; body_full := "";
     date := Some epoch; size_bytes := 300; has_attachments := false |}.

Definition newsletter_mail : email_data :=
  {| email_id := "103"; sender := "news@daily.example.com";
     recipient := "me@example.org";
     subject := "Morning briefing"; body_preview := "Top stories"; body_full := "";
     date := Some epoch; size_bytes := 300; has_attachments := false |}.

Definition promo_mail : email_data :=
  {| email_id := "104"; sender := "shop@store.example.com";
     recipient := "me@example.org";
     subject := "Big discount this week"; body_preview := "Everything must go";
     body_full := ""; date := Some epoch; size_bytes := 300;
     has_attachments := false |}.

(** C5, as stated, fails: with the thresholds 180, 7 and 90 days, a job
    offer aged exactly 180 days, a newsletter aged exactly 7 days and a
    promotional message aged exactly 90 days match their rules and are
    deleted. *)
Lemma age_equal_to_threshold_matches :
  age_days (day 180) epoch = old_job_days sample_rules
  /\ _is_old_job_offer sample_rules (day 180)
       (lower (subject job_mail)) (lower (body_preview job_mail)) epoch = true
  /\ option_map recommendation (fst (check_email sample_rules (day 180) job_mail))
     = Some "delete"
  /\ age_days (day 7) epoch = old_newsletter_days sample_rules
  /\ _is_old_newsletter sample_rules (day 7)
       (lower (sender newsletter_mail)) (lower (subject newsletter_mail)) epoch = true
  /\ option_map recommendation (fst (check_email sample_rules (day 7) newsletter_mail))
     = Some "delete"
  /\ age_days (day 90) epoch = old_promotional_days sample_rules
  /\ _is_old_promotional sample_rules (day 90)
       (lower (subject promo_mail)) (lower (body_preview promo_mail)) epoch = true
  /\ option_map recommendation (fst (check_email sample_rules (day 90) promo_mail))
     = Some "delete".
Proof. vm_compute. repeat split. Qed.

(** C5, amended. The age of a message is [now] minus its receipt time in
    whole days, a naive timestamp being read as UTC.  The old-event rule
    matches only when the age is strictly greater than [old_event_days].
    The old-job, old-newsletter and old-promotional rules match only when
    the age is at least their threshold, and at an age equal to the
    threshold they match exactly when their keyword or sender test does. *)
Theorem age_gated_rules :
  forall (r : EmailRules) (now : Z) (d : datetime),
    (utcoffset_us d = None -> age_days now d = (now - wall_us d) / us_per_day)
    /\ (forall off, utcoffset_us d = Some off ->
          age_days now d = (now - (wall_us d - off)) / us_per_day)
    /\ (forall s b, _is_old_event r now s b d = true ->
          old_event_days r < age_days now d)
    /\ (forall s b, _is_old_job_offer r now s b d = true ->
          old_job_days r <= age_days now d)
    /\ (forall s b, _is_old_newsletter r now s b d = true ->
          old_newsletter_days r <= age_days now d)
    /\ (forall s b, _is_old_promotional r now s b d = true ->
          old_promotional_days r <= age_days now d)
    /\ (forall s b, age_days now d = old_event_days r ->
          _is_old_event r now s b d = false)
    /\ (forall s b, age_days now d = old_job_days r ->
          _is_old_job_offer r now s b d = any_in (job_keywords r) (text_of s b))
    /\ (forall s b, age_days now d = old_newsletter_days r ->
          _is_old_newsletter r now s b d = any_in (newsletter_senders r) (lower s))
    /\ (forall s b, age_days now d = old_promotional_days r ->
          _is_old_promotional r now s b d
          = any_in (promotional_keywords r) (text_of s b)).
Proof.
  intros r now d.
  split; [|split].
  { intros H. unfold age_days, utc_instant. rewrite H. reflexivity. }
  { intros off H. unfold age_days, utc_instant. rewrite H. reflexivity. }
  split; [intros s b; apply old_event_gate|].
  split; [intros s b; apply old_job_gate|].
  split; [intros s b; apply old_newsletter_gate|].
  split; [intros s b; apply old_promotional_gate|].
  split; [|split; [|split]]; intros s b H.
  - unfold _is_old_event. rewrite H, Z.ltb_irrefl.
    destruct (negb _); reflexivity.
  - unfold _is_old_job_offer. rewrite H, Z.ltb_irrefl. reflexivity.
  - unfold _is_old_newsletter. rewrite H, Z.ltb_irrefl. reflexivity.
  - unfold _is_old_promotional. rewrite H, Z.ltb_irrefl. reflexivity.
Qed.

Lemma age_gated_rules_witness :
  age_days (day 180) epoch = (day 180 - wall_us epoch) / us_per_day
  /\ old_job_days sample_rules
     <= age_days (day 180) epoch
  /\ _is_old_event sample_rules (day 60) "team meeting" "" epoch = false
  /\ _is_old_job_offer sample_rules (day 180) "job alert" "" epoch
     = any_in (job_keywords sample_rules) (text_of "job alert" "").
Proof.
  split; [|split; [|split]].
  - apply (age_gated_rules sample_rules (day 180) epoch). reflexivity.
  - apply (age_gated_rules sample_rules (day 180) epoch) with (s := "job alert") (b := "").
    vm_compute; reflexivity.
  - apply (age_gated_rules sample_rules (day 60) epoch). vm_compute; reflexivity.
  - apply (age_gated_rules sample_rules (day 180) epoch). vm_compute; reflexivity.
Defined.

(* ----------------------------------------------------------------- *)
(** ** Sender history *)

(** The statistics of a sender, whether or not any row was found. *)
Lemma get_sender_stats_eq (db : database) (s : string) :
  let rows := SenderMemory.sender_rows db s in
  let total := length rows in
  let kept := Db.count (fun r => action_is "kept" (snd (fst r))) rows in
  let deleted := Db.count (fun r => action_is "deleted" (snd (fst r))) rows in
  let st := SenderMemory.get_sender_stats db s in
  SenderMemory.total_decisions st = total
  /\ SenderMemory.kept_count st = kept
  /\ SenderMemory.deleted_count st = deleted
  /\ SenderMemory.keep_rate st = (if (0 <? total)%nat then Db.ratio kept total else 0%Q)
  /\ SenderMemory.delete_rate st
     = (if (0 <? total)%nat then Db.ratio deleted total else 0%Q)
  /\ SenderMemory.has_pattern st
     = ((3 <=? total)%nat
        && (Qle_bool 0.9 (SenderMemory.keep_rate st)
            || Qle_bool 0.9 (SenderMemory.delete_rate st))).
Proof.
  unfold SenderMemory.get_sender_stats.
  destruct (SenderMemory.sender_rows db s) as [|row rows]; cbv zeta.
  - repeat split.
  - repeat split.
Qed.

Lemma ratio_self (n : nat) : (0 < n)%nat -> (Db.ratio n n == 1)%Q.
Proof.
  intros Hn. unfold Db.ratio. apply Qmult_inv_r.
  intros H. unfold Qeq in H. simpl in H. lia.
Qed.

(** C6. The sender-history bypass returns a verdict exactly when the
    sender has at least 3 decisions and a keep rate or a delete rate of
    at least 0.9, the keep rate being tested first.  The verdict's
    confidence is the winning rate and its reasoning gives the kept or
    deleted count over the total.  Two decisions never suffice; three
    identical kept or deleted decisions do. *)
Theorem should_skip_llm_spec :
  forall (db : database) (sender : string),
    let st := SenderMemory.get_sender_stats db sender in
    let rows := SenderMemory.sender_rows db sender in
    let total := SenderMemory.total_decisions st in
    let kept := SenderMemory.kept_count st in
    let deleted := SenderMemory.deleted_count st in
    (total = length rows
     /\ kept = Db.count (fun r => action_is "kept" (snd (fst r))) rows
     /\ deleted = Db.count (fun r => action_is "deleted" (snd (fst r))) rows
     /\ ((0 < total)%nat ->
         SenderMemory.keep_rate st = Db.ratio kept total
         /\ SenderMemory.delete_rate st = Db.ratio deleted total))
    /\ ((exists v, SenderMemory.should_skip_llm db sender = Some v)
        <-> (3 <= total)%nat
            /\ (0.9 <= SenderMemory.keep_rate st
                \/ 0.9 <= SenderMemory.delete_rate st)%Q)
    /\ (forall v, SenderMemory.should_skip_llm db sender = Some v ->
          ((0.9 <= SenderMemory.keep_rate st)%Q
           /\ recommendation v = "keep"
           /\ confidence_score v = SenderMemory.keep_rate st
           /\ reasoning v
              = PStr ("Pattern detected: You've kept " ++ str_of_nat kept ++ "/"
                        ++ str_of_nat total ++ " emails from this sender"))
          \/
          ((SenderMemory.keep_rate st < 0.9)%Q
           /\ (0.9 <= SenderMemory.delete_rate st)%Q
           /\ recommendation v = "delete"
           /\ confidence_score v = SenderMemory.delete_rate st
           /\ reasoning v
              = PStr ("Pattern detected: You've deleted " ++ str_of_nat deleted ++ "/"
                        ++ str_of_nat total ++ " emails from this sender")))
    /\ (total = 2%nat -> SenderMemory.should_skip_llm db sender = None)
    /\ (total = 3%nat -> kept = 3%nat \/ deleted = 3%nat ->
        exists v, SenderMemory.should_skip_llm db sender = Some v).
Proof.
  intros db sender. cbv zeta.
  pose proof (get_sender_stats_eq db sender) as Heq. cbv zeta in Heq.
  destruct Heq as (Htot & Hkept & Hdel & Hkr & Hdr & Hpat).
  rewrite <- Htot in Hkr, Hdr, Hpat. rewrite <- Hkept in Hkr. rewrite <- Hdel in Hdr.
  set (st := SenderMemory.get_sender_stats db sender) in *.
  set (total := SenderMemory.total_decisions st) in *.
  set (kept := SenderMemory.kept_count st) in *.
  set (deleted := SenderMemory.deleted_count st) in *.
  assert (Hiff : (exists v, SenderMemory.should_skip_llm db sender = Some v)
                 <-> (3 <= total)%nat
                     /\ (0.9 <= SenderMemory.keep_rate st
                         \/ 0.9 <= SenderMemory.delete_rate st)%Q).
  { unfold SenderMemory.should_skip_llm. fold st. rewrite Hpat. split.
    - intros [v H].
      destruct (3 <=? total)%nat eqn:E3; [|discriminate].
      apply Nat.leb_le in E3. split; [exact E3|].
      destruct (Qle_bool 0.9 (SenderMemory.keep_rate st)) eqn:Ek.
      + left. apply Qle_bool_iff. exact Ek.
      + destruct (Qle_bool 0.9 (SenderMemory.delete_rate st)) eqn:Ed;
          [|discriminate].
        right. apply Qle_bool_iff. exact Ed.
    - intros [H3 Hr]. apply Nat.leb_le in H3. rewrite H3.
      destruct (Qle_bool 0.9 (SenderMemory.keep_rate st)) eqn:Ek.
      + cbv [orb andb negb]. eexists. reflexivity.
      + destruct Hr as [Hr|Hr]; apply Qle_bool_iff in Hr; [congruence|].
        rewrite Hr. cbv [orb andb negb]. eexists. reflexivity. }
  split; [|split; [exact Hiff|split; [|split]]].
  - split; [exact Htot|split; [exact Hkept|split; [exact Hdel|]]].
    intros Hpos. apply Nat.ltb_lt in Hpos. rewrite Hpos in Hkr, Hdr.
    split; assumption.
  - intros v. unfold SenderMemory.should_skip_llm. fold st.
    destruct (negb (SenderMemory.has_pattern st)); [discriminate|].
    destruct (Qle_bool 0.9 (SenderMemory.keep_rate st)) eqn:Ek.
    + intros H. injection H as <-. left.
      apply Qle_bool_iff in Ek. repeat split. exact Ek.
    + destruct (Qle_bool 0.9 (SenderMemory.delete_rate st)) eqn:Ed;
        [|discriminate].
      intros H. injection H as <-. right.
      apply Qle_bool_false_lt in Ek. apply Qle_bool_iff in Ed.
      repeat split; assumption.
  - intros H2. unfold SenderMemory.should_skip_llm. fold st.
    rewrite Hpat, H2. reflexivity.
  - intros H3 Hsame. apply Hiff. split; [lia|].
    rewrite Hkr, Hdr, H3. cbv [Nat.ltb Nat.leb].
    destruct Hsame as [-> | ->]; [left|right];
      (rewrite ratio_self by lia); unfold Qle; simpl; lia.
Qed.

(** Sample rows. *)
Definition mail (id : Z) (from : string) : Email :=
  mkEmail id (str_of_Z id) from "me@example.org" "Hello" "" "" (Some epoch)
          100 false "INBOX" 0.

Definition verdict_row (id email : Z) (rec : string) (conf : Q) (status : string)
  : Analysis :=
  mkAnalysis id email rec conf (PStr "because") (PStr "newsletter") (PStr "low")
             "llama3.2" "latest" status 0.

Definition decided (id email : Z) (approved : bool) (action : string) : Decision :=
  mkDecision id email approved (Some action) "" 0.

Definition shop : string := "promo@shop.example.com".

(** Two, then three, deleted messages of one sender. *)
Definition two_deleted : database :=
  {| emails := [mail 1 shop; mail 2 shop];
     analyses := [verdict_row 1 1 "delete" 0.8 "approved";
                  verdict_row 2 2 "delete" 0.8 "approved"];
     decisions := [decided 1 1 true "deleted"; decided 2 2 true "deleted"] |}.

Definition three_deleted : database :=
  {| emails := emails two_deleted ++ [mail 3 shop];
     analyses := analyses two_deleted ++ [verdict_row 3 3 "delete" 0.8 "approved"];
     decisions := decisions two_deleted ++ [decided 3 3 true "deleted"] |}.

Example two_deleted_no_bypass : SenderMemory.should_skip_llm two_deleted shop = None.
Proof. vm_compute; reflexivity. Qed.

Example three_deleted_bypass :
  SenderMemory.should_skip_llm three_deleted shop
  = Some (SenderMemory.pattern_result "delete" (Db.ratio 3 3)
            "Pattern detected: You've deleted 3/3 emails from this sender" "low").
Proof. vm_compute; reflexivity. Qed.

Lemma should_skip_llm_spec_witness :
  SenderMemory.should_skip_llm two_deleted shop = None
  /\ exists v, SenderMemory.should_skip_llm three_deleted shop = Some v.
Proof.
  split.
  - apply (should_skip_llm_spec two_deleted shop). vm_compute; reflexivity.
  - apply (should_skip_llm_spec three_deleted shop).
    + vm_compute; reflexivity.
    + right. vm_compute; reflexivity.
Defined.

(* ----------------------------------------------------------------- *)
(** ** What the first two tiers can recommend *)

Ltac rule_verdict_case :=
  cbn [recommendation confidence_score rule_result];
  split; [auto | split; [discriminate | unfold Qle; simpl; lia]].

(** C10. A verdict of the rule tier or of the pattern tier recommends
    keep or delete, never archive, and carries a confidence of at least
    0.9; in the pipeline an archive verdict therefore comes from the
    classifier only. *)
Theorem rule_and_pattern_verdicts :
  (forall (r : EmailRules) (now : Z) (e : email_data) v r',
      check_email r now e = (Some v, r') ->
      (recommendation v = "keep" \/ recommendation v = "delete")
      /\ recommendation v <> "archive"
      /\ (0.9 <= confidence_score v)%Q)
  /\ (forall (db : database) (sender : string) v,
         SenderMemory.should_skip_llm db sender = Some v ->
         (recommendation v = "keep" \/ recommendation v = "delete")
         /\ recommendation v <> "archive"
         /\ (0.9 <= confidence_score v)%Q)
  /\ (forall (env : Collaborators) (r : EmailRules) (db : database) (now : Z)
             (e : email_data) v r',
         Scanner.run_tiers env r db now e = (Scanner.Verdict v, r') ->
         recommendation v = "archive" ->
         fst (check_email r now e) = None
         /\ SenderMemory.should_skip_llm db (sender e) = None
         /\ exists a, Analyzer.analyze_email env db e = Some a
                      /\ recommendation a = "archive").
Proof.
  assert (Hrule : forall r now e v r',
             check_email r now e = (Some v, r') ->
             (recommendation v = "keep" \/ recommendation v = "delete")
             /\ recommendation v <> "archive"
             /\ (0.9 <= confidence_score v)%Q).
  { intros r now e v r' H. unfold check_email in H.
    split_ifs H; try discriminate; injection H as <- _; rule_verdict_case. }
  assert (Hpat : forall db sender v,
             SenderMemory.should_skip_llm db sender = Some v ->
             (recommendation v = "keep" \/ recommendation v = "delete")
             /\ recommendation v <> "archive"
             /\ (0.9 <= confidence_score v)%Q).
  { intros db s v H. unfold SenderMemory.should_skip_llm in H.
    split_ifs H; try discriminate; injection H as <-;
      cbn [recommendation confidence_score SenderMemory.pattern_result];
      (split; [auto | split; [discriminate | apply Qle_bool_iff; assumption]]). }
  split; [exact Hrule|split; [exact Hpat|]].
  intros env r db now e v r' H Harch. unfold Scanner.run_tiers in H.
  destruct (check_email r now e) as [[rv|] r1] eqn:Ec.
  - injection H as <- _. apply Hrule in Ec.
    destruct Ec as (_ & Hna & _). exfalso. apply Hna. exact Harch.
  - destruct (SenderMemory.should_skip_llm db (sender e)) as [pv|] eqn:Ep.
    + injection H as <- _. apply Hpat in Ep.
      destruct Ep as (_ & Hna & _). exfalso. apply Hna. exact Harch.
    + destruct (Analyzer.analyze_email env db e) as [a|] eqn:Ea; [|discriminate].
      split; [reflexivity|split; [reflexivity|]].
      exists a. split; [reflexivity|].
      unfold Scanner.apply_calibration in H.
      destruct (Calibration.calibrate_confidence _ _ _ _) as [cal why].
      destruct (negb _).
      * destruct (Scanner.iadd_str _ _); [|discriminate].
        injection H as <- _. exact Harch.
      * injection H as <- _. exact Harch.
Qed.

Definition llama : Collaborators := 
  {| json_loads := fun _ => None;
     float_of_str := fun _ => None;
     format_pct := fun _ => "?";
     call_ollama := fun _ _ => None;
     storage_ok := fun _ => true;
     model := "llama3.2" |}.

Lemma rule_and_pattern_verdicts_witness :
  (exists v, fst (check_email sample_rules (day 61) vip_event_mail) = Some v
             /\ recommendation v <> "archive" /\ (0.9 <= confidence_score v)%Q)
  /\ (exists v, SenderMemory.should_skip_llm three_deleted shop = Some v
                /\ recommendation v <> "archive" /\ (0.9 <= confidence_score v)%Q).
Proof.
  split.
  - destruct (check_email sample_rules (day 61) vip_event_mail) as [[v|] r'] eqn:E;
      [|vm_compute in E; discriminate E].
    exists v. split; [reflexivity|].
    apply (proj1 rule_and_pattern_verdicts _ _ _ _ _ E).
  - destruct (SenderMemory.should_skip_llm three_deleted shop) as [v|] eqn:E;
      [|vm_compute in E; discriminate E].
    exists v. split; [reflexivity|].
    apply (proj1 (proj2 rule_and_pattern_verdicts) _ _ _ E).
Defined.

(* ----------------------------------------------------------------- *)
(** ** The domain scan of the pattern miner *)

Section DomainScan.
Import LearnPatterns.
Variable db : database.

Let rows := domain_rows db.

Definition group_total (dom : string) : nat := length (group dom rows).
Definition group_kept (dom : string) : nat :=
  Db.count (fun r => action_is "kept" (snd r)) (group dom rows).
Definition group_deleted (dom : string) : nat :=
  Db.count (fun r => action_is "deleted" (snd r)) (group dom rows).

Lemma group_nonempty_in (dom : string) :
  (0 < group_total dom)%nat -> In dom (map fst rows).
Proof.
  unfold group_total, group. intros H.
  destruct (filter _ rows) as [|x xs] eqn:E; [simpl in H; lia|].
  assert (Hx : In x (filter (fun r => String.eqb (fst r) dom) rows))
    by (rewrite E; left; reflexivity).
  apply filter_In in Hx. destruct Hx as [Hin Heq].
  apply String.eqb_eq in Heq. subst dom. apply in_map. exact Hin.
Qed.

(** The proposals of the scan, one by one. *)
Lemma in_get_domain_patterns (n : nat) (t : Q) (p : pattern) :
  In p (get_domain_patterns db n t)
  <-> exists dom,
        In dom (map fst rows)
        /\ (n <= group_total dom)%nat
        /\ dom <> EmptyString
        /\ contains "@" dom = false
        /\ let rate := if (0 <? group_total dom)%nat
                       then Db.ratio (group_deleted dom) (group_total dom)
                       else 0%Q in
           Qle_bool t rate = true
           /\ p = mkPattern dom "delete" (group_total dom) rate "domain_auto_delete".
Proof.
  unfold get_domain_patterns. rewrite in_flat_map. split.
  - intros (g & Hg & Hp). unfold domain_groups in Hg.
    apply filter_In in Hg. destruct Hg as [Hg Hhave].
    apply in_map_iff in Hg. destruct Hg as (dom & <- & Hdom).
    apply nodup_In in Hdom. cbv beta iota zeta in Hhave, Hp.
    fold rows in Hhave, Hp, Hdom.
    fold (group_total dom) in Hhave, Hp. fold (group_deleted dom) in Hp.
    exists dom. apply Nat.leb_le in Hhave.
    destruct (String.eqb dom EmptyString) eqn:Ee; [destruct Hp|].
    destruct (contains "@" dom) eqn:Ea; [destruct Hp|].
    cbv [orb] in Hp.
    destruct (Qle_bool t _) eqn:Et; [|destruct Hp].
    destruct Hp as [<-|[]].
    apply String.eqb_neq in Ee.
    repeat split; assumption.
  - intros (dom & Hdom & Hn & Hne & Hat & Ht & ->).
    exists (dom, group_total dom, group_kept dom, group_deleted dom). split.
    + unfold domain_groups. apply filter_In. split.
      * apply in_map_iff. exists dom. split; [reflexivity|].
        apply nodup_In. exact Hdom.
      * apply Nat.leb_le. exact Hn.
    + cbv beta iota zeta. apply String.eqb_neq in Hne. rewrite Hne, Hat.
      cbv [orb]. rewrite Ht. left. reflexivity.
Qed.

Lemma all_kept_none_deleted (dom : string) :
  group_kept dom = group_total dom -> group_deleted dom = 0%nat.
Proof.
  unfold group_kept, group_deleted, group_total, Db.count.
  induction (group dom rows) as [|x xs IH]; [reflexivity|].
  simpl. intros H.
  pose proof (filter_length_le (fun r => action_is "kept" (snd r)) xs) as Hle.
  destruct (action_is "kept" (snd x)) eqn:Ek.
  - simpl in H. injection H as H.
    replace (action_is "deleted" (snd x)) with false; [apply IH; exact H|].
    unfold action_is in *. destruct (d_action_taken (snd x)) as [a|]; [|reflexivity].
    apply String.eqb_eq in Ek. subst a. reflexivity.
  - lia.
Qed.

(** C9, amended. The domain scan proposes delete rules only.  A rule
    is proposed for the text after the first "@" of a sender exactly
    when that text is non-empty, contains no further "@", and has at
    least 8 decisions with a delete rate of at least 0.9; any other
    group is skipped as an invalid domain.  No keep rule is ever
    proposed, whatever the number of consistently kept decisions. *)
Theorem get_domain_patterns_delete_only :
  (forall p, In p (get_domain_patterns db 8 0.9) ->
      action p = "delete"
      /\ action p <> "keep"
      /\ rule_type p = "domain_auto_delete"
      /\ total_decisions p = group_total (domain p)
      /\ (8 <= total_decisions p)%nat
      /\ consistency_rate p
         = Db.ratio (group_deleted (domain p)) (group_total (domain p))
      /\ (0.9 <= consistency_rate p)%Q)
  /\ (forall dom, dom <> EmptyString -> contains "@" dom = false ->
        ((exists p, In p (get_domain_patterns db 8 0.9) /\ domain p = dom)
         <-> (8 <= group_total dom)%nat
             /\ (0.9 <= Db.ratio (group_deleted dom) (group_total dom))%Q))
  /\ (forall dom, group_kept dom = group_total dom ->
        ~ exists p, In p (get_domain_patterns db 8 0.9) /\ domain p = dom)
  /\ (forall p, In p (get_domain_patterns db 8 0.9) ->
        domain p <> EmptyString /\ contains "@" (domain p) = false).
Proof.
  assert (Hin : forall p, In p (get_domain_patterns db 8 0.9) ->
            (8 <= group_total (domain p))%nat
            /\ (0.9 <= Db.ratio (group_deleted (domain p)) (group_total (domain p)))%Q
            /\ p = mkPattern (domain p) "delete" (group_total (domain p))
                     (Db.ratio (group_deleted (domain p)) (group_total (domain p)))
                     "domain_auto_delete").
  { intros p Hp. apply in_get_domain_patterns in Hp.
    destruct Hp as (dom & _ & Hn & _ & _ & Ht & ->). cbn [domain].
    assert (Hpos : (0 <? group_total dom)%nat = true) by (apply Nat.ltb_lt; lia).
    rewrite Hpos in *. apply Qle_bool_iff in Ht. repeat split; assumption. }
  split; [|split; [|split]].
  - intros p Hp. destruct (Hin p Hp) as (Hn & Ht & Heq).
    rewrite Heq. cbn [action rule_type total_decisions consistency_rate domain].
    repeat split; try assumption. discriminate.
  - intros dom Hne Hat. split.
    + intros (p & Hp & <-). destruct (Hin p Hp) as (Hn & Ht & _). split; assumption.
    + intros [Hn Ht].
      exists (mkPattern dom "delete" (group_total dom)
                (Db.ratio (group_deleted dom) (group_total dom))
                "domain_auto_delete").
      split; [|reflexivity]. apply in_get_domain_patterns. exists dom.
      assert (Hpos : (0 <? group_total dom)%nat = true) by (apply Nat.ltb_lt; lia).
      split; [apply group_nonempty_in; lia|].
      split; [exact Hn|]. split; [exact Hne|]. split; [exact Hat|].
      cbv zeta. rewrite Hpos. split; [apply Qle_bool_iff; exact Ht|reflexivity].
  - intros dom Hkept (p & Hp & <-). destruct (Hin p Hp) as (Hn & Ht & _).
    rewrite (all_kept_none_deleted _ Hkept) in Ht.
    unfold Db.ratio, Qle, Qdiv, Qmult in Ht. simpl in Ht. lia.
  - intros p Hp. apply in_get_domain_patterns in Hp.
    destruct Hp as (dom & _ & _ & Hne & Hat & _ & ->). cbn [domain].
    split; assumption.
Qed.

End DomainScan.

(** [n] decided messages of one sender, all with the same action. *)
Definition bulk (n : nat) (from action : string) : database :=
  let ids := map Z.of_nat (seq 1 n) in
  {| emails := map (fun i => mail i from) ids;
     analyses := map (fun i => verdict_row i i "delete" 0.8 "approved") ids;
     decisions := map (fun i => decided i i true action) ids |}.

Example eight_deleted_proposed :
  map LearnPatterns.domain (LearnPatterns.get_domain_patterns (bulk 8 shop "deleted") 8 0.9)
  = ["shop.example.com"].
Proof. vm_compute; reflexivity. Qed.

Example twenty_kept_not_proposed :
  LearnPatterns.get_domain_patterns (bulk 20 shop "kept") 8 0.9 = [].
Proof. vm_compute; reflexivity. Qed.

(** C9, as stated, fails: eight deleted messages of a sender written
    with its display form give the text after the first "@" eight
    decisions at delete rate 1, and no rule is proposed, because that
    text contains a further "@". *)
Lemma invalid_domain_not_proposed :
  let db := bulk 8 "x@y.com <x@y.com>" "deleted" in
  map fst (LearnPatterns.domain_rows db) = repeat "y.com <x@y.com>" 8
  /\ group_total db "y.com <x@y.com>" = 8%nat
  /\ group_deleted db "y.com <x@y.com>" = 8%nat
  /\ (0.9 <= Db.ratio (group_deleted db "y.com <x@y.com>")
                      (group_total db "y.com <x@y.com>"))%Q
  /\ LearnPatterns.get_domain_patterns db 8 0.9 = [].
Proof.
  cbv zeta. split; [vm_compute; reflexivity|]. split; [vm_compute; reflexivity|].
  split; [vm_compute; reflexivity|]. split; [vm_compute; discriminate|].
  vm_compute; reflexivity.
Qed.

Lemma get_domain_patterns_delete_only_witness :
  (exists p, In p (LearnPatterns.get_domain_patterns (bulk 8 shop "deleted") 8 0.9)
             /\ LearnPatterns.domain p = "shop.example.com")
  /\ ~ (exists p, In p (LearnPatterns.get_domain_patterns (bulk 20 shop "kept") 8 0.9)
                  /\ LearnPatterns.domain p = "shop.example.com").
Proof.
  split.
  - apply (get_domain_patterns_delete_only (bulk 8 shop "deleted")).
    + discriminate.
    + vm_compute; reflexivity.
    + split; [vm_compute; lia | vm_compute; discriminate].
  - apply (get_domain_patterns_delete_only (bulk 20 shop "kept")).
    vm_compute; reflexivity.
Defined.

(* ----------------------------------------------------------------- *)
(** ** Calibration *)

Section Calibrate.
Import Calibration.

Lemma Qlt_Qle_bool_false (x y : Q) : (x < y)%Q -> Qle_bool y x = false.
Proof.
  intros H. destruct (Qle_bool y x) eqn:E; [|reflexivity].
  apply Qle_bool_iff in E. lra.
Qed.

(** The clamp of the code is the clamp to the unit interval. *)
Lemma clamp_spec (a b : Q) :
  (a == b)%Q -> (py_max 0.0 (py_min 1.0 a) == Qmax 0 (Qmin 1 b))%Q.
Proof.
  intros Hab. unfold py_max, py_min.
  destruct (Qle_bool 1.0 a) eqn:Ea; cbn [negb];
    [apply Qle_bool_iff in Ea | apply Qle_bool_false_lt in Ea].
  - rewrite (Q.min_l 1 b) by lra.
    rewrite (Q.max_r 0 1) by lra.
    destruct (Qle_bool 1.0 0.0) eqn:E0; [vm_compute in E0; discriminate|].
    cbn [negb]. lra.
  - rewrite (Q.min_r 1 b) by lra.
    destruct (Qle_bool a 0.0) eqn:Eb; cbn [negb];
      [apply Qle_bool_iff in Eb | apply Qle_bool_false_lt in Eb].
    + rewrite (Q.max_l 0 b) by lra. lra.
    + rewrite (Q.max_r 0 b) by lra. lra.
Qed.

Lemma stats_of_bucket_fields (db : database) (lo hi : Q) :
  let st := stats_of_bucket db lo hi in
  let rows := bucket_rows db lo hi in
  total_decisions st = length rows
  /\ correct_decisions st = Db.count (fun r => d_approved (fst r)) rows
  /\ sample_size_sufficient st = (5 <=? total_decisions st)%nat
  /\ accuracy st
     = (if (0 <? total_decisions st)%nat
        then Db.ratio (correct_decisions st) (total_decisions st) else 0%Q)
  /\ calibration_error st
     = (if (0 <? total_decisions st)%nat
        then (avg_stated_confidence st - accuracy st)%Q else 0%Q).
Proof. repeat split. Qed.

(** The loop over the buckets finds, for a confidence of the unit
    interval, the bucket whose interval holds it. *)
Lemma find_bucket_unit (db : database) (s : Q) :
  (0 <= s <= 1)%Q ->
  exists lo hi name,
    In (lo, hi, name) buckets
    /\ (lo <= s)%Q
    /\ (s < hi \/ (hi == 1 /\ s <= hi))%Q
    /\ find_bucket s buckets = Some name
    /\ stats_get name (get_bucket_stats db) = Some (stats_of_bucket db lo hi).
Proof.
  intros [H0 H1].
  assert (T : forall x, (x <= s)%Q -> Qle_bool x s = true)
    by (intros x Hx; apply Qle_bool_iff; exact Hx).
  assert (F : forall x, (s < x)%Q -> Qle_bool x s = false)
    by (intros x Hx; apply Qlt_Qle_bool_false; exact Hx).
  destruct (Qlt_le_dec s 0.5) as [L1|G1].
  { exists 0.0%Q, 0.5%Q, "very_low". split; [simpl; auto|].
    split; [lra|]. split; [left; exact L1|]. split; [|reflexivity].
    cbn [find_bucket buckets]. rewrite (T 0.0%Q) by lra. rewrite (F 0.5%Q) by lra.
    reflexivity. }
  destruct (Qlt_le_dec s 0.7) as [L2|G2].
  { exists 0.5%Q, 0.7%Q, "low". split; [simpl; auto|].
    split; [lra|]. split; [left; exact L2|]. split; [|reflexivity].
    cbn [find_bucket buckets].
    rewrite (T 0.0%Q), (T 0.5%Q), (F 0.7%Q) by lra.
    destruct (Qle_bool s 0.5); reflexivity. }
  destruct (Qlt_le_dec s 0.85) as [L3|G3].
  { exists 0.7%Q, 0.85%Q, "medium". split; [simpl; auto 6|].
    split; [lra|]. split; [left; exact L3|]. split; [|reflexivity].
    cbn [find_bucket buckets].
    rewrite (T 0.0%Q), (T 0.5%Q), (T 0.7%Q), (F 0.85%Q) by lra.
    destruct (Qle_bool s 0.5), (Qle_bool s 0.7); reflexivity. }
  destruct (Qlt_le_dec s 0.95) as [L4|G4].
  { exists 0.85%Q, 0.95%Q, "high". split; [simpl; auto 6|].
    split; [lra|]. split; [left; exact L4|]. split; [|reflexivity].
    cbn [find_bucket buckets].
    rewrite (T 0.0%Q), (T 0.5%Q), (T 0.7%Q), (T 0.85%Q), (F 0.95%Q) by lra.
    destruct (Qle_bool s 0.5), (Qle_bool s 0.7), (Qle_bool s 0.85); reflexivity. }
  exists 0.95%Q, 1.0%Q, "very_high". split; [simpl; auto 8|].
  split; [lra|]. split; [right; split; lra|]. split; [|reflexivity].
  cbn [find_bucket buckets].
  rewrite (T 0.0%Q), (T 0.5%Q), (T 0.7%Q), (T 0.85%Q), (T 0.95%Q) by lra.
  assert (E1 : Qle_bool s 1.0 = true) by (apply Qle_bool_iff; lra).
  rewrite E1.
  destruct (Qle_bool s 0.5), (Qle_bool s 0.7), (Qle_bool s 0.85),
    (Qle_bool s 0.95), (Qle_bool 1.0 s); reflexivity.
Qed.

(** C3. For a stated confidence of the unit interval, the bucket that
    holds it decides the result.  With fewer than 5 human-reviewed
    samples in the bucket the stated confidence is returned unchanged
    with an insufficient-data reasoning; otherwise the result is the
    stated confidence less half the bucket's error (average stated
    confidence less observed accuracy), clamped to the unit interval.
    Equal average and accuracy leave the stated confidence unchanged,
    and average 0.90, accuracy 0.70 over 10 samples turn 0.90 into
    0.80. *)
Theorem calibrate_confidence_spec :
  forall (pct : Q -> string) (db : database) (stated : Q) (category : option pyval),
    (0 <= stated <= 1)%Q ->
    exists lo hi name,
      In (lo, hi, name) buckets
      /\ (lo <= stated)%Q
      /\ (stated < hi \/ (hi == 1 /\ stated <= hi))%Q
      /\ let st := stats_of_bucket db lo hi in
         let total := total_decisions st in
         let result := calibrate_confidence pct db stated category in
         stats_get name (get_bucket_stats db) = Some st
         /\ total = length (bucket_rows db lo hi)
         /\ ((total < 5)%nat ->
             result = (stated,
                       "Insufficient data for calibration ("
                         ++ str_of_nat total ++ " samples)"))
         /\ ((5 <= total)%nat ->
             (fst result
              == Qmax 0 (Qmin 1 (stated - 0.5 * (avg_stated_confidence st - accuracy st))))%Q)
         /\ ((avg_stated_confidence st == accuracy st)%Q -> (fst result == stated)%Q)
         /\ (total = 10%nat ->
             (avg_stated_confidence st == 0.90)%Q -> (accuracy st == 0.70)%Q ->
             (stated == 0.90)%Q -> (fst result == 0.80)%Q).
Proof.
  intros pct db stated category Hunit.
  destruct (find_bucket_unit db stated Hunit)
    as (lo & hi & name & Hin & Hlo & Hhi & Hfind & Hget).
  exists lo, hi, name. split; [exact Hin|]. split; [exact Hlo|]. split; [exact Hhi|].
  cbv zeta.
  destruct (stats_of_bucket_fields db lo hi) as (Htot & _ & Hsuff & _ & Herr).
  cbv zeta in Htot, Hsuff, Herr.
  set (st := stats_of_bucket db lo hi) in *.
  assert (Hsmall : (total_decisions st < 5)%nat ->
            calibrate_confidence pct db stated category
            = (stated, "Insufficient data for calibration ("
                         ++ str_of_nat (total_decisions st) ++ " samples)")).
  { intros Hlt. unfold calibrate_confidence. rewrite Hfind, Hget, Hsuff.
    apply Nat.leb_gt in Hlt. rewrite Hlt. reflexivity. }
  assert (Hbig : (5 <= total_decisions st)%nat ->
            (fst (calibrate_confidence pct db stated category)
             == Qmax 0 (Qmin 1 (stated
                  - 0.5 * (avg_stated_confidence st - accuracy st))))%Q).
  { intros Hge. unfold calibrate_confidence. rewrite Hfind, Hget, Hsuff.
    pose proof Hge as Hge'. apply Nat.leb_le in Hge'. rewrite Hge'.
    cbn [negb fst]. apply clamp_spec. rewrite Herr.
    assert (Hpos : (0 <? total_decisions st)%nat = true) by (apply Nat.ltb_lt; lia).
    rewrite Hpos. ring. }
  split; [exact Hget|]. split; [exact Htot|]. split; [exact Hsmall|].
  split; [exact Hbig|]. split.
  - intros Hsame.
    destruct (Nat.lt_ge_cases (total_decisions st) 5) as [Hlt|Hge].
    + rewrite (Hsmall Hlt). reflexivity.
    + rewrite (Hbig Hge). rewrite Hsame.
      destruct Hunit as [H0 H1].
      rewrite (Q.min_r 1) by lra. rewrite (Q.max_r 0) by lra. ring.
  - intros Hten Havg Hacc Hst.
    rewrite Hbig by lia. rewrite Havg, Hacc, Hst.
    rewrite (Q.min_r 1) by lra. rewrite (Q.max_r 0) by lra. lra.
Qed.

End Calibrate.

(** Ten reviewed verdicts stated at 0.90, seven of them approved. *)
Definition ten_high : database :=
  let ids := map Z.of_nat (seq 1 10) in
  {| emails := map (fun i => mail i shop) ids;
     analyses := map (fun i => verdict_row i i "delete" 0.90 "approved") ids;
     decisions := map (fun i => decided i i (i <=? 7) "deleted") ids |}.

Example ten_high_stats :
  option_map (fun st => (Calibration.total_decisions st,
                         Qred (Calibration.avg_stated_confidence st),
                         Qred (Calibration.accuracy st)))
    (Calibration.stats_get "high" (Calibration.get_bucket_stats ten_high))
  = Some (10%nat, 0.9%Q, 0.7%Q).
Proof. vm_compute; reflexivity. Qed.

Lemma calibrate_confidence_spec_witness :
  (fst (Calibration.calibrate_confidence (format_pct llama) ten_high 0.90 None)
   == 0.80)%Q.
Proof.
  destruct (calibrate_confidence_spec (format_pct llama) ten_high 0.90 None)
    as (lo & hi & name & Hin & Hlo & Hhi & _ & _ & _ & _ & _ & H).
  - split; unfold Qle; simpl; lia.
  - simpl in Hin.
    destruct Hin as [E|[E|[E|[E|[E|[]]]]]]; injection E as <- <- <-.
    + exfalso. destruct Hhi as [Hhi|[Hhi _]]; vm_compute in Hhi; discriminate Hhi.
    + exfalso. destruct Hhi as [Hhi|[Hhi _]]; vm_compute in Hhi; discriminate Hhi.
    + exfalso. destruct Hhi as [Hhi|[Hhi _]]; vm_compute in Hhi; discriminate Hhi.
    + apply H; vm_compute; reflexivity.
    + exfalso. apply Hlo. vm_compute; reflexivity.
Defined.

(* ----------------------------------------------------------------- *)
(** ** Parsing the classifier's answer *)

Section Parse.
Import Calibration Analyzer.
Variable env : Collaborators.

Lemma clamp01_unit (f : pyfloat) : (0 <= clamp01 f <= 1)%Q.
Proof.
  destruct f as [q| |[|]]; cbn [clamp01];
    try (split; unfold Qle; simpl; lia).
  rewrite (clamp_spec q q) by reflexivity.
  split.
  - apply Q.le_max_l.
  - apply Q.max_lub; [lra|apply Q.le_min_l].
Qed.

Lemma valid_recommendation_In (s : string) :
  existsb (String.eqb s) valid_recommendations = true <-> In s valid_recommendations.
Proof.
  rewrite existsb_exists. split.
  - intros (x & Hx & E). apply String.eqb_eq in E. subst x. exact Hx.
  - intros H. exists s. split; [exact H|apply String.eqb_refl].
Qed.

(** C7. Parsing a raw answer of the classification service is total
    and its result is validated: the recommendation is one of delete,
    keep and archive, and the confidence lies in the unit interval.  On
    a decoded object, a recommendation outside the three values becomes
    keep, a numeric confidence is clamped to the unit interval, an absent
    or unparsable confidence becomes 0.5, and an absent category or
    priority becomes unknown or medium.  Any other answer yields the
    default analysis. *)
Theorem parse_analysis_response_validated :
  forall response : string,
    let a := _parse_analysis_response env response in
    let decoded := json_loads env (unfenced response) in
    In (recommendation a) ["delete"; "keep"; "archive"]
    /\ (0 <= confidence_score a <= 1)%Q
    /\ (forall d, decoded = Some (PDict d) ->
          (forall rec, dict_get "recommendation" d = Some rec ->
             (forall s, rec = PStr s -> ~ In s ["delete"; "keep"; "archive"]) ->
             recommendation a = "keep")
          /\ (forall rec v q,
                dict_get "recommendation" d = Some rec ->
                dict_get "confidence_score" d = Some v ->
                py_float env v = Some (Fin q) ->
                (confidence_score a == Qmax 0 (Qmin 1 q))%Q
                /\ ((1 < q)%Q -> (confidence_score a == 1)%Q)
                /\ ((q < 0)%Q -> (confidence_score a == 0)%Q))
          /\ (dict_get "confidence_score" d = None -> confidence_score a = 0.5%Q)
          /\ (forall v, dict_get "confidence_score" d = Some v ->
                py_float env v = None -> confidence_score a = 0.5%Q)
          /\ (dict_get "category" d = None -> category a = PStr "unknown")
          /\ (dict_get "priority" d = None -> priority a = PStr "medium"))
    /\ ((forall d, decoded <> Some (PDict d)) -> a = default_analysis).
Proof.
  intros response. cbv zeta. unfold _parse_analysis_response.
  destruct (json_loads env (unfenced response)) as [[| | | | |l|d]|] eqn:Ej;
    try (split; [simpl; auto|];
         split; [split; unfold Qle; simpl; lia|];
         split; [intros d' Hd'; discriminate Hd'|reflexivity]).
  destruct (dict_get "recommendation" d) as [rec|] eqn:Er.
  2:{ split; [simpl; auto|]. split; [split; unfold Qle; simpl; lia|].
      split; [|intros H; exfalso; apply (H d); reflexivity].
      intros d' Hd'. injection Hd' as <-. cbn [recommendation confidence_score
                                                  category priority default_analysis].
      rewrite Er. repeat split; try reflexivity; intros; discriminate. }
  set (recom := match rec with
                | PStr s => if existsb (String.eqb s) valid_recommendations
                            then s else "keep"
                | _ => "keep"
                end).
  assert (Hrecom : In recom ["delete"; "keep"; "archive"]).
  { subst recom. destruct rec; try solve [simpl; auto].
    destruct (existsb (String.eqb s) valid_recommendations) eqn:E.
    - apply valid_recommendation_In. exact E.
    - simpl; auto. }
  assert (Hcoerce : (forall s, rec = PStr s -> ~ In s ["delete"; "keep"; "archive"]) ->
                    recom = "keep").
  { intros H. subst recom. destruct rec; try reflexivity.
    destruct (existsb (String.eqb s) valid_recommendations) eqn:E; [|reflexivity].
    apply valid_recommendation_In in E. exfalso. apply (H s eq_refl). exact E. }
  destruct (dict_get "confidence_score" d) as [v|] eqn:Ec.
  - destruct (py_float env v) as [f|] eqn:Ef; cbn [option_map].
    + cbn [recommendation confidence_score category priority].
      split; [exact Hrecom|]. split; [apply clamp01_unit|].
      split; [|intros H; exfalso; apply (H d); reflexivity].
      intros d' Hd'. injection Hd' as <-. rewrite Er, Ec.
      split; [intros rec' Hr'; injection Hr' as <-; exact Hcoerce|].
      split.
      { intros rec' v' q _ Hv' Hq. injection Hv' as <-.
        rewrite Ef in Hq. injection Hq as ->. cbn [clamp01].
        split; [apply clamp_spec; reflexivity|].
        split; intros Hout; rewrite (clamp_spec q q) by reflexivity.
        - rewrite (Q.min_l 1 q) by lra. rewrite (Q.max_r 0 1) by lra. reflexivity.
        - rewrite (Q.min_r 1 q) by lra. rewrite (Q.max_l 0 q) by lra. reflexivity. }
      split; [intros H; discriminate H|].
      split; [intros v' Hv' Hn; injection Hv' as <-; congruence|].
      unfold setdefault. split; intros ->; reflexivity.
    + cbn [recommendation confidence_score category priority default_analysis].
      split; [simpl; auto|]. split; [split; unfold Qle; simpl; lia|].
      split; [|intros H; exfalso; apply (H d); reflexivity].
      intros d' Hd'. injection Hd' as <-. rewrite Er, Ec.
      split; [reflexivity|].
      split; [intros rec' v' q _ Hv' Hq; injection Hv' as <-; congruence|].
      repeat split; reflexivity.
  - cbn [recommendation confidence_score category priority].
    split; [exact Hrecom|]. split; [split; unfold Qle; simpl; lia|].
    split; [|intros H; exfalso; apply (H d); reflexivity].
    intros d' Hd'. injection Hd' as <-. rewrite Er, Ec.
    split; [intros rec' Hr'; injection Hr' as <-; exact Hcoerce|].
    split; [intros rec' v' q _ Hv'; discriminate Hv'|].
    split; [reflexivity|]. split; [intros v' Hv'; discriminate Hv'|].
    unfold setdefault. split; intros ->; reflexivity.
Qed.

End Parse.

(** A decoder that answers every text with one value, and a service
    that always answers. *)
Definition answering (v : pyval) : Collaborators :=
  {| json_loads := fun _ => Some v;
     float_of_str := fun _ => None;
     format_pct := fun _ => "?";
     call_ollama := fun _ _ => Some "{...}";
     storage_ok := fun _ => true;
     model := "llama3.2" |}.

Definition odd_answer : list (string * pyval) :=
  [("recommendation", PStr "purge"); ("confidence_score", PFloat (Fin 1.7))].

Example odd_answer_parsed :
  Analyzer._parse_analysis_response (answering (PDict odd_answer)) "{...}"
  = {| recommendation := "keep"; confidence_score := 1.0;
       reasoning := PStr "No reasoning provided";
       category := PStr "unknown"; priority := PStr "medium";
       extra := None; model_name := ""; model_version := "" |}.
Proof. vm_compute; reflexivity. Qed.

Lemma parse_analysis_response_validated_witness :
  let a := Analyzer._parse_analysis_response (answering (PDict odd_answer)) "{...}" in
  recommendation a = "keep"
  /\ (confidence_score a == 1)%Q
  /\ category a = PStr "unknown"
  /\ priority a = PStr "medium".
Proof.
  cbv zeta.
  destruct (parse_analysis_response_validated (answering (PDict odd_answer)) "{...}")
    as (_ & _ & H & _).
  destruct (H odd_answer eq_refl) as (H1 & H2 & _ & _ & H5 & H6).
  split; [|split; [|split]].
  - apply (H1 (PStr "purge") eq_refl).
    intros s E. injection E as <-. simpl. intuition discriminate.
  - apply (H2 (PStr "purge") (PFloat (Fin 1.7)) 1.7%Q eq_refl eq_refl eq_refl).
    unfold Qlt; simpl; lia.
  - apply H5. reflexivity.
  - apply H6. reflexivity.
Defined.

(* ----------------------------------------------------------------- *)
(** ** The pipeline *)

Section Pipeline.
Import SenderMemory Calibration Analyzer Scanner.

(** The number of verdict rows a message has. *)
Definition verdicts_of (db : database) (email : Z) : nat :=
  Db.count (fun a => a_email_id a =? email) (analyses db).

Lemma find_none_count {A : Type} (p : A -> bool) (xs : list A) :
  find p xs = None -> Db.count p xs = 0%nat.
Proof.
  unfold Db.count. induction xs as [|x xs IH]; [reflexivity|].
  simpl. destruct (p x); [discriminate|exact IH].
Qed.

Lemma count_app {A : Type} (p : A -> bool) (xs ys : list A) :
  Db.count p (xs ++ ys) = (Db.count p xs + Db.count p ys)%nat.
Proof. unfold Db.count. rewrite filter_app. apply length_app. Qed.

Lemma find_update_first (k : Z) (r : analysis_result) (now : Z) (rows : list Analysis) :
  find (fun a => a_email_id a =? k) (update_first k r now rows)
  = option_map (fun a => analysis_of (a_id a) k r now)
               (find (fun a => a_email_id a =? k) rows).
Proof.
  induction rows as [|a rows IH]; [reflexivity|].
  simpl. destruct (a_email_id a =? k) eqn:E.
  - simpl. rewrite Z.eqb_refl. reflexivity.
  - simpl. rewrite E. exact IH.
Qed.

Lemma count_update_first (j k : Z) (r : analysis_result) (now : Z)
    (rows : list Analysis) :
  Db.count (fun a => a_email_id a =? j) (update_first k r now rows)
  = Db.count (fun a => a_email_id a =? j) rows.
Proof.
  unfold Db.count. induction rows as [|a rows IH]; [reflexivity|].
  simpl. destruct (a_email_id a =? k) eqn:E.
  - simpl. apply Z.eqb_eq in E. rewrite E. destruct (k =? j); reflexivity.
  - simpl. destruct (a_email_id a =? j); simpl; rewrite IH; reflexivity.
Qed.

Lemma ids_update_first (k : Z) (r : analysis_result) (now : Z) (rows : list Analysis) :
  map a_id (update_first k r now rows) = map a_id rows.
Proof.
  induction rows as [|a rows IH]; [reflexivity|].
  simpl. destruct (a_email_id a =? k); simpl; [reflexivity|].
  rewrite IH. reflexivity.
Qed.

Lemma find_app_none {A : Type} (p : A -> bool) (xs : list A) (y : A) :
  find p xs = None -> p y = true -> find p (xs ++ [y]) = Some y.
Proof.
  induction xs as [|x xs IH]; simpl.
  - intros _ Hy. rewrite Hy. reflexivity.
  - destruct (p x); [discriminate|exact IH].
Qed.

(** Saving a verdict leaves exactly one row for the message when it had
    at most one, and touches no other message. *)
Lemma save_analysis_verdicts (db : database) (k : Z) (r : analysis_result) (now : Z) :
  (forall j, verdicts_of (save_analysis db k r now) j
             = match analysis_by_email db k with
               | Some _ => verdicts_of db j
               | None => if j =? k then 1%nat else verdicts_of db j
               end)
  /\ analysis_by_email (save_analysis db k r now) k
     = Some (analysis_of
               (match analysis_by_email db k with
                | Some old => a_id old
                | None => next_id a_id (analyses db)
                end) k r now)
  /\ emails (save_analysis db k r now) = emails db
  /\ decisions (save_analysis db k r now) = decisions db.
Proof.
  unfold save_analysis, verdicts_of, analysis_by_email.
  destruct (find (fun a => a_email_id a =? k) (analyses db)) as [old|] eqn:E.
  - cbn [analyses emails decisions]. split; [|split; [|split; reflexivity]].
    + intros j. apply count_update_first.
    + rewrite find_update_first, E. reflexivity.
  - cbn [analyses emails decisions]. split; [|split; [|split; reflexivity]].
    + intros j. rewrite count_app. unfold Db.count at 2. cbn [filter a_email_id analysis_of].
      rewrite (Z.eqb_sym k j).
      destruct (j =? k) eqn:Ej.
      * apply Z.eqb_eq in Ej. subst j.
        rewrite (find_none_count _ _ E). reflexivity.
      * simpl. lia.
    + apply find_app_none; [exact E|]. cbn [a_email_id analysis_of]. apply Z.eqb_refl.
Qed.

Lemma store_email_keeps (db : database) (e : email_data) (folder : string) (now : Z) :
  let db1 := fst (fst (store_email db e folder now)) in
  analyses db1 = analyses db
  /\ decisions db1 = decisions db
  /\ (forall rec, email_by_email_id db (email_id e) = Some rec ->
        store_email db e folder now = (db, rec, false)).
Proof.
  unfold store_email.
  destruct (email_by_email_id db (email_id e)) as [rec|].
  - repeat split. intros rec' H. injection H as <-. reflexivity.
  - repeat split. intros rec' H. discriminate H.
Qed.

(** The two ways [_process_email] can end. *)
Lemma process_email_cases (env : Collaborators) (rules : EmailRules) (db : database)
    (now : Z) (e : email_data) (folder : string) :
  let db1 := fst (fst (store_email db e folder now)) in
  let email_record := snd (fst (store_email db e folder now)) in
  (exists rules', _process_email env rules db now e folder = (db, rules', false))
  \/ (exists res rules',
        run_tiers env rules db1 now e = (Verdict res, rules')
        /\ _process_email env rules db now e folder
           = (save_analysis db1 (e_id email_record) res now, rules', true)).
Proof.
  cbv zeta. unfold _process_email.
  destruct (store_email db e folder now) as [[db1 rec] created]. cbn [fst snd].
  destruct (created && negb (storage_ok env db1)); [left; eexists; reflexivity|].
  destruct (run_tiers env rules db1 now e) as [[res|] rules'].
  - destruct (storage_ok env _).
    + right. exists res, rules'. split; reflexivity.
    + left. eexists; reflexivity.
  - left. eexists; reflexivity.
Qed.

Lemma check_email_none (r : EmailRules) (now : Z) (e : email_data) :
  fst (check_email r now e) = None -> check_email r now e = (None, r).
Proof.
  unfold check_email. intros H.
  split_ifs H; try discriminate H; reflexivity.
Qed.

End Pipeline.

Section PipelineClaims.
Import SenderMemory Calibration Analyzer Scanner.

Definition billing : string := "billing@corp.example.com".

Definition invoice_mail : email_data :=
  {| email_id := "7"; sender := billing; recipient := "me@example.org";
     subject := "Your invoice"; body_preview := "Please find the document attached";
     body_full := "Please find the document attached"; date := Some epoch;
     size_bytes := 2048; has_attachments := true |}.

Definition empty_db : database := mkDb [] [] [].

(** The invoice already stored, with a verdict a reviewer approved. *)
Definition reviewed_db : database :=
  {| emails := [mail 7 billing];
     analyses := [verdict_row 1 7 "keep" 0.6 "approved"];
     decisions := [decided 1 7 true "kept"] |}.

(** C1, as stated, fails: with the classification service unreachable,
    a message that no rule and no sender pattern decides is processed
    without any verdict being stored; the call reports failure and the
    database is as before. *)
Lemma classifier_outage_no_verdict :
  fst (check_email sample_rules (day 1) invoice_mail) = None
  /\ should_skip_llm (fst (fst (store_email empty_db invoice_mail "INBOX" (day 1))))
       (sender invoice_mail) = None
  /\ analyze_email llama (fst (fst (store_email empty_db invoice_mail "INBOX" (day 1))))
       invoice_mail = None
  /\ _process_email llama sample_rules empty_db (day 1) invoice_mail "INBOX"
     = (empty_db, sample_rules, false)
  /\ analyses (fst (fst (_process_email llama sample_rules empty_db (day 1)
                           invoice_mail "INBOX"))) = [].
Proof. vm_compute. repeat split. Qed.

(** C1, amended. For every message that reaches tier 3, if the
    classification service call fails (no answer, or an empty one), the
    pipeline stores no verdict for the message: the call rolls the
    session back, returns failure and leaves the database, including any
    earlier verdict of the message, as it was. *)
Theorem classifier_failure_rolls_back :
  forall (env : Collaborators) (rules : EmailRules) (db : database) (now : Z)
         (e : email_data) (folder : string),
    let db1 := fst (fst (store_email db e folder now)) in
    fst (check_email rules now e) = None ->
    should_skip_llm db1 (sender e) = None ->
    (call_ollama env db1 e = None \/ call_ollama env db1 e = Some EmptyString) ->
    _process_email env rules db now e folder = (db, rules, false)
    /\ forall k, verdicts_of (fst (fst (_process_email env rules db now e folder))) k
                 = verdicts_of db k.
Proof.
  intros env rules db now e folder db1 Hrule Hpat Hcall.
  assert (Hrun : run_tiers env rules db1 now e = (Failed, rules)).
  { unfold run_tiers. rewrite (check_email_none _ _ _ Hrule), Hpat.
    unfold analyze_email. destruct Hcall as [-> | ->]; reflexivity. }
  assert (H : _process_email env rules db now e folder = (db, rules, false)).
  { unfold _process_email. subst db1.
    destruct (store_email db e folder now) as [[d1 rec] created]. cbn [fst] in Hrun.
    destruct (created && negb (storage_ok env d1)); [reflexivity|].
    rewrite Hrun. reflexivity. }
  rewrite H. split; reflexivity.
Qed.

Lemma classifier_failure_rolls_back_witness :
  _process_email llama sample_rules reviewed_db (day 1) invoice_mail "INBOX"
  = (reviewed_db, sample_rules, false)
  /\ forall k,
       verdicts_of (fst (fst (_process_email llama sample_rules reviewed_db (day 1)
                                invoice_mail "INBOX"))) k
       = verdicts_of reviewed_db k.
Proof.
  apply (classifier_failure_rolls_back llama sample_rules reviewed_db (day 1)
           invoice_mail "INBOX").
  - vm_compute; reflexivity.
  - vm_compute; reflexivity.
  - left. reflexivity.
Defined.

(** Five reviewed verdicts stated at 0.86, four of them approved: the
    bucket from 0.85 to 0.95 has average 0.86 and accuracy 0.80. *)
Definition five_high : database :=
  let ids := map Z.of_nat (seq 1 5) in
  {| emails := map (fun i => mail i shop) ids;
     analyses := map (fun i => verdict_row i i "delete" 0.86 "approved") ids;
     decisions := map (fun i => decided i i (i <=? 4) "deleted") ids |}.

Definition good_answer : list (string * pyval) :=
  [("recommendation", PStr "delete"); ("confidence_score", PFloat (Fin 0.9));
   ("reasoning", PStr "bulk mail"); ("category", PStr "newsletter");
   ("priority", PStr "low")].




End PipelineClaims.

Section Rerun.
Import SenderMemory Calibration Analyzer Scanner.

(** C8, as stated, fails: the stored invoice has an approved verdict;
    while the classification service is unreachable a re-run neither
    updates the verdict nor resets its review status. *)
Lemma failed_rerun_keeps_status :
  email_by_email_id reviewed_db (email_id invoice_mail) = Some (mail 7 billing)
  /\ option_map a_status (analysis_by_email reviewed_db 7) = Some "approved"
  /\ _process_email llama sample_rules reviewed_db (day 1) invoice_mail "INBOX"
     = (reviewed_db, sample_rules, false)
  /\ option_map a_status
       (analysis_by_email
          (fst (fst (_process_email llama sample_rules reviewed_db (day 1)
                       invoice_mail "INBOX"))) 7)
     = Some "approved"
  /\ "approved" <> "pending_review".
Proof. vm_compute. repeat split. intros H. discriminate H. Qed.

(** C8, amended. A run never creates a second verdict for a message:
    after any run every message has at most one verdict if that held
    before, and a message that had a verdict keeps the same verdict
    record.  A re-run that produces a verdict updates that record in
    place, under its old identity, and resets its review status to
    pending; a re-run that fails leaves the database as it was. *)
Theorem rerun_updates_in_place :
  forall (env : Collaborators) (rules : EmailRules) (db : database) (now : Z)
         (e : email_data) (folder : string),
    let result := _process_email env rules db now e folder in
    let db' := fst (fst result) in
    ((forall k, (verdicts_of db k <= 1)%nat) ->
     forall k, (verdicts_of db' k <= 1)%nat)
    /\ (snd result = false -> db' = db)
    /\ (forall rec old,
          email_by_email_id db (email_id e) = Some rec ->
          analysis_by_email db (e_id rec) = Some old ->
          (forall k, verdicts_of db' k = verdicts_of db k)
          /\ map a_id (analyses db') = map a_id (analyses db)
          /\ emails db' = emails db
          /\ decisions db' = decisions db
          /\ (snd result = true ->
              exists res,
                run_tiers env rules db now e = (Verdict res, snd (fst result))
                /\ analysis_by_email db' (e_id rec)
                   = Some (analysis_of (a_id old) (e_id rec) res now)
                /\ option_map a_status (analysis_by_email db' (e_id rec))
                   = Some "pending_review")).
Proof.
  intros env rules db now e folder. cbv zeta.
  destruct (store_email_keeps db e folder now) as (Han & Hdec & Hfound).
  cbv zeta in Han.
  destruct (process_email_cases env rules db now e folder)
    as [[r1 Hf]|(res & r1 & Hrun & Hok)]; cbv zeta in *.
  { rewrite Hf. cbn [fst snd].
    split; [intros H; exact H|]. split; [reflexivity|].
    intros rec old _ _. repeat split. intros H. discriminate H. }
  rewrite Hok. cbn [fst snd].
  set (db1 := fst (fst (store_email db e folder now))) in *.
  set (email_record := snd (fst (store_email db e folder now))) in *.
  destruct (save_analysis_verdicts db1 (e_id email_record) res now)
    as (Hcount & Hrow & Hem & Hde).
  assert (Hv1 : forall k, verdicts_of db1 k = verdicts_of db k)
    by (intros k; unfold verdicts_of; rewrite Han; reflexivity).
  split; [|split; [intros H; discriminate H|]].
  - intros Hinv k. rewrite Hcount.
    destruct (analysis_by_email db1 (e_id email_record)).
    + rewrite Hv1. apply Hinv.
    + destruct (k =? e_id email_record); [lia|]. rewrite Hv1. apply Hinv.
  - intros rec old Hrec Hold.
    assert (Hdb1 : db1 = db) by (subst db1; rewrite (Hfound rec Hrec); reflexivity).
    assert (Her : email_record = rec)
      by (subst email_record; rewrite (Hfound rec Hrec); reflexivity).
    rewrite Hdb1, Her in *. rewrite Hold in Hcount, Hrow.
    split; [exact Hcount|].
    split.
    { unfold save_analysis. rewrite Hold. cbn [analyses]. apply ids_update_first. }
    split; [exact Hem|]. split; [exact Hde|].
    intros _. exists res. split; [exact Hrun|]. split; [exact Hrow|].
    rewrite Hrow. reflexivity.
Qed.

(** A re-run of the stored invoice with an answering classifier. *)
Lemma rerun_updates_in_place_witness :
  let db' := fst (fst (_process_email (answering (PDict good_answer)) sample_rules
                         reviewed_db (day 1) invoice_mail "INBOX")) in
  (forall k, (verdicts_of db' k <= 1)%nat)
  /\ map a_id (analyses db') = map a_id (analyses reviewed_db)
  /\ option_map a_status (analysis_by_email db' 7) = Some "pending_review".
Proof.
  cbv zeta.
  destruct (rerun_updates_in_place (answering (PDict good_answer)) sample_rules
              reviewed_db (day 1) invoice_mail "INBOX") as (Hinv & _ & Hre).
  cbv zeta in Hinv, Hre.
  split.
  - apply Hinv. intros k. unfold verdicts_of, Db.count. cbn [reviewed_db analyses filter].
    destruct (a_email_id (verdict_row 1 7 "keep" 0.6 "approved") =? k); simpl; lia.
  - destruct (Hre (mail 7 billing) (verdict_row 1 7 "keep" 0.6 "approved"))
      as (_ & Hids & _ & _ & Hup).
    + vm_compute; reflexivity.
    + vm_compute; reflexivity.
    + split; [exact Hids|].
      destruct Hup as (res & _ & _ & Hstatus); [vm_compute; reflexivity|].
      exact Hstatus.
Defined.

Example rerun_replaces_verdict :
  map (fun a => (a_id a, a_email_id a, a_recommendation a, a_confidence_score a,
                 a_status a))
      (analyses (fst (fst (_process_email (answering (PDict good_answer)) sample_rules
                             reviewed_db (day 1) invoice_mail "INBOX"))))
  = [(1, 7, "delete", 0.9%Q, "pending_review")].
Proof. vm_compute; reflexivity. Qed.

End Rerun.

(* ================================================================= *)
(** * Further properties of the code *)

(* ----------------------------------------------------------------- *)
(** ** rules.py: maintenance of the VIP list *)

Module RulesAdmin.
Import Py Rules.

Definition with_vip_senders (r : EmailRules) (vips : list string) : EmailRules :=
  {| vip_senders := vips;
     event_keywords := event_keywords r;
     job_keywords := job_keywords r;
     old_event_days := old_event_days r;
     old_job_days := old_job_days r;
     newsletter_senders := newsletter_senders r;
     old_newsletter_days := old_newsletter_days r;
     promotional_keywords := promotional_keywords r;
     old_promotional_days := old_promotional_days r;
     stats := stats r |}.

(** [x in xs] on a list of strings. *)
Definition mem (x : string) (xs : list string) : bool := existsb (String.eqb x) xs.

(** [xs.remove(x)]: the first occurrence is dropped. *)
Fixpoint remove_first (x : string) (xs : list string) : list string :=
  match xs with
  | [] => []
  | y :: ys => if String.eqb x y then ys else y :: remove_first x ys
  end.

(** [EmailRules.add_vip_sender] *)
Definition add_vip_sender (r : EmailRules) (email : string) : EmailRules :=
  let email_lower := lower email in
  if negb (mem email_lower (vip_senders r))
  then with_vip_senders r (vip_senders r ++ [email_lower])
  else r.

(** [EmailRules.remove_vip_sender] *)
Definition remove_vip_sender (r : EmailRules) (email : string) : EmailRules :=
  let email_lower := lower email in
  if mem email_lower (vip_senders r)
  then with_vip_senders r (remove_first email_lower (vip_senders r))
  else r.

(** [EmailRules.get_stats]: a copy of the counters. *)
Definition get_stats (r : EmailRules) : rule_stats := stats r.

(** The sum of the rule counters. *)
Definition stats_total (s : rule_stats) : nat :=
  (vip_kept s + event_kept s + old_event_deleted s + old_job_deleted s
   + old_newsletter_deleted s + old_promotional_deleted s + personal_kept s
   + auto_deleted s)%nat.

(** The counter [check_email] advances for the rule it names. *)
Definition counter_of (rule : string) (s : rule_stats) : nat :=
  if String.eqb rule "old_event" then old_event_deleted s
  else if String.eqb rule "vip_sender" then vip_kept s
  else if String.eqb rule "event" then event_kept s
  else if String.eqb rule "personal_contact" then personal_kept s
  else if String.eqb rule "old_job_offer" then old_job_deleted s
  else if String.eqb rule "old_newsletter" then old_newsletter_deleted s
  else if String.eqb rule "old_promotional" then old_promotional_deleted s
  else 0%nat.

End RulesAdmin.

Section RulesMore.
Import RulesAdmin.

Lemma lower_char_idem (c : ascii) : lower_char (lower_char c) = lower_char c.
Proof. destruct c as [[] [] [] [] [] [] [] []]; reflexivity. Qed.

Lemma lower_idem (s : string) : lower (lower s) = lower s.
Proof.
  induction s as [|c s IH]; [reflexivity|].
  simpl. rewrite lower_char_idem, IH. reflexivity.
Qed.

Lemma prefix_refl (s : string) : String.prefix s s = true.
Proof.
  induction s as [|c s IH]; [reflexivity|].
  simpl. destruct (ascii_dec c c) as [_|N]; [exact IH|exfalso; apply N; reflexivity].
Qed.

Lemma contains_refl (s : string) : contains s s = true.
Proof.
  destruct s as [|c s]; [reflexivity|].
  cbn [contains]. rewrite prefix_refl. reflexivity.
Qed.

Lemma mem_In (x : string) (xs : list string) : mem x xs = true <-> In x xs.
Proof.
  unfold mem. rewrite existsb_exists. split.
  - intros (y & Hy & E). apply String.eqb_eq in E. subst y. exact Hy.
  - intros H. exists x. split; [exact H|apply String.eqb_refl].
Qed.

Lemma remove_first_app_last (x : string) (xs : list string) :
  ~ In x xs -> remove_first x (xs ++ [x]) = xs.
Proof.
  induction xs as [|y ys IH]; simpl.
  - intros _. rewrite String.eqb_refl. reflexivity.
  - intros H. destruct (String.eqb x y) eqn:E.
    + apply String.eqb_eq in E. exfalso. apply H. left. symmetry. exact E.
    + rewrite IH; [reflexivity|]. intros Hin. apply H. right. exact Hin.
Qed.

Lemma remove_first_NoDup (x : string) (xs : list string) :
  NoDup xs -> ~ In x (remove_first x xs).
Proof.
  induction xs as [|y ys IH]; simpl; [intros _ []|].
  intros Hnd. inversion Hnd as [|? ? Hy Hys]; subst.
  destruct (String.eqb x y) eqn:E.
  - apply String.eqb_eq in E. subst y. exact Hy.
  - intros [H|H].
    + subst y. rewrite String.eqb_refl in E. discriminate E.
    + exact (IH Hys H).
Qed.

Lemma remove_first_keeps (x v : string) (xs : list string) :
  v <> x -> In v xs -> In v (remove_first x xs).
Proof.
  intros Hv. induction xs as [|y ys IH]; simpl; [intros []|].
  intros [H|H].
  - subst y. destruct (String.eqb x v) eqn:Ev.
    + apply String.eqb_eq in Ev. exfalso. apply Hv. symmetry. exact Ev.
    + left. reflexivity.
  - destruct (String.eqb x y); [exact H|]. right. exact (IH H).
Qed.

(** Without a received date the verdict of the rule matcher does not
    depend on the clock, and it is never a delete: only the VIP, event
    and personal-contact rules can match. *)
Theorem check_email_undated :
  forall (r : EmailRules) (now now' : Z) (e : email_data),
    date e = None ->
    check_email r now e = check_email r now' e
    /\ forall v r', check_email r now e = (Some v, r') ->
         recommendation v = "keep"
         /\ (extra v = Some ("rule_matched", "vip_sender")
             \/ extra v = Some ("rule_matched", "event")
             \/ extra v = Some ("rule_matched", "personal_contact")).
Proof.
  intros r now now' e Hdate. unfold check_email. rewrite Hdate. cbn [dated].
  split; [reflexivity|].
  intros v r' H. split_ifs H; try discriminate H; injection H as <- _;
    cbn [recommendation extra rule_result]; auto.
Qed.

(** A match advances exactly one counter, the one of the rule named in
    the verdict, by one; no match leaves the engine as it was.  The
    configuration is never touched and the [auto_deleted] counter never
    moves. *)
Theorem check_email_counters :
  forall (r : EmailRules) (now : Z) (e : email_data),
    let result := check_email r now e in
    let r' := snd result in
    vip_senders r' = vip_senders r
    /\ event_keywords r' = event_keywords r
    /\ job_keywords r' = job_keywords r
    /\ newsletter_senders r' = newsletter_senders r
    /\ promotional_keywords r' = promotional_keywords r
    /\ (old_event_days r', old_job_days r', old_newsletter_days r',
        old_promotional_days r')
       = (old_event_days r, old_job_days r, old_newsletter_days r,
          old_promotional_days r)
    /\ auto_deleted (stats r') = auto_deleted (stats r)
    /\ (fst result = None -> r' = r)
    /\ (forall v, fst result = Some v ->
          stats_total (stats r') = S (stats_total (stats r))
          /\ exists rule,
               extra v = Some ("rule_matched", rule)
               /\ counter_of rule (stats r') = S (counter_of rule (stats r))).
Proof.
  intros r now e. cbv zeta. unfold check_email.
  repeat match goal with
         | |- context [if ?c then _ else _] => destruct c
         end;
    cbn [fst snd bump vip_senders event_keywords job_keywords newsletter_senders
         promotional_keywords old_event_days old_job_days old_newsletter_days
         old_promotional_days stats auto_deleted];
    (repeat split; try reflexivity; try (intros H; discriminate H));
    try solve [unfold stats_total; simpl; lia];
    try solve [match goal with
               | H : Some _ = Some _ |- _ => injection H as <-
               end; eexists; split; reflexivity];
    try solve [match goal with
               | H : None = Some _ |- _ => discriminate H
               end].
Qed.

(** The rule matcher reads sender, subject and body preview up to
    letter case only, and nothing else of the message but its date. *)
Theorem check_email_case_insensitive :
  forall (r : EmailRules) (now : Z) (e e' : email_data),
    lower (sender e) = lower (sender e') ->
    lower (subject e) = lower (subject e') ->
    lower (body_preview e) = lower (body_preview e') ->
    date e = date e' ->
    check_email r now e = check_email r now e'.
Proof.
  intros r now e e' Hs Hj Hb Hd. unfold check_email.
  rewrite Hs, Hj, Hb, Hd. reflexivity.
Qed.

(** Adding a VIP sender makes every sender that contains the address,
    in any letter case, a VIP, keeps the earlier VIPs, and is idempotent;
    removing an address that was just added restores the list. *)
Theorem add_vip_sender_spec :
  forall (r : EmailRules) (email : string),
    (forall s, contains (lower email) s = true ->
               _is_vip_sender (add_vip_sender r email) s = true)
    /\ _is_vip_sender (add_vip_sender r email) (lower email) = true
    /\ (forall s, _is_vip_sender r s = true ->
                  _is_vip_sender (add_vip_sender r email) s = true)
    /\ add_vip_sender (add_vip_sender r email) email = add_vip_sender r email
    /\ (~ In (lower email) (vip_senders r) ->
        vip_senders (remove_vip_sender (add_vip_sender r email) email)
        = vip_senders r).
Proof.
  intros r email.
  assert (Hin : In (lower email) (vip_senders (add_vip_sender r email))).
  { unfold add_vip_sender. destruct (mem (lower email) (vip_senders r)) eqn:E; cbn [negb].
    - apply mem_In. exact E.
    - cbn [with_vip_senders vip_senders]. apply in_or_app. right. left. reflexivity. }
  assert (Hany : forall s, contains (lower email) s = true ->
                           _is_vip_sender (add_vip_sender r email) s = true).
  { intros s Hs. unfold _is_vip_sender, any_in. apply existsb_exists.
    exists (lower email). split; [exact Hin|exact Hs]. }
  split; [exact Hany|]. split; [apply Hany; apply contains_refl|].
  split; [|split].
  - intros s H. unfold _is_vip_sender, any_in in *. apply existsb_exists in H.
    destruct H as (p & Hp & Hc). apply existsb_exists. exists p. split; [|exact Hc].
    unfold add_vip_sender. destruct (negb _); [|exact Hp].
    cbn [with_vip_senders vip_senders]. apply in_or_app. left. exact Hp.
  - unfold add_vip_sender at 1. apply mem_In in Hin. rewrite Hin. reflexivity.
  - intros Hnot. unfold remove_vip_sender. apply mem_In in Hin. rewrite Hin.
    cbn [with_vip_senders vip_senders]. unfold add_vip_sender.
    destruct (mem (lower email) (vip_senders r)) eqn:E.
    + apply mem_In in E. exfalso. exact (Hnot E).
    + cbn [negb with_vip_senders vip_senders]. apply remove_first_app_last. exact Hnot.
Qed.

(** Removing a VIP sender drops one occurrence of the address: with a
    list free of duplicates the address is gone afterwards, the other
    entries stay, and removing an absent address changes nothing. *)
Theorem remove_vip_sender_spec :
  forall (r : EmailRules) (email : string),
    (NoDup (vip_senders r) ->
     ~ In (lower email) (vip_senders (remove_vip_sender r email)))
    /\ (forall v, v <> lower email -> In v (vip_senders r) ->
                  In v (vip_senders (remove_vip_sender r email)))
    /\ (~ In (lower email) (vip_senders r) -> remove_vip_sender r email = r).
Proof.
  intros r email. unfold remove_vip_sender.
  destruct (mem (lower email) (vip_senders r)) eqn:E;
    cbn [with_vip_senders vip_senders].
  - split; [apply remove_first_NoDup|]. split.
    + intros v Hv. apply remove_first_keeps. exact Hv.
    + intros Hnot. apply mem_In in E. exfalso. exact (Hnot E).
  - split; [intros _ H; apply mem_In in H; congruence|].
    split; [intros v _ H; exact H|reflexivity].
Qed.

End RulesMore.

Section RulesMoreWitnesses.
Import RulesAdmin.

(** The personal-contact rule fires only for a sender at one of the
    three webmail providers, with a subject of at most six words, who is
    neither a VIP nor on the automated-sender list, and whose message
    carries no event keyword; the verdict is keep at 0.90. *)
Theorem personal_contact_conditions :
  forall (r : EmailRules) (now : Z) (e : email_data) v r',
    check_email r now e = (Some v, r') ->
    extra v = Some ("rule_matched", "personal_contact") ->
    let s := lower (sender e) in
    (contains "@gmail.com" s || contains "@yahoo.com" s
     || contains "@hotmail.com" s) = true
    /\ (split_len (lower (subject e)) <= 6)%nat
    /\ any_in automated_patterns s = false
    /\ _is_vip_sender r s = false
    /\ _is_event r (lower (subject e)) (lower (body_preview e)) = false
    /\ recommendation v = "keep"
    /\ confidence_score v = 0.90%Q.
Proof.
  intros r now e v r' H Hextra. cbv zeta. unfold check_email in H.
  split_ifs H; try discriminate H; injection H as <- _;
    cbn [extra rule_result] in Hextra; try discriminate Hextra.
  match goal with
  | Hp : _looks_like_personal _ _ _ = true |- _ =>
      unfold _looks_like_personal in Hp; rewrite lower_idem in Hp;
      split_ifs Hp; try discriminate Hp;
      apply andb_true_iff in Hp; destruct Hp as [Hw _]; apply Nat.leb_le in Hw
  end.
  repeat split; assumption.
Qed.

Definition lunch_mail : email_data :=
  {| email_id := "105"; sender := "Bob <Bob@Gmail.com>";
     recipient := "me@example.org"; subject := "Lunch tomorrow?";
     body_preview := "Are you free at noon"; body_full := "";
     date := None; size_bytes := 80; has_attachments := false |}.

Definition shouted (e : email_data) (s j b : string) : email_data :=
  {| email_id := email_id e; sender := s; recipient := recipient e;
     subject := j; body_preview := b; body_full := body_full e;
     date := date e; size_bytes := size_bytes e;
     has_attachments := has_attachments e |}.

Lemma personal_contact_conditions_witness :
  (split_len (lower (subject lunch_mail)) <= 6)%nat
  /\ _is_vip_sender sample_rules (lower (sender lunch_mail)) = false.
Proof.
  destruct (check_email sample_rules (day 1) lunch_mail) as [[v|] r'] eqn:E;
    [|vm_compute in E; discriminate E].
  assert (Hx : extra v = Some ("rule_matched", "personal_contact"))
    by (vm_compute in E; injection E as <- _; reflexivity).
  destruct (personal_contact_conditions _ _ _ _ _ E Hx) as (_ & Hw & _ & Hvip & _).
  split; assumption.
Defined.

Lemma check_email_undated_witness :
  check_email sample_rules (day 1) lunch_mail
  = check_email sample_rules (day 4000) lunch_mail.
Proof.
  apply (check_email_undated sample_rules (day 1) (day 4000) lunch_mail).
  reflexivity.
Defined.

Lemma check_email_counters_witness :
  stats_total (stats (snd (check_email sample_rules (day 61) vip_event_mail)))
  = S (stats_total (stats sample_rules)).
Proof.
  destruct (check_email_counters sample_rules (day 61) vip_event_mail)
    as (_ & _ & _ & _ & _ & _ & _ & _ & H).
  destruct (fst (check_email sample_rules (day 61) vip_event_mail)) as [v|] eqn:E;
    [|vm_compute in E; discriminate E].
  apply (H v). reflexivity.
Defined.

Lemma check_email_case_insensitive_witness :
  check_email sample_rules (day 61) vip_event_mail
  = check_email sample_rules (day 61)
      (shouted vip_event_mail "ANN <A@B.COM>" "TEAM MEETING" "see you THERE").
Proof.
  apply check_email_case_insensitive; vm_compute; reflexivity.
Defined.

Lemma add_vip_sender_spec_witness :
  _is_vip_sender (add_vip_sender sample_rules "Boss@Corp.example.com")
    "the boss <boss@corp.example.com>" = true
  /\ vip_senders (remove_vip_sender
                    (add_vip_sender sample_rules "Boss@Corp.example.com")
                    "boss@corp.example.com")
     = vip_senders sample_rules.
Proof.
  destruct (add_vip_sender_spec sample_rules "Boss@Corp.example.com")
    as (H1 & _ & _ & _ & H5).
  split.
  - apply H1. vm_compute; reflexivity.
  - apply H5. vm_compute. intros [H|[]]. discriminate H.
Defined.

Lemma remove_vip_sender_spec_witness :
  ~ In "a@b.com" (vip_senders (remove_vip_sender sample_rules "A@B.com")).
Proof.
  apply (remove_vip_sender_spec sample_rules "A@B.com").
  vm_compute. repeat constructor. intros [].
Defined.

End RulesMoreWitnesses.

(* ----------------------------------------------------------------- *)
(** ** sender_memory.py: invariants of the sender statistics *)

Section SenderStats.
Import SenderMemory.

Lemma exclusive_counts {A : Type} (p q r : A -> bool) (xs : list A) :
  (forall x, (Nat.b2n (p x) + Nat.b2n (q x) + Nat.b2n (r x) <= 1)%nat) ->
  (Db.count p xs + Db.count q xs + Db.count r xs <= length xs)%nat.
Proof.
  intros Hex. unfold Db.count. induction xs as [|x xs IH]; [simpl; lia|].
  specialize (Hex x). cbn [filter length].
  destruct (p x), (q x), (r x); cbn [Nat.b2n length] in *; lia.
Qed.

Lemma action_is_exclusive (d : Decision) :
  (Nat.b2n (action_is "kept" d) + Nat.b2n (action_is "deleted" d)
   + Nat.b2n (action_is "archived" d) <= 1)%nat.
Proof.
  unfold action_is. destruct (d_action_taken d) as [a|]; [|simpl; lia].
  destruct (String.eqb a "kept") eqn:Ek.
  - apply String.eqb_eq in Ek. subst a. simpl. lia.
  - destruct (String.eqb a "deleted") eqn:Ed.
    + apply String.eqb_eq in Ed. subst a. simpl. lia.
    + destruct (String.eqb a "archived"); simpl; lia.
Qed.

Lemma actions_exclusive {A : Type} (f : A -> Decision) (xs : list A) :
  (Db.count (fun r => action_is "kept" (f r)) xs
   + Db.count (fun r => action_is "deleted" (f r)) xs
   + Db.count (fun r => action_is "archived" (f r)) xs <= length xs)%nat.
Proof. apply exclusive_counts. intros x. apply action_is_exclusive. Qed.

Lemma ratio_bounds (n d : nat) :
  (n <= d)%nat -> (0 < d)%nat -> (0 <= Db.ratio n d <= 1)%Q.
Proof.
  intros Hnd Hd. unfold Db.ratio.
  assert (Hpos : (0 < inject_Z (Z.of_nat d))%Q)
    by (unfold Qlt; simpl; lia).
  split.
  - apply Qle_shift_div_l; [exact Hpos|]. rewrite Qmult_0_l.
    unfold Qle; simpl; lia.
  - apply Qle_shift_div_r; [exact Hpos|]. rewrite Qmult_1_l.
    rewrite <- Zle_Qle. lia.
Qed.

Lemma ratio_plus (a b d : nat) :
  (0 < d)%nat -> (Db.ratio a d + Db.ratio b d == Db.ratio (a + b) d)%Q.
Proof.
  intros Hd. unfold Db.ratio. rewrite Nat2Z.inj_add, inject_Z_plus. field.
  intros H. unfold Qeq in H. simpl in H. lia.
Qed.

(** A rate of at least 0.9 read on the counts. *)
Lemma ratio_ge_09 (n d : nat) :
  (0 < d)%nat -> (0.9 <= Db.ratio n d)%Q -> (9 * d <= 10 * n)%nat.
Proof.
  intros Hd H. unfold Db.ratio in H.
  assert (Hpos : (0 < inject_Z (Z.of_nat d))%Q) by (unfold Qlt; simpl; lia).
  apply (Qmult_le_compat_r _ _ (inject_Z (Z.of_nat d))) in H; [|lra].
  assert (Hc : (inject_Z (Z.of_nat n) / inject_Z (Z.of_nat d) * inject_Z (Z.of_nat d)
                == inject_Z (Z.of_nat n))%Q)
    by (field; lra).
  rewrite Hc in H. unfold Qle, Qmult, inject_Z in H. cbn [Qnum Qden] in H. lia.
Qed.

Lemma get_sender_stats_more (db : database) (s : string) :
  let rows := sender_rows db s in
  let st := get_sender_stats db s in
  archived_count st = Db.count (fun r => action_is "archived" (snd (fst r))) rows
  /\ most_common_action st
     = (let mc := most_common (kept_count st) (deleted_count st) (archived_count st) in
        if (0 <? snd mc)%nat then Some (fst mc) else None)
  /\ (rows = [] -> st = mkSenderStats 0 0 0 0 0 0 0 None false).
Proof.
  unfold get_sender_stats.
  destruct (sender_rows db s) as [|row rows]; cbv zeta.
  - repeat split.
  - repeat split. intros H. discriminate H.
Qed.

(** The statistics of a sender are consistent: the kept, deleted and
    archived counts never exceed the number of decisions, both rates lie
    in the unit interval and sum to at most 1, so the keep rate and the
    delete rate cannot both reach 0.9.  A sender without decided and
    analysed messages has all-zero statistics and is never bypassed. *)
Theorem get_sender_stats_invariants :
  forall (db : database) (sender : string),
    let st := get_sender_stats db sender in
    (kept_count st + deleted_count st + archived_count st
     <= SenderMemory.total_decisions st)%nat
    /\ (0 <= keep_rate st <= 1)%Q
    /\ (0 <= delete_rate st <= 1)%Q
    /\ (keep_rate st + delete_rate st <= 1)%Q
    /\ ~ (0.9 <= keep_rate st /\ 0.9 <= delete_rate st)%Q
    /\ (sender_rows db sender = [] ->
        st = mkSenderStats 0 0 0 0 0 0 0 None false
        /\ should_skip_llm db sender = None).
Proof.
  intros db sender. cbv zeta.
  pose proof (get_sender_stats_eq db sender) as Heq. cbv zeta in Heq.
  destruct Heq as (Htot & Hkept & Hdel & Hkr & Hdr & _).
  destruct (get_sender_stats_more db sender) as (Harch & _ & Hempty).
  cbv zeta in Harch, Hempty.
  pose proof (actions_exclusive (fun r : Email * Decision * Analysis => snd (fst r))
                (sender_rows db sender)) as Hex.
  rewrite <- Htot, <- Hkept, <- Hdel, <- Harch in Hex.
  rewrite <- Htot in Hkr, Hdr. rewrite <- Hkept in Hkr. rewrite <- Hdel in Hdr.
  set (st := get_sender_stats db sender) in *.
  assert (Hrates : (0 <= keep_rate st <= 1)%Q /\ (0 <= delete_rate st <= 1)%Q
                   /\ (keep_rate st + delete_rate st <= 1)%Q).
  { rewrite Hkr, Hdr.
    destruct (0 <? SenderMemory.total_decisions st)%nat eqn:Epos.
    - apply Nat.ltb_lt in Epos.
      split; [apply ratio_bounds; lia|]. split; [apply ratio_bounds; lia|].
      rewrite ratio_plus by exact Epos. apply ratio_bounds; lia.
    - repeat split; unfold Qle; simpl; lia. }
  destruct Hrates as (Hk & Hd & Hsum).
  split; [exact Hex|]. split; [exact Hk|]. split; [exact Hd|].
  split; [exact Hsum|]. split; [intros [H1 H2]; lra|].
  intros Hnil. pose proof (Hempty Hnil) as Hst. split; [exact Hst|].
  unfold should_skip_llm. fold st. rewrite Hst. reflexivity.
Qed.

(** When the bypass fires, its recommendation agrees with the most
    common action recorded for the sender. *)
Theorem should_skip_llm_most_common :
  forall (db : database) (sender : string) v,
    should_skip_llm db sender = Some v ->
    (recommendation v = "keep"
     /\ most_common_action (get_sender_stats db sender) = Some "kept")
    \/ (recommendation v = "delete"
        /\ most_common_action (get_sender_stats db sender) = Some "deleted").
Proof.
  intros db sender v Hv.
  pose proof (get_sender_stats_eq db sender) as Heq. cbv zeta in Heq.
  destruct Heq as (Htot & Hkept & Hdel & Hkr & Hdr & Hpat).
  rewrite <- Htot in Hkr, Hdr, Hpat. rewrite <- Hkept in Hkr. rewrite <- Hdel in Hdr.
  destruct (get_sender_stats_invariants db sender) as (Hex & _).
  destruct (get_sender_stats_more db sender) as (_ & Hmc & _).
  cbv zeta in Hex, Hmc.
  set (st := get_sender_stats db sender) in *.
  unfold should_skip_llm in Hv. fold st in Hv. rewrite Hpat in Hv.
  destruct (3 <=? SenderMemory.total_decisions st)%nat eqn:E3;
    [|discriminate Hv].
  apply Nat.leb_le in E3.
  assert (Epos : (0 <? SenderMemory.total_decisions st)%nat = true)
    by (apply Nat.ltb_lt; lia).
  rewrite Epos in Hkr, Hdr.
  rewrite Hmc. unfold most_common. cbn [snd fst].
  destruct (Qle_bool 0.9 (keep_rate st)) eqn:Ek.
  - cbn [andb orb negb] in Hv. injection Hv as <-. left.
    split; [reflexivity|].
    apply Qle_bool_iff in Ek. rewrite Hkr in Ek. apply ratio_ge_09 in Ek; [|lia].
    assert (E1 : (kept_count st <? deleted_count st)%nat = false)
      by (apply Nat.ltb_ge; lia).
    rewrite E1. cbn [snd fst].
    assert (E2 : (kept_count st <? archived_count st)%nat = false)
      by (apply Nat.ltb_ge; lia).
    rewrite E2. cbn [snd fst].
    assert (E4 : (0 <? kept_count st)%nat = true) by (apply Nat.ltb_lt; lia).
    rewrite E4. reflexivity.
  - destruct (Qle_bool 0.9 (delete_rate st)) eqn:Ed; [|discriminate Hv].
    cbn [andb orb negb] in Hv. injection Hv as <-. right.
    split; [reflexivity|].
    apply Qle_bool_iff in Ed. rewrite Hdr in Ed. apply ratio_ge_09 in Ed; [|lia].
    assert (E1 : (kept_count st <? deleted_count st)%nat = true)
      by (apply Nat.ltb_lt; lia).
    rewrite E1. cbn [snd fst].
    assert (E2 : (deleted_count st <? archived_count st)%nat = false)
      by (apply Nat.ltb_ge; lia).
    rewrite E2. cbn [snd fst].
    assert (E4 : (0 <? deleted_count st)%nat = true) by (apply Nat.ltb_lt; lia).
    rewrite E4. reflexivity.
Qed.

End SenderStats.

Section SenderStatsWitnesses.
Import SenderMemory.

Lemma get_sender_stats_invariants_witness :
  should_skip_llm three_deleted "nobody@nowhere.example.com" = None.
Proof.
  apply (get_sender_stats_invariants three_deleted "nobody@nowhere.example.com").
  vm_compute; reflexivity.
Defined.

Lemma should_skip_llm_most_common_witness :
  most_common_action (get_sender_stats three_deleted shop) = Some "deleted".
Proof.
  destruct (should_skip_llm three_deleted shop) as [v|] eqn:E;
    [|vm_compute in E; discriminate E].
  destruct (should_skip_llm_most_common _ _ _ E) as [[Hrec _]|[_ H]];
    [|exact H].
  exfalso. vm_compute in E. injection E as <-. discriminate Hrec.
Defined.

End SenderStatsWitnesses.

(* ----------------------------------------------------------------- *)
(** ** confidence_calibration.py: invariants of the bucket statistics *)

Module Overall.
Import Py Db Calibration.

Record overall_stats : Type := mkOverall {
  total_decisions : nat;
  overall_accuracy : Q;
  avg_confidence : Q;
  calibration_error : Q;
  is_overconfident : bool;
  is_underconfident : bool
}.

(** Decision joined to Email and to Analysis, reviewed rows only. *)
Definition reviewed_rows (db : database) : list (Decision * Analysis) :=
  flat_map (fun d =>
    flat_map (fun e =>
      map (fun a => (d, a))
          (filter (fun a => a_email_id a =? e_id e) (analyses db)))
      (filter (fun e => e_id e =? d_email_id d) (emails db)))
    (filter (fun d => match d_action_taken d with Some _ => true | None => false end)
            (decisions db)).

(** [ConfidenceCalibrator.get_overall_stats] *)
Definition get_overall_stats (db : database) : overall_stats :=
  let rows := reviewed_rows db in
  let total := length rows in
  let correct := count (fun r => d_approved (fst r)) rows in
  (* [results.avg_confidence or 0.0] *)
  let avg_confidence :=
    if (total =? 0)%nat then 0%Q
    else (Qsum (map (fun r => a_confidence_score (snd r)) rows)
          / inject_Z (Z.of_nat total))%Q in
  let accuracy := if (0 <? total)%nat then ratio correct total else 0%Q in
  {| total_decisions := total;
     overall_accuracy := accuracy;
     avg_confidence := avg_confidence;
     calibration_error := (avg_confidence - accuracy)%Q;
     is_overconfident := negb (Qle_bool avg_confidence (accuracy + 0.05));
     is_underconfident := negb (Qle_bool (accuracy - 0.05) avg_confidence) |}.

End Overall.

Section CalibrationMore.
Import Calibration.

Lemma in_range_bounds (lo hi c : Q) :
  in_range lo hi c = true -> (lo <= c <= hi)%Q.
Proof.
  unfold in_range. intros H. apply andb_true_iff in H. destruct H as [Hlo Hhi].
  apply Qle_bool_iff in Hlo. split; [exact Hlo|].
  destruct (Qle_bool 1.0 hi).
  - apply Qle_bool_iff. exact Hhi.
  - apply negb_true_iff in Hhi. apply Qle_bool_false_lt in Hhi. lra.
Qed.

Lemma bucket_rows_in_range (db : database) (lo hi : Q) (r : Decision * Analysis) :
  In r (bucket_rows db lo hi) -> in_range lo hi (a_confidence_score (snd r)) = true.
Proof.
  unfold bucket_rows. intros H.
  apply in_flat_map in H. destruct H as (d & _ & H).
  apply in_flat_map in H. destruct H as (e & _ & H).
  apply in_map_iff in H. destruct H as (a & <- & H).
  apply filter_In in H. destruct H as [_ H].
  apply andb_true_iff in H. destruct H as [_ H]. exact H.
Qed.

Lemma inject_succ (n : nat) :
  (inject_Z (Z.of_nat (S n)) == inject_Z (Z.of_nat n) + 1)%Q.
Proof. rewrite Nat2Z.inj_succ. unfold Z.succ. rewrite inject_Z_plus. reflexivity. Qed.

Lemma Qsum_bounds (lo hi : Q) (cs : list Q) :
  (forall c, In c cs -> (lo <= c <= hi)%Q) ->
  (inject_Z (Z.of_nat (length cs)) * lo <= Db.Qsum cs
   <= inject_Z (Z.of_nat (length cs)) * hi)%Q.
Proof.
  induction cs as [|c cs IH]; intros H.
  - unfold Db.Qsum. cbn [length fold_right].
    change (inject_Z (Z.of_nat 0)) with 0%Q. rewrite !Qmult_0_l.
    split; apply Qle_refl.
  - cbn [length Db.Qsum fold_right]. fold (Db.Qsum cs).
    rewrite inject_succ.
    destruct (H c (or_introl eq_refl)) as [Hlo Hhi].
    destruct IH as [IHlo IHhi]; [intros x Hx; apply H; right; exact Hx|].
    rewrite !Qmult_plus_distr_l, !Qmult_1_l.
    set (nlo := (inject_Z (Z.of_nat (length cs)) * lo)%Q) in *.
    set (nhi := (inject_Z (Z.of_nat (length cs)) * hi)%Q) in *.
    split; lra.
Qed.

Lemma mean_bounds (lo hi : Q) (cs : list Q) :
  cs <> [] ->
  (forall c, In c cs -> (lo <= c <= hi)%Q) ->
  (lo <= Db.Qsum cs / inject_Z (Z.of_nat (length cs)) <= hi)%Q.
Proof.
  intros Hne H. destruct (Qsum_bounds lo hi cs H) as [Hlo Hhi].
  assert (Hpos : (0 < inject_Z (Z.of_nat (length cs)))%Q).
  { destruct cs; [congruence|]. unfold Qlt. simpl. lia. }
  split.
  - apply Qle_shift_div_l; [exact Hpos|]. lra.
  - apply Qle_shift_div_r; [exact Hpos|]. lra.
Qed.

(** The statistics of every bucket are consistent: the correct decisions
    are among the counted ones, the accuracy and the average stated
    confidence (also when the midpoint stands in for it) lie in the unit
    interval, so the calibration error lies between -1 and 1; the sample
    is sufficient exactly from 5 decisions, and an empty bucket has
    accuracy and calibration error 0. *)
Theorem get_bucket_stats_invariants :
  forall (db : database) (name : string) (st : bucket_stats),
    In (name, st) (get_bucket_stats db) ->
    In (min_confidence st, max_confidence st, name) buckets
    /\ (correct_decisions st <= total_decisions st)%nat
    /\ (0 <= accuracy st <= 1)%Q
    /\ (0 <= avg_stated_confidence st <= 1)%Q
    /\ (-1 <= calibration_error st <= 1)%Q
    /\ (sample_size_sufficient st = true <-> (5 <= total_decisions st)%nat)
    /\ (total_decisions st = 0%nat ->
        (calibration_error st == 0)%Q /\ (accuracy st == 0)%Q).
Proof.
  intros db name st Hin. unfold get_bucket_stats in Hin.
  apply in_map_iff in Hin. destruct Hin as ([[lo hi] nm] & Heq & Hb).
  injection Heq as <- <-.
  assert (Horder : (0 <= lo /\ lo <= hi /\ hi <= 1)%Q).
  { simpl in Hb.
    destruct Hb as [E|[E|[E|[E|[E|[]]]]]]; injection E as <- <- _;
      repeat split; unfold Qle; simpl; lia. }
  destruct Horder as (H0 & Hlh & H1).
  unfold stats_of_bucket.
  cbn [min_confidence max_confidence total_decisions correct_decisions accuracy
       avg_stated_confidence calibration_error sample_size_sufficient].
  set (rows := bucket_rows db lo hi).
  assert (Hcorrect : (Db.count (fun r => d_approved (fst r)) rows <= length rows)%nat)
    by (unfold Db.count; apply filter_length_le).
  assert (Hacc : (0 <= (if (0 <? length rows)%nat
                        then Db.ratio (Db.count (fun r => d_approved (fst r)) rows)
                               (length rows)
                        else 0) <= 1)%Q).
  { destruct (0 <? length rows)%nat eqn:E.
    - apply Nat.ltb_lt in E. apply ratio_bounds; [exact Hcorrect|exact E].
    - split; unfold Qle; simpl; lia. }
  assert (Havg : (lo <= (if (length rows =? 0)%nat
                            || Qeq_bool
                                 (Db.Qsum (map (fun r => a_confidence_score (snd r)) rows)
                                  / inject_Z (Z.of_nat (length rows))) 0
                         then (lo + hi) / 2
                         else Db.Qsum (map (fun r => a_confidence_score (snd r)) rows)
                              / inject_Z (Z.of_nat (length rows))) <= hi)%Q).
  { destruct ((length rows =? 0)%nat || Qeq_bool _ 0) eqn:E.
    - split.
      + apply Qle_shift_div_l; lra.
      + apply Qle_shift_div_r; lra.
    - apply orb_false_iff in E. destruct E as [E _]. apply Nat.eqb_neq in E.
      rewrite <- (length_map (fun r : Decision * Analysis => a_confidence_score (snd r))
                    rows).
      apply mean_bounds.
      + destruct rows; [exfalso; apply E; reflexivity|discriminate].
      + intros c Hc. apply in_map_iff in Hc. destruct Hc as (r & <- & Hr).
        apply in_range_bounds. apply (bucket_rows_in_range db lo hi r Hr). }
  split; [exact Hb|]. split; [exact Hcorrect|]. split; [exact Hacc|].
  split; [destruct Havg; split; lra|]. split; [|split].
  - destruct (0 <? length rows)%nat; [|split; unfold Qle; simpl; lia].
    destruct Hacc, Havg. split; lra.
  - split; [apply Nat.leb_le|apply Nat.leb_le].
  - intros Hz. rewrite Hz. cbn [Nat.ltb Nat.leb]. split; reflexivity.
Qed.

End CalibrationMore.

Section CalibrationBounds.
Import Calibration.

(** Deciding the comparisons of a goal from the bounds at hand. *)
Ltac qle_decide :=
  repeat match goal with
         | |- context [Qle_bool ?a ?b] =>
             first [ rewrite (proj2 (Qle_bool_iff a b)) by lra
                   | rewrite (Qlt_Qle_bool_false b a) by lra ]
         end.

Ltac bucket_consts :=
  replace (Qeq_bool 0.5 1.0) with false by reflexivity;
  replace (Qeq_bool 0.7 1.0) with false by reflexivity;
  replace (Qeq_bool 0.85 1.0) with false by reflexivity;
  replace (Qeq_bool 0.95 1.0) with false by reflexivity;
  replace (Qeq_bool 1.0 1.0) with true by reflexivity;
  cbn [andb orb].

(** Clamping to the unit interval moves a value toward any point of
    the interval. *)
Lemma clamp_toward (s x : Q) :
  (0 <= s <= 1)%Q ->
  let c := py_max 0.0 (py_min 1.0 x) in
  (0 <= c <= 1)%Q
  /\ ((x <= s)%Q -> (x <= c <= s)%Q)
  /\ ((s <= x)%Q -> (s <= c <= x)%Q).
Proof.
  intros [H0 H1]. cbv zeta. unfold py_max, py_min.
  destruct (Qle_bool 1.0 x) eqn:Ea; cbn [negb];
    [apply Qle_bool_iff in Ea | apply Qle_bool_false_lt in Ea].
  - destruct (Qle_bool 1.0 0.0) eqn:E0; [vm_compute in E0; discriminate E0|].
    cbn [negb]. repeat split; lra.
  - destruct (Qle_bool x 0.0) eqn:Eb; cbn [negb];
      [apply Qle_bool_iff in Eb | apply Qle_bool_false_lt in Eb];
      repeat split; lra.
Qed.

Lemma in_get_bucket_stats (db : database) (lo hi : Q) (name : string) :
  In (lo, hi, name) buckets -> In (name, stats_of_bucket db lo hi) (get_bucket_stats db).
Proof.
  intros H. unfold get_bucket_stats. apply in_map_iff.
  exists (lo, hi, name). split; [reflexivity|exact H].
Qed.

(** For a stated confidence of the unit interval the calibrated
    confidence stays in the unit interval and moves by at most 0.5; it
    never rises when the bucket is overconfident and never falls when
    the bucket is underconfident. *)
Theorem calibrate_confidence_bounds :
  forall (pct : Q -> string) (db : database) (stated : Q) (category : option pyval),
    (0 <= stated <= 1)%Q ->
    let c := fst (calibrate_confidence pct db stated category) in
    (0 <= c <= 1)%Q
    /\ (stated - 0.5 <= c <= stated + 0.5)%Q
    /\ forall name st,
         find_bucket stated buckets = Some name ->
         stats_get name (get_bucket_stats db) = Some st ->
         ((0 <= calibration_error st)%Q -> (c <= stated)%Q)
         /\ ((calibration_error st <= 0)%Q -> (stated <= c)%Q).
Proof.
  intros pct db stated category Hunit. cbv zeta.
  destruct (find_bucket_unit db stated Hunit)
    as (lo & hi & name & Hin & _ & _ & Hfind & Hget).
  destruct (get_bucket_stats_invariants db name _ (in_get_bucket_stats db lo hi name Hin))
    as (_ & _ & _ & _ & Herr & _).
  set (st := stats_of_bucket db lo hi) in *.
  unfold calibrate_confidence. rewrite Hfind, Hget.
  destruct (sample_size_sufficient st); cbn [negb fst].
  - destruct (clamp_toward stated (stated - calibration_error st * 0.5) Hunit)
      as (Hc & Hdown & Hup).
    cbv zeta in Hc, Hdown, Hup.
    set (c := py_max 0.0 (py_min 1.0 (stated - calibration_error st * 0.5))) in *.
    split; [exact Hc|]. split.
    + destruct (Qlt_le_dec (calibration_error st) 0) as [Hneg|Hpos].
      * destruct Hup as [Hu1 Hu2]; [lra|]. split; lra.
      * destruct Hdown as [Hd1 Hd2]; [lra|]. split; lra.
    + intros name' st' Hn Hs. injection Hn as <-. rewrite Hget in Hs.
      injection Hs as <-. split; intros He.
      * destruct Hdown as [_ Hd2]; [lra|exact Hd2].
      * destruct Hup as [Hu1 _]; [lra|exact Hu1].
  - destruct Hunit. split; [split; assumption|]. split; [split; lra|].
    intros name' st' _ _. split; intros _; apply Qle_refl.
Qed.

(** Outside the unit interval: a stated confidence above 1 is returned
    unchanged with the remark that no calibration was applied; a
    negative one is handled with the statistics of the highest bucket. *)
Theorem calibrate_confidence_out_of_range :
  forall (pct : Q -> string) (db : database) (stated : Q) (category : option pyval),
    ((1 < stated)%Q ->
     calibrate_confidence pct db stated category
     = (stated, "No calibration applied"))
    /\ ((stated < 0)%Q ->
        find_bucket stated buckets = Some "very_high"
        /\ let st := stats_of_bucket db 0.95 1.0 in
           ((total_decisions st < 5)%nat ->
            calibrate_confidence pct db stated category
            = (stated, "Insufficient data for calibration ("
                         ++ str_of_nat (total_decisions st) ++ " samples)"))
           /\ ((5 <= total_decisions st)%nat ->
               (0 <= fst (calibrate_confidence pct db stated category) <= 1)%Q)).
Proof.
  intros pct db stated category. split.
  - intros Hbig.
    assert (Hnone : find_bucket stated buckets = None).
    { cbn [find_bucket buckets]. bucket_consts. qle_decide. reflexivity. }
    unfold calibrate_confidence. rewrite Hnone. reflexivity.
  - intros Hneg.
    assert (Hvh : find_bucket stated buckets = Some "very_high").
    { cbn [find_bucket buckets]. bucket_consts. qle_decide. reflexivity. }
    split; [exact Hvh|]. cbv zeta.
    assert (Hget : stats_get "very_high" (get_bucket_stats db)
                   = Some (stats_of_bucket db 0.95 1.0)) by reflexivity.
    destruct (stats_of_bucket_fields db 0.95 1.0) as (_ & _ & Hsuff & _).
    cbv zeta in Hsuff.
    unfold calibrate_confidence. rewrite Hvh, Hget, Hsuff. split.
    + intros Hlt. apply Nat.leb_gt in Hlt. rewrite Hlt. reflexivity.
    + intros Hge. apply Nat.leb_le in Hge. rewrite Hge. cbn [negb fst].
      destruct (clamp_toward 0
                  (stated - calibration_error (stats_of_bucket db 0.95 1.0) * 0.5))
        as (Hc & _); [lra|exact Hc].
Qed.

(** The bucket in which a verdict's confidence is counted by the
    statistics is the bucket consulted to calibrate that confidence. *)
Theorem find_bucket_in_range :
  forall (c lo hi : Q) (name : string),
    (0 <= c <= 1)%Q ->
    In (lo, hi, name) buckets ->
    (in_range lo hi c = true <-> find_bucket c buckets = Some name).
Proof.
  intros c lo hi name [H0 H1] Hin. simpl in Hin.
  destruct (Qlt_le_dec c 0.5) as [L1|G1];
    [|destruct (Qlt_le_dec c 0.7) as [L2|G2];
      [|destruct (Qlt_le_dec c 0.85) as [L3|G3];
        [|destruct (Qlt_le_dec c 0.95) as [L4|G4]]]];
    destruct Hin as [E|[E|[E|[E|[E|[]]]]]]; injection E as <- <- <-;
    unfold in_range; cbn [find_bucket buckets]; bucket_consts; qle_decide;
    rewrite ?orb_true_r; cbn [andb orb negb];
    split; intros H; try reflexivity; discriminate H.
Qed.

(** The overall report never calls the classifier both overconfident
    and underconfident; its accuracy lies in the unit interval, and with
    no reviewed decision it reports zeros and neither flag. *)
Theorem get_overall_stats_flags :
  forall db : database,
    let o := Overall.get_overall_stats db in
    ~ (Overall.is_overconfident o = true /\ Overall.is_underconfident o = true)
    /\ (0 <= Overall.overall_accuracy o <= 1)%Q
    /\ (Overall.calibration_error o
        == Overall.avg_confidence o - Overall.overall_accuracy o)%Q
    /\ (Overall.total_decisions o = 0%nat ->
        Overall.is_overconfident o = false
        /\ Overall.is_underconfident o = false
        /\ (Overall.calibration_error o == 0)%Q).
Proof.
  intros db. cbv zeta. unfold Overall.get_overall_stats.
  cbn [Overall.is_overconfident Overall.is_underconfident Overall.overall_accuracy
       Overall.calibration_error Overall.avg_confidence Overall.total_decisions].
  set (rows := Overall.reviewed_rows db).
  split; [|split; [|split; [reflexivity|]]].
  - intros [Ho Hu]. apply negb_true_iff in Ho, Hu.
    apply Qle_bool_false_lt in Ho, Hu. lra.
  - destruct (0 <? length rows)%nat eqn:E.
    + apply Nat.ltb_lt in E. apply ratio_bounds; [|exact E].
      unfold Db.count. apply filter_length_le.
    + split; unfold Qle; simpl; lia.
  - intros Hz. rewrite Hz. cbn [Nat.eqb Nat.ltb Nat.leb]. repeat split.
Qed.

End CalibrationBounds.

Section CalibrationWitnesses.
Import Calibration.

Lemma get_bucket_stats_invariants_witness :
  (-1 <= calibration_error (stats_of_bucket ten_high 0.85 0.95) <= 1)%Q.
Proof.
  destruct (get_bucket_stats_invariants ten_high "high"
              (stats_of_bucket ten_high 0.85 0.95))
    as (_ & _ & _ & _ & H & _).
  - simpl. auto 6.
  - exact H.
Defined.

Lemma calibrate_confidence_bounds_witness :
  (0 <= fst (calibrate_confidence (format_pct llama) ten_high 0.90 None) <= 1)%Q.
Proof.
  apply (calibrate_confidence_bounds (format_pct llama) ten_high 0.90 None).
  split; unfold Qle; simpl; lia.
Defined.

Lemma calibrate_confidence_out_of_range_witness :
  calibrate_confidence (format_pct llama) ten_high 1.5 None
  = (1.5%Q, "No calibration applied")
  /\ find_bucket (-0.25)%Q buckets = Some "very_high".
Proof.
  split.
  - apply (calibrate_confidence_out_of_range (format_pct llama) ten_high 1.5 None).
    unfold Qlt; simpl; lia.
  - apply (calibrate_confidence_out_of_range (format_pct llama) ten_high (-0.25)%Q None).
    unfold Qlt; simpl; lia.
Defined.

Lemma find_bucket_in_range_witness :
  find_bucket 0.85 buckets = Some "high".
Proof.
  apply (find_bucket_in_range 0.85 0.85 0.95 "high").
  - split; unfold Qle; simpl; lia.
  - simpl. auto 6.
  - vm_compute; reflexivity.
Defined.

Lemma get_overall_stats_flags_witness :
  Overall.is_overconfident (Overall.get_overall_stats empty_db) = false.
Proof.
  apply (get_overall_stats_flags empty_db). vm_compute; reflexivity.
Defined.

Example ten_high_overall :
  let o := Overall.get_overall_stats ten_high in
  (Overall.total_decisions o, Qred (Overall.overall_accuracy o),
   Qred (Overall.avg_confidence o), Overall.is_overconfident o,
   Overall.is_underconfident o)
  = (10%nat, 0.7%Q, 0.9%Q, true, false).
Proof. vm_compute; reflexivity. Qed.

End CalibrationWitnesses.

(* ----------------------------------------------------------------- *)
(** ** ollama_analyzer.py: connection check, prompt age, fenced answers *)

Module Prompt.
Import Py Time Rules.

(** The age wording computed from a number of days in
    [_build_analysis_prompt]. *)
Definition age_description (age_days : Z) : string :=
  if (age_days =? 0) then "Today"
  else if (age_days =? 1) then "Yesterday"
  else if (age_days <? 7) then str_of_Z age_days ++ " days old"
  else if (age_days <? 30) then
    let weeks := age_days / 7 in
    str_of_Z weeks ++ " week" ++ (if 1 <? weeks then "s" else "") ++ " old"
  else if (age_days <? 365) then
    let months := age_days / 30 in
    str_of_Z months ++ " month" ++ (if 1 <? months then "s" else "") ++ " old"
  else
    let years := age_days / 365 in
    str_of_Z years ++ " year" ++ (if 1 <? years then "s" else "") ++ " old".

(** The age line of the prompt for a message date that is a datetime.
    The subtraction from the aware clock raises for a naive datetime and
    for a missing one; the bare [except] then leaves "Unknown". *)
Definition prompt_age (now : Z) (received_date : option datetime) : string :=
  match received_date with
  | None => "Unknown"
  | Some d =>
      match utcoffset_us d with
      | None => "Unknown"
      | Some _ => age_description (age_days now d)
      end
  end.

(** [OllamaAnalyzer.check_connection].  [tags] is the answer of the
    tags endpoint, status code and model names, or [None] when the
    request or its decoding raises.  The result is the returned value,
    [None] for the implicit return at a status other than 200, and the
    model name the analyzer holds afterwards. *)
Definition check_connection (tags : option (Z * list string)) (model : string)
  : option bool * string :=
  match tags with
  | None => (Some false, model)
  | Some (status_code, model_names) =>
      if status_code =? 200 then
        if existsb (String.eqb model) model_names then (Some true, model)
        else if existsb (String.eqb (model ++ ":latest")) model_names
        then (Some true, model ++ ":latest")
        else (Some false, model)
      else (None, model)
  end.

Fixpoint has_newline (s : string) : bool :=
  match s with
  | EmptyString => false
  | String c s' => Ascii.eqb c "010"%char || has_newline s'
  end.

Definition newline : string := String "010"%char EmptyString.

(** An answer wrapped in a code fence with an optional language tag. *)
Definition fenced (tag body : string) : string :=
  "```" ++ tag ++ newline ++ body ++ newline ++ "```".

End Prompt.

Section AnalyzerMore.
Import Calibration Analyzer Prompt.

Lemma parse_valid (env : Collaborators) (response : string) :
  let a := _parse_analysis_response env response in
  In (recommendation a) valid_recommendations
  /\ (0 <= confidence_score a <= 1)%Q
  /\ extra a = None.
Proof.
  cbv zeta. unfold _parse_analysis_response.
  assert (Hdef : In (recommendation default_analysis) valid_recommendations
                 /\ (0 <= confidence_score default_analysis <= 1)%Q
                 /\ extra default_analysis = None).
  { split; [simpl; auto|]. split; [split; unfold Qle; simpl; lia|reflexivity]. }
  destruct (json_loads env (unfenced response)) as [[| | | | |l|d]|]; try exact Hdef.
  destruct (dict_get "recommendation" d) as [rec|]; [|exact Hdef].
  destruct (match dict_get "confidence_score" d with
            | Some v => option_map clamp01 (py_float env v)
            | None => Some 0.5%Q
            end) as [conf|] eqn:Ec; [|exact Hdef].
  cbn [recommendation confidence_score extra].
  split; [|split; [|reflexivity]].
  - destruct rec; try solve [simpl; auto].
    destruct (existsb (String.eqb s) valid_recommendations) eqn:E.
    + apply valid_recommendation_In. exact E.
    + simpl; auto.
  - destruct (dict_get "confidence_score" d) as [v|].
    + destruct (py_float env v) as [f|]; [|discriminate Ec].
      injection Ec as <-. apply clamp01_unit.
    + injection Ec as <-. split; unfold Qle; simpl; lia.
Qed.

(** [analyze_email] fails exactly when the service gives no text or an
    empty one; any other text, however malformed, yields a validated
    analysis that carries the analyzer's model name and the version
    "latest". *)
Theorem analyze_email_spec :
  forall (env : Collaborators) (db : database) (e : email_data),
    (analyze_email env db e = None
     <-> call_ollama env db e = None \/ call_ollama env db e = Some EmptyString)
    /\ forall a, analyze_email env db e = Some a ->
         model_name a = model env
         /\ model_version a = "latest"
         /\ In (recommendation a) ["delete"; "keep"; "archive"]
         /\ (0 <= confidence_score a <= 1)%Q.
Proof.
  intros env db e. unfold analyze_email.
  destruct (call_ollama env db e) as [[|c s]|].
  - split; [split; [intros _; right; reflexivity|reflexivity]|].
    intros a H. discriminate H.
  - split.
    + split; [intros H; discriminate H|intros [H|H]; discriminate H].
    + intros a H. injection H as <-.
      destruct (parse_valid env (String c s)) as (Hr & Hc & _).
      cbn [with_model model_name model_version recommendation confidence_score].
      repeat split; try assumption; apply Hc.
  - split; [split; [intros _; left; reflexivity|reflexivity]|].
    intros a H. discriminate H.
Qed.

(** From one week on the prompt words the age as a whole number, at
    least 1, of weeks (up to 4), months (up to 12) or years, with the
    plural "s" exactly when the number exceeds 1. *)
Theorem age_description_units :
  forall age : Z,
    7 <= age ->
    exists n unit,
      1 <= n
      /\ age_description age
         = str_of_Z n ++ " " ++ unit ++ (if n =? 1 then "" else "s") ++ " old"
      /\ ((unit = "week" /\ age < 30 /\ n = age / 7 /\ n <= 4)
          \/ (unit = "month" /\ 30 <= age < 365 /\ n = age / 30 /\ n <= 12)
          \/ (unit = "year" /\ 365 <= age /\ n = age / 365)).
Proof.
  intros age H7. unfold age_description.
  assert (E0 : (age =? 0) = false) by (apply Z.eqb_neq; lia).
  assert (E1 : (age =? 1) = false) by (apply Z.eqb_neq; lia).
  assert (E7 : (age <? 7) = false) by (apply Z.ltb_ge; lia).
  rewrite E0, E1, E7.
  assert (Hplural : forall n, 1 <= n ->
            (if 1 <? n then "s" else "") = (if n =? 1 then "" else "s")).
  { intros n Hn. destruct (n =? 1) eqn:E.
    - apply Z.eqb_eq in E. subst n. reflexivity.
    - apply Z.eqb_neq in E.
      assert (L : (1 <? n) = true) by (apply Z.ltb_lt; lia).
      rewrite L. reflexivity. }
  destruct (age <? 30) eqn:E30.
  - apply Z.ltb_lt in E30. exists (age / 7), "week".
    assert (Hn : 1 <= age / 7) by (apply Z.div_le_lower_bound; lia).
    assert (Hm : age / 7 <= 4) by (apply Z.lt_succ_r; apply Z.div_lt_upper_bound; lia).
    split; [exact Hn|]. split; [rewrite (Hplural _ Hn); reflexivity|].
    left. repeat split; assumption.
  - apply Z.ltb_ge in E30. destruct (age <? 365) eqn:E365.
    + apply Z.ltb_lt in E365. exists (age / 30), "month".
      assert (Hn : 1 <= age / 30) by (apply Z.div_le_lower_bound; lia).
      assert (Hm : age / 30 <= 12)
        by (apply Z.lt_succ_r; apply Z.div_lt_upper_bound; lia).
      split; [exact Hn|]. split; [rewrite (Hplural _ Hn); reflexivity|].
      right. left. repeat split; assumption.
    + apply Z.ltb_ge in E365. exists (age / 365), "year".
      assert (Hn : 1 <= age / 365) by (apply Z.div_le_lower_bound; lia).
      split; [exact Hn|]. split; [rewrite (Hplural _ Hn); reflexivity|].
      right. right. repeat split; assumption.
Qed.

Fixpoint last_char (s : string) : option ascii :=
  match s with
  | EmptyString => None
  | String c s' =>
      match last_char s' with
      | None => Some c
      | r => r
      end
  end.

Lemma last_char_app (s t : string) :
  t <> EmptyString -> last_char (s ++ t) = last_char t.
Proof.
  intros Ht. induction s as [|c s IH]; [reflexivity|].
  cbn [append last_char]. rewrite IH.
  destruct t as [|d t]; [congruence|].
  cbn [last_char]. destruct (last_char t); reflexivity.
Qed.

Lemma last_char_old (s : string) : last_char (s ++ " old") = Some "d"%char.
Proof. rewrite last_char_app by discriminate. reflexivity. Qed.

(** The age wording by cases: the two fixed words at ages 0 and 1, and
    a wording that ends in "old" at every other age. *)
Lemma age_description_cases (age : Z) :
  (age = 0 /\ age_description age = "Today")
  \/ (age = 1 /\ age_description age = "Yesterday")
  \/ (age <> 0 /\ age <> 1 /\ last_char (age_description age) = Some "d"%char
      /\ (age < 0 -> age_description age = str_of_Z age ++ " days old")).
Proof.
  unfold age_description.
  destruct (age =? 0) eqn:E0; [left; apply Z.eqb_eq in E0; split; [exact E0|reflexivity]|].
  destruct (age =? 1) eqn:E1;
    [right; left; apply Z.eqb_eq in E1; split; [exact E1|reflexivity]|].
  right; right. apply Z.eqb_neq in E0. apply Z.eqb_neq in E1.
  split; [exact E0|]. split; [exact E1|].
  destruct (age <? 7) eqn:E7.
  { split; [|reflexivity].
    change (str_of_Z age ++ " days old") with (str_of_Z age ++ " days" ++ " old").
    rewrite !last_char_app by discriminate. reflexivity. }
  apply Z.ltb_ge in E7.
  split; [|intros Hneg; lia].
  destruct (age <? 30); [|destruct (age <? 365)].
  - change (" week" ++ (if 1 <? age / 7 then "s" else "") ++ " old")
      with (" week" ++ ((if 1 <? age / 7 then "s" else "") ++ " old")).
    rewrite (last_char_app (str_of_Z (age / 7))) by discriminate.
    rewrite (last_char_app " week") by (destruct (1 <? age / 7); discriminate).
    apply last_char_old.
  - rewrite (last_char_app (str_of_Z (age / 30))) by discriminate.
    rewrite (last_char_app " month") by (destruct (1 <? age / 30); discriminate).
    apply last_char_old.
  - rewrite (last_char_app (str_of_Z (age / 365))) by discriminate.
    rewrite (last_char_app " year") by (destruct (1 <? age / 365); discriminate).
    apply last_char_old.
Qed.

(** The age line of the prompt says "Unknown" exactly when the date is
    missing or naive.  For a timezone-aware date it says
    "Today" exactly when less than one whole day has passed, "Yesterday"
    exactly at one whole day, and a date in the future gets its negative
    number of days. *)
Theorem prompt_age_naive_unknown :
  forall (now : Z) (received_date : option datetime),
    (prompt_age now received_date = "Unknown"
     <-> received_date = None
         \/ exists d, received_date = Some d /\ utcoffset_us d = None)
    /\ (forall d off, received_date = Some d -> utcoffset_us d = Some off ->
          let elapsed := now - (wall_us d - off) in
          (prompt_age now received_date = "Today" <-> 0 <= elapsed < us_per_day)
          /\ (prompt_age now received_date = "Yesterday"
              <-> us_per_day <= elapsed < 2 * us_per_day)
          /\ (elapsed < 0 ->
              prompt_age now received_date
              = str_of_Z (elapsed / us_per_day) ++ " days old")).
Proof.
  intros now received_date. split.
  - unfold prompt_age. destruct received_date as [d|].
    + destruct (utcoffset_us d) as [off|] eqn:Eo.
      * split.
        -- intros H. exfalso.
           destruct (age_description_cases (age_days now d))
             as [[_ E]|[[_ E]|(_ & _ & E & _)]]; rewrite H in E; discriminate E.
        -- intros [H|(d' & H & Hn)]; [discriminate H|].
           injection H as <-. congruence.
      * split; [intros _; right; exists d; split; [reflexivity|exact Eo]|reflexivity].
    + split; [intros _; left; reflexivity|reflexivity].
  - intros d off -> Eo. cbv zeta. unfold prompt_age. rewrite Eo.
    assert (Hage : age_days now d = (now - (wall_us d - off)) / us_per_day).
    { unfold age_days, utc_instant. rewrite Eo. reflexivity. }
    assert (Hday : 0 < us_per_day) by (unfold us_per_day; lia).
    rewrite <- Hage. set (elapsed := now - (wall_us d - off)) in *.
    assert (H0 : age_days now d = 0 <-> 0 <= elapsed < us_per_day).
    { rewrite Hage. split.
      - intros H. apply Z.div_small_iff in H; lia.
      - intros H. apply Z.div_small. exact H. }
    assert (H1 : age_days now d = 1 <-> us_per_day <= elapsed < 2 * us_per_day).
    { rewrite Hage. split.
      - intros H. pose proof (Z.mul_div_le elapsed us_per_day Hday) as Hle.
        pose proof (Z.mul_succ_div_gt elapsed us_per_day Hday) as Hgt.
        rewrite H in Hle, Hgt. lia.
      - intros H. symmetry. apply (Z.div_unique elapsed us_per_day 1 (elapsed - us_per_day)); lia. }
    assert (Hneg : elapsed < 0 -> age_days now d < 0).
    { intros H. rewrite Hage. apply Z.div_lt_upper_bound; lia. }
    destruct (age_description_cases (age_days now d))
      as [[Ea E]|[[Ea E]|(Ea0 & Ea1 & E & Efut)]].
    + rewrite E. split; [|split].
      * split; [intros _; apply H0; exact Ea|reflexivity].
      * split; [intros H; discriminate H|].
        intros H. apply H1 in H. lia.
      * intros H. apply Hneg in H. lia.
    + rewrite E. split; [|split].
      * split; [intros H; discriminate H|].
        intros H. apply H0 in H. lia.
      * split; [intros _; apply H1; exact Ea|reflexivity].
      * intros H. apply Hneg in H. lia.
    + split; [|split].
      * split; [intros H; rewrite H in E; discriminate E|].
        intros H. apply H0 in H. contradiction.
      * split; [intros H; rewrite H in E; discriminate E|].
        intros H. apply H1 in H. contradiction.
      * intros H. apply Efut. apply Hneg. exact H.
Qed.

(** A successful connection check leaves the analyzer with a model name
    the server lists: the configured name if listed, else that name with
    ":latest".  It fails when neither is listed, returns nothing at a
    status other than 200, and a second check after a success changes
    nothing. *)
Theorem check_connection_spec :
  forall (tags : option (Z * list string)) (model : string),
    let result := check_connection tags model in
    (fst result = Some true ->
     exists status names,
       tags = Some (status, names) /\ status = 200
       /\ In (snd result) names
       /\ (snd result = model \/ (~ In model names /\ snd result = model ++ ":latest"))
       /\ check_connection tags (snd result) = result)
    /\ (fst result <> Some true -> snd result = model)
    /\ (forall status names, tags = Some (status, names) -> status <> 200 ->
          fst result = None)
    /\ (forall names, tags = Some (200, names) ->
          (fst result = Some true <-> In model names \/ In (model ++ ":latest") names)).
Proof.
  intros tags model. cbv zeta. unfold check_connection.
  assert (Hmem : forall x xs, existsb (String.eqb x) xs = true <-> In x xs).
  { intros x xs. rewrite existsb_exists. split.
    - intros (y & Hy & E). apply String.eqb_eq in E. subst y. exact Hy.
    - intros H. exists x. split; [exact H|apply String.eqb_refl]. }
  destruct tags as [[status names]|].
  2:{ cbn [fst snd]. split; [intros H; discriminate H|].
      split; [reflexivity|]. split.
      - intros status names H. discriminate H.
      - intros names H. discriminate H. }
  destruct (status =? 200) eqn:Es.
  - apply Z.eqb_eq in Es. subst status.
    destruct (existsb (String.eqb model) names) eqn:Em.
    + cbn [fst snd]. split; [|split; [|split]].
      * intros _. exists 200, names. rewrite Em.
        apply Hmem in Em. repeat split; auto.
      * intros H. exfalso. apply H. reflexivity.
      * intros st nm H Hne. injection H as <- _. exfalso. apply Hne. reflexivity.
      * intros nm H. injection H as <-. apply Hmem in Em.
        split; [intros _; left; exact Em|reflexivity].
    + destruct (existsb (String.eqb (model ++ ":latest")) names) eqn:El.
      * cbn [fst snd]. split; [|split; [|split]].
        { intros _. exists 200, names. rewrite El.
          assert (Hnot : ~ In model names)
            by (intros Hin; apply Hmem in Hin; congruence).
          apply Hmem in El. repeat split; auto. }
        { intros H. exfalso. apply H. reflexivity. }
        { intros st nm H Hne. injection H as <- _. exfalso. apply Hne. reflexivity. }
        { intros nm H. injection H as <-. apply Hmem in El.
          split; [intros _; right; exact El|reflexivity]. }
      * cbn [fst snd]. split; [intros H; discriminate H|].
        split; [reflexivity|]. split.
        { intros st nm H Hne. injection H as <- _. exfalso. apply Hne. reflexivity. }
        { intros nm H. injection H as <-. split; [intros H; discriminate H|].
          intros [H|H]; apply Hmem in H; congruence. }
  - cbn [fst snd]. split; [intros H; discriminate H|].
    split; [reflexivity|]. split; [reflexivity|].
    intros nm H. injection H as E _. subst status. discriminate Es.
Qed.

End AnalyzerMore.

Section Fences.
Import Analyzer Prompt.

Lemma join_split_lines (s : string) : join_lines (split_lines s) = s.
Proof.
  induction s as [|c s IH]; [reflexivity|].
  cbn [split_lines]. destruct (Ascii.eqb c "010"%char) eqn:E.
  - apply Ascii.eqb_eq in E. subst c.
    destruct (split_lines s) as [|l ls] eqn:El.
    + simpl in IH. subst s. discriminate El.
    + cbn [join_lines]. cbn [join_lines] in IH. rewrite IH. reflexivity.
  - destruct (split_lines s) as [|l ls] eqn:El.
    + simpl in IH. subst s. discriminate El.
    + destruct ls as [|l' ls'].
      * cbn [join_lines] in *. rewrite IH. reflexivity.
      * cbn [join_lines] in *. rewrite <- IH. reflexivity.
Qed.

Lemma split_lines_nonempty (s : string) : split_lines s <> [].
Proof.
  destruct s as [|c s]; [discriminate|].
  cbn [split_lines]. destruct (Ascii.eqb c "010"%char); [discriminate|].
  destruct (split_lines s); discriminate.
Qed.

Lemma split_lines_app (a b : string) :
  split_lines (a ++ newline ++ b)
  = (removelast (split_lines a)
       ++ (last (split_lines a) EmptyString) :: split_lines b)%list.
Proof.
  induction a as [|c a IH].
  - reflexivity.
  - change ((String c a ++ newline ++ b)%string)
      with (String c (a ++ newline ++ b)%string).
    cbn [split_lines]. rewrite IH.
    pose proof (split_lines_nonempty a) as Hne.
    destruct (Ascii.eqb c "010"%char).
    + destruct (split_lines a) as [|l ls]; [congruence|]. reflexivity.
    + destruct (split_lines a) as [|l ls]; [congruence|].
      destruct ls as [|l' ls']; reflexivity.
Qed.

Lemma split_lines_single (a : string) :
  has_newline a = false -> split_lines a = [a].
Proof.
  induction a as [|c a IH]; [reflexivity|].
  cbn [has_newline split_lines]. intros H. apply orb_false_iff in H.
  destruct H as [Hc Ha]. rewrite Hc, (IH Ha). reflexivity.
Qed.

Lemma rstrip_app_nonspace (s : string) (c : ascii) :
  is_space c = false ->
  rstrip (s ++ String c EmptyString) = (s ++ String c EmptyString)%string.
Proof.
  intros Hc. induction s as [|a s IH].
  - cbn [append rstrip]. rewrite Hc. reflexivity.
  - change ((String a s ++ String c EmptyString)%string)
      with (String a (s ++ String c EmptyString)%string).
    cbn [rstrip]. rewrite IH. destruct s; reflexivity.
Qed.

Lemma prefix_app (p x : string) : String.prefix p (p ++ x) = true.
Proof.
  induction p as [|c p IH]; [destruct x; reflexivity|].
  simpl. destruct (ascii_dec c c) as [_|N]; [exact IH|exfalso; apply N; reflexivity].
Qed.

Lemma append_assoc (a b c : string) : ((a ++ b) ++ c = a ++ (b ++ c))%string.
Proof. induction a as [|x a IH]; [reflexivity|]. simpl. rewrite IH. reflexivity. Qed.

(** Splitting a text at its line breaks and joining the lines again
    gives the text back.  For an answer wrapped in a code fence the text
    handed to the JSON decoder is the inner text as it stands, whatever
    the language tag on the opening fence line: the answer is parsed the
    same with and without a tag, and as the bare inner text is parsed
    whenever that text has no surrounding blanks and no fence of its
    own to remove. *)
Theorem fenced_answer_unwrapped :
  forall (env : Collaborators) (tag body : string),
    join_lines (split_lines body) = body
    /\ (has_newline tag = false ->
        unfenced (fenced tag body) = body
        /\ _parse_analysis_response env (fenced tag body)
           = _parse_analysis_response env (fenced EmptyString body)
        /\ (unfenced body = body ->
            _parse_analysis_response env (fenced tag body)
            = _parse_analysis_response env body)).
Proof.
  intros env tag body. split; [apply join_split_lines|]. revert tag.
  assert (Hall : forall tag, has_newline tag = false ->
                             unfenced (fenced tag body) = body).
  { intros tag Htag. unfold unfenced, Py.strip.
    assert (Hl : lstrip (fenced tag body) = fenced tag body) by reflexivity.
    rewrite Hl.
    assert (Hr : rstrip (fenced tag body) = fenced tag body).
    { unfold fenced.
      replace ("```" ++ tag ++ newline ++ body ++ newline ++ "```")%string
        with (("```" ++ tag ++ newline ++ body ++ newline ++ "``")
                ++ String "`"%char EmptyString)%string.
      - apply rstrip_app_nonspace. reflexivity.
      - rewrite !append_assoc. reflexivity. }
    rewrite Hr.
    assert (Hp : String.prefix "```" (fenced tag body) = true)
      by (unfold fenced; apply prefix_app).
    rewrite Hp. unfold fenced.
    replace ("```" ++ tag ++ newline ++ body ++ newline ++ "```")%string
      with (("```" ++ tag) ++ newline ++ (body ++ newline ++ "```"))%string
      by (rewrite !append_assoc; reflexivity).
    rewrite split_lines_app.
    rewrite (split_lines_single ("```" ++ tag)) by exact Htag.
    cbn [removelast last app]. rewrite split_lines_app.
    assert (Hticks : split_lines "```" = ["```"]) by reflexivity.
    rewrite Hticks. unfold slice_1_m1. cbn [tl].
    rewrite removelast_app by discriminate.
    cbn [removelast].
    rewrite <- (app_removelast_last EmptyString (split_lines_nonempty body)).
    apply join_split_lines. }
  intros tag Htag. split; [exact (Hall tag Htag)|]. split.
  - unfold _parse_analysis_response.
    rewrite (Hall tag Htag), (Hall EmptyString eq_refl). reflexivity.
  - intros Hbody. unfold _parse_analysis_response.
    rewrite (Hall tag Htag), Hbody. reflexivity.
Qed.

Lemma fenced_answer_unwrapped_witness :
  unfenced (fenced "json" "{...}") = "{...}"
  /\ _parse_analysis_response (answering (PDict good_answer)) (fenced "json" "{...}")
     = _parse_analysis_response (answering (PDict good_answer)) "{...}".
Proof.
  destruct (fenced_answer_unwrapped (answering (PDict good_answer)) "json" "{...}")
    as (_ & H).
  destruct (H eq_refl) as (H1 & _ & H2).
  split; [exact H1|]. apply H2. reflexivity.
Defined.

Lemma analyze_email_spec_witness :
  analyze_email llama empty_db invoice_mail = None
  /\ exists a, analyze_email (answering (PDict good_answer)) empty_db invoice_mail
               = Some a
               /\ model_name a = "llama3.2".
Proof.
  split.
  - apply (analyze_email_spec llama empty_db invoice_mail). left. reflexivity.
  - destruct (analyze_email (answering (PDict good_answer)) empty_db invoice_mail)
      as [a|] eqn:E; [|vm_compute in E; discriminate E].
    exists a. split; [reflexivity|].
    apply (proj2 (analyze_email_spec (answering (PDict good_answer)) empty_db
                    invoice_mail) a E).
Defined.

Lemma age_description_units_witness :
  exists n unit,
    1 <= n
    /\ age_description 45
       = str_of_Z n ++ " " ++ unit ++ (if n =? 1 then "" else "s") ++ " old"
    /\ ((unit = "week" /\ 45 < 30 /\ n = 45 / 7 /\ n <= 4)
        \/ (unit = "month" /\ 30 <= 45 < 365 /\ n = 45 / 30 /\ n <= 12)
        \/ (unit = "year" /\ 365 <= 45 /\ n = 45 / 365)).
Proof. apply (age_description_units 45). lia. Defined.

Example age_descriptions :
  map age_description [0; 1; 6; 7; 13; 14; 29; 30; 59; 60; 364; 365; 730; -3]
  = ["Today"; "Yesterday"; "6 days old"; "1 week old"; "1 week old";
     "2 weeks old"; "4 weeks old"; "1 month old"; "1 month old"; "2 months old";
     "12 months old"; "1 year old"; "2 years old"; "-3 days old"].
Proof. vm_compute; reflexivity. Qed.

Lemma prompt_age_naive_unknown_witness :
  prompt_age (day 61) (Some epoch) = "Unknown"
  /\ prompt_age (day 61 + 5) (Some (mkDatetime (day 61) (Some 0))) = "Today".
Proof.
  split.
  - apply (prompt_age_naive_unknown (day 61) (Some epoch)).
    right. exists epoch. split; reflexivity.
  - apply (proj2 (prompt_age_naive_unknown (day 61 + 5)
                    (Some (mkDatetime (day 61) (Some 0))))
             (mkDatetime (day 61) (Some 0)) 0 eq_refl eq_refl).
    vm_compute. split; [discriminate|reflexivity].
Defined.

Lemma check_connection_spec_witness :
  exists status names,
    Some (200, ["mistral:latest"; "llama3.2:latest"]) = Some (status, names)
    /\ status = 200
    /\ In (snd (check_connection (Some (200, ["mistral:latest"; "llama3.2:latest"]))
                  "llama3.2")) names
    /\ (snd (check_connection (Some (200, ["mistral:latest"; "llama3.2:latest"]))
               "llama3.2") = "llama3.2"
        \/ (~ In "llama3.2" names
            /\ snd (check_connection (Some (200, ["mistral:latest"; "llama3.2:latest"]))
                      "llama3.2") = "llama3.2" ++ ":latest"))
    /\ check_connection (Some (200, ["mistral:latest"; "llama3.2:latest"]))
         (snd (check_connection (Some (200, ["mistral:latest"; "llama3.2:latest"]))
                 "llama3.2"))
       = check_connection (Some (200, ["mistral:latest"; "llama3.2:latest"])) "llama3.2".
Proof.
  apply (check_connection_spec (Some (200, ["mistral:latest"; "llama3.2:latest"]))
           "llama3.2").
  vm_compute; reflexivity.
Defined.

End Fences.

(* ----------------------------------------------------------------- *)
(** ** scanner.py: keys, tiers and the loop over a batch *)

Module Scan.
Import Py Rules Db Env Scanner.

(** The loop of [scan_new_emails] over the fetched messages, each taken
    with the clock reading at its turn: the database and the rule engine
    are threaded through, the successes are counted. *)
Fixpoint process_batch (env : Collaborators) (rules : EmailRules) (db : database)
    (emails : list (Z * email_data)) (folder : string)
  : database * EmailRules * nat :=
  match emails with
  | [] => (db, rules, 0%nat)
  | (now, email_data) :: rest =>
      let '(db1, rules1, ok) := _process_email env rules db now email_data folder in
      let '(db2, rules2, processed_count) := process_batch env rules1 db1 rest folder in
      (db2, rules2, if ok then S processed_count else processed_count)
  end.

(** [_filter_new_emails]: in rescan mode every message, otherwise the
    messages whose identifier is not stored yet. *)
Definition _filter_new_emails (db : database) (emails : list email_data)
    (rescan : bool) : list email_data :=
  if rescan then emails
  else filter (fun e => match email_by_email_id db (email_id e) with
                        | Some _ => false
                        | None => true
                        end) emails.

(** The well-formedness the table constraints express: unique message
    identifiers, unique row keys, and every verdict attached to a stored
    message. *)
Definition keys_ok (db : database) : Prop :=
  NoDup (map e_email_id (emails db))
  /\ NoDup (map e_id (emails db))
  /\ NoDup (map a_id (analyses db))
  /\ (forall a, In a (analyses db) -> exists e, In e (emails db) /\ e_id e = a_email_id a).

End Scan.

Section ScannerMore.
Import SenderMemory Calibration Analyzer Scanner Scan.

Lemma next_id_fresh {A : Type} (key : A -> Z) (rows : list A) (r : A) :
  In r rows -> key r < next_id key rows.
Proof.
  unfold next_id. induction rows as [|x xs IH]; [intros []|].
  cbn [fold_right]. intros [->|H]; [lia|]. specialize (IH H). lia.
Qed.

Lemma next_id_not_in {A : Type} (key : A -> Z) (rows : list A) :
  ~ In (next_id key rows) (map key rows).
Proof.
  intros H. apply in_map_iff in H. destruct H as (r & E & Hr).
  pose proof (next_id_fresh key rows r Hr). lia.
Qed.

Lemma NoDup_snoc {A : Type} (xs : list A) (x : A) :
  NoDup xs -> ~ In x xs -> NoDup (xs ++ [x])%list.
Proof.
  intros Hnd Hx. induction Hnd as [|y ys Hy Hys IH]; simpl.
  - constructor; [intros []|constructor].
  - constructor.
    + intros H. apply in_app_or in H. destruct H as [H|[H|[]]].
      * exact (Hy H).
      * subst y. apply Hx. left. reflexivity.
    + apply IH. intros H. apply Hx. right. exact H.
Qed.

Lemma find_none_all {A : Type} (p : A -> bool) (xs : list A) :
  find p xs = None -> forall x, In x xs -> p x = false.
Proof.
  induction xs as [|y ys IH]; [intros _ x []|].
  simpl. destruct (p y) eqn:E; [discriminate|].
  intros H x [->|Hx]; [exact E|exact (IH H x Hx)].
Qed.

Lemma store_email_keys (db : database) (e : email_data) (folder : string) (now : Z) :
  let db1 := fst (fst (store_email db e folder now)) in
  let email_record := snd (fst (store_email db e folder now)) in
  In email_record (emails db1)
  /\ e_email_id email_record = email_id e
  /\ (exists tail, emails db1 = (emails db ++ tail)%list /\ (length tail <= 1)%nat)
  /\ (keys_ok db -> keys_ok db1).
Proof.
  unfold store_email, email_by_email_id.
  destruct (find (fun x => String.eqb (e_email_id x) (email_id e)) (emails db))
    as [rec|] eqn:E; cbn [fst snd emails analyses].
  - apply find_some in E. destruct E as [Hin Heq]. apply String.eqb_eq in Heq.
    split; [exact Hin|]. split; [exact Heq|].
    split; [exists []; rewrite app_nil_r; split; [reflexivity|simpl; lia]|].
    intros H; exact H.
  - split; [apply in_or_app; right; left; reflexivity|]. split; [reflexivity|].
    split; [eexists; split; [reflexivity|simpl; lia]|].
    intros (H1 & H2 & H3 & H4). unfold keys_ok. cbn [emails analyses].
    rewrite !map_app. cbn [map e_email_id e_id email_of].
    split; [|split; [|split]].
    + apply NoDup_snoc; [exact H1|]. intros Hin. apply in_map_iff in Hin.
      destruct Hin as (x & Hx & Hxin).
      pose proof (find_none_all _ _ E x Hxin) as Hf. cbv beta in Hf.
      rewrite Hx, String.eqb_refl in Hf. discriminate Hf.
    + apply NoDup_snoc; [exact H2|]. apply next_id_not_in.
    + exact H3.
    + intros a Ha. destruct (H4 a Ha) as (x & Hx & Hxa).
      exists x. split; [apply in_or_app; left; exact Hx|exact Hxa].
Qed.

Lemma update_first_In (k : Z) (r : analysis_result) (now : Z) (rows : list Analysis)
    (a : Analysis) :
  In a (update_first k r now rows) -> a_email_id a = k \/ In a rows.
Proof.
  induction rows as [|x xs IH]; [intros []|].
  simpl. destruct (a_email_id x =? k) eqn:E.
  - intros [<-|H]; [left; reflexivity|right; right; exact H].
  - intros [<-|H]; [right; left; reflexivity|].
    destruct (IH H) as [Hk|Hin]; [left; exact Hk|right; right; exact Hin].
Qed.

Lemma save_analysis_keys (db : database) (rec : Email) (r : analysis_result) (now : Z) :
  In rec (emails db) -> keys_ok db -> keys_ok (save_analysis db (e_id rec) r now).
Proof.
  intros Hrec (H1 & H2 & H3 & H4). unfold save_analysis, keys_ok.
  destruct (analysis_by_email db (e_id rec)) as [old|] eqn:E; cbn [emails analyses].
  - split; [exact H1|]. split; [exact H2|].
    split; [rewrite ids_update_first; exact H3|].
    intros a Ha. apply update_first_In in Ha. destruct Ha as [Hk|Ha].
    + exists rec. split; [exact Hrec|symmetry; exact Hk].
    + exact (H4 a Ha).
  - split; [exact H1|]. split; [exact H2|]. split.
    + rewrite map_app. cbn [map a_id analysis_of].
      apply NoDup_snoc; [exact H3|apply next_id_not_in].
    + intros a Ha. apply in_app_or in Ha. destruct Ha as [Ha|[<-|[]]].
      * exact (H4 a Ha).
      * exists rec. split; [exact Hrec|reflexivity].
Qed.

(** Processing a message keeps the tables well keyed (unique message
    identifiers, unique row keys, every verdict attached to a stored
    message) and each message at one verdict at most; it never touches
    the human decisions and at most appends one email row. *)
Theorem process_email_preserves_keys :
  forall (env : Collaborators) (rules : EmailRules) (db : database) (now : Z)
         (e : email_data) (folder : string),
    let db' := fst (fst (_process_email env rules db now e folder)) in
    (keys_ok db -> keys_ok db')
    /\ ((forall k, (verdicts_of db k <= 1)%nat) ->
        forall k, (verdicts_of db' k <= 1)%nat)
    /\ decisions db' = decisions db
    /\ (exists tail, emails db' = (emails db ++ tail)%list /\ (length tail <= 1)%nat).
Proof.
  intros env rules db now e folder. cbv zeta.
  destruct (store_email_keys db e folder now) as (Hrec & _ & Htail & Hkeys).
  destruct (store_email_keeps db e folder now) as (Han & Hdec & _).
  cbv zeta in Hrec, Htail, Hkeys, Han, Hdec.
  destruct (process_email_cases env rules db now e folder)
    as [[r1 Hf]|(res & r1 & _ & Hok)]; cbv zeta in *.
  { rewrite Hf. cbn [fst]. split; [intros H; exact H|].
    split; [intros H; exact H|]. split; [reflexivity|].
    exists []. rewrite app_nil_r. split; [reflexivity|simpl; lia]. }
  rewrite Hok. cbn [fst].
  set (db1 := fst (fst (store_email db e folder now))) in *.
  set (rec := snd (fst (store_email db e folder now))) in *.
  destruct (save_analysis_verdicts db1 (e_id rec) res now) as (Hcount & _ & Hem & Hde).
  split; [|split; [|split]].
  - intros H. apply save_analysis_keys; [exact Hrec|exact (Hkeys H)].
  - intros Hinv k. rewrite Hcount.
    assert (Hv1 : forall j, verdicts_of db1 j = verdicts_of db j)
      by (intros j; unfold verdicts_of; rewrite Han; reflexivity).
    destruct (analysis_by_email db1 (e_id rec)).
    + rewrite Hv1. apply Hinv.
    + destruct (k =? e_id rec); [lia|]. rewrite Hv1. apply Hinv.
  - rewrite Hde. exact Hdec.
  - rewrite Hem. exact Htail.
Qed.

(** A scan over any batch of messages keeps the tables well keyed and
    every message at one verdict at most, leaves the human decisions
    alone, only appends email rows, and counts no more successes than
    there are messages. *)
Theorem process_batch_invariants :
  forall (env : Collaborators) (batch : list (Z * email_data)) (folder : string)
         (rules : EmailRules) (db : database),
    let result := process_batch env rules db batch folder in
    let db' := fst (fst result) in
    (snd result <= length batch)%nat
    /\ (keys_ok db -> keys_ok db')
    /\ ((forall k, (verdicts_of db k <= 1)%nat) ->
        forall k, (verdicts_of db' k <= 1)%nat)
    /\ decisions db' = decisions db
    /\ (exists tail, emails db' = (emails db ++ tail)%list
                     /\ (length tail <= length batch)%nat).
Proof.
  intros env batch folder. induction batch as [|[now e] rest IH]; intros rules db.
  - cbn [process_batch fst snd length]. split; [lia|].
    split; [intros H; exact H|]. split; [intros H; exact H|].
    split; [reflexivity|]. exists []. rewrite app_nil_r. split; [reflexivity|simpl; lia].
  - cbv zeta. cbn [process_batch].
    destruct (process_email_preserves_keys env rules db now e folder)
      as (Hk1 & Hv1 & Hd1 & (t1 & Ht1 & Hl1)).
    cbv zeta in Hk1, Hv1, Hd1, Ht1.
    destruct (_process_email env rules db now e folder) as [[db1 rules1] ok].
    cbn [fst] in Hk1, Hv1, Hd1, Ht1.
    specialize (IH rules1 db1). cbv zeta in IH.
    destruct (process_batch env rules1 db1 rest folder) as [[db2 rules2] n].
    cbn [fst snd] in IH. destruct IH as (Hn & Hk2 & Hv2 & Hd2 & (t2 & Ht2 & Hl2)).
    cbn [fst snd length].
    split; [destruct ok; lia|].
    split; [intros H; exact (Hk2 (Hk1 H))|].
    split; [intros H; exact (Hv2 (Hv1 H))|].
    split; [rewrite Hd2; exact Hd1|].
    exists (t1 ++ t2)%list. rewrite Ht2, Ht1, app_assoc. split; [reflexivity|].
    rewrite length_app. lia.
Qed.

(** The classifier is consulted in tier 3 only: when a rule or the
    sender's history decides, the outcome is a verdict whatever the
    classification service, the decoder and the storage would do. *)
Theorem run_tiers_classifier_last :
  forall (env env' : Collaborators) (rules : EmailRules) (db : database) (now : Z)
         (e : email_data),
    fst (check_email rules now e) <> None \/ should_skip_llm db (sender e) <> None ->
    run_tiers env rules db now e = run_tiers env' rules db now e
    /\ exists v, fst (run_tiers env rules db now e) = Verdict v
                 /\ (model_name v = "rules_engine" \/ model_name v = "pattern_memory")
                 /\ model_version v = "1.0".
Proof.
  intros env env' rules db now e H. unfold run_tiers.
  destruct (check_email rules now e) as [[v|] r1]; cbn [fst] in *.
  - split; [reflexivity|]. eexists. split; [reflexivity|]. split; [left|]; reflexivity.
  - destruct (should_skip_llm db (sender e)) as [p|].
    + split; [reflexivity|]. eexists. split; [reflexivity|].
      split; [right|]; reflexivity.
    + exfalso. destruct H as [H|H]; apply H; reflexivity.
Qed.

Lemma stats_get_In (name : string) (stats : list (string * bucket_stats))
    (st : bucket_stats) :
  stats_get name stats = Some st -> In (name, st) stats.
Proof.
  induction stats as [|[k v] rest IH]; [discriminate|].
  simpl. destruct (String.eqb name k) eqn:E.
  - intros H. injection H as <-. apply String.eqb_eq in E. subst k. left. reflexivity.
  - intros H. right. exact (IH H).
Qed.

(** While every bucket holds fewer than 5 reviewed decisions, as in a
    fresh database, the calibration step leaves the classifier's
    analysis exactly as parsed, confidence and reasoning included. *)
Theorem apply_calibration_small_sample :
  forall (env : Collaborators) (db : database) (a : analysis_result),
    (forall name st, In (name, st) (get_bucket_stats db) ->
                     (Calibration.total_decisions st < 5)%nat) ->
    apply_calibration env db a = Some a.
Proof.
  intros env db a Hsmall. unfold apply_calibration.
  assert (Hsame : fst (calibrate_confidence (format_pct env) db (confidence_score a)
                         (Some (category a))) = confidence_score a).
  { unfold calibrate_confidence.
    destruct (find_bucket (confidence_score a) buckets) as [name|]; [|reflexivity].
    destruct (stats_get name (get_bucket_stats db)) as [st|] eqn:Eg; [|reflexivity].
    pose proof (stats_get_In _ _ _ Eg) as Hin.
    pose proof (Hsmall name st Hin) as Hlt.
    unfold get_bucket_stats in Hin. apply in_map_iff in Hin.
    destruct Hin as ([[lo hi] nm] & Heq & _). injection Heq as _ <-.
    cbn [sample_size_sufficient stats_of_bucket] in *.
    cbn [Calibration.total_decisions stats_of_bucket] in Hlt.
    apply Nat.leb_gt in Hlt. rewrite Hlt. reflexivity. }
  destruct (calibrate_confidence (format_pct env) db (confidence_score a)
              (Some (category a))) as [cal why].
  cbn [fst] in Hsame. subst cal.
  assert (Hz : Qle_bool (Qabs (confidence_score a - confidence_score a)) 0.05 = true).
  { apply Qle_bool_iff.
    assert (E : (confidence_score a - confidence_score a == 0)%Q) by ring.
    rewrite E. unfold Qle. simpl. lia. }
  rewrite Hz. reflexivity.
Qed.

End ScannerMore.

Section NewMessages.
Import SenderMemory Calibration Analyzer Scanner Scan.

(** Outside rescan mode the filter keeps exactly the messages that are
    not stored yet, and in a well-keyed database a successful run on
    such a message appends one email row and one verdict row: the
    message then has exactly one verdict, pending review. *)
Theorem process_new_email :
  forall (env : Collaborators) (rules : EmailRules) (db : database) (now : Z)
         (batch : list email_data) (e : email_data) (folder : string)
         (db' : database) (rules' : EmailRules),
    (In e (_filter_new_emails db batch false)
     <-> In e batch /\ email_by_email_id db (email_id e) = None)
    /\ _filter_new_emails db batch true = batch
    /\ (In e (_filter_new_emails db batch false) ->
        keys_ok db ->
        _process_email env rules db now e folder = (db', rules', true) ->
        exists row verdict,
          emails db' = (emails db ++ [row])%list
          /\ e_email_id row = email_id e
          /\ analyses db' = (analyses db ++ [verdict])%list
          /\ a_email_id verdict = e_id row
          /\ a_status verdict = "pending_review"
          /\ verdicts_of db' (e_id row) = 1%nat).
Proof.
  intros env rules db now batch e folder db' rules'.
  assert (Hfilter : In e (_filter_new_emails db batch false)
                    <-> In e batch /\ email_by_email_id db (email_id e) = None).
  { unfold _filter_new_emails. rewrite filter_In.
    destruct (email_by_email_id db (email_id e)); split; intros [H1 H2];
      (split; [exact H1|]); try reflexivity; discriminate H2. }
  split; [exact Hfilter|]. split; [reflexivity|].
  intros Hin Hkeys Hrun. apply Hfilter in Hin. destruct Hin as [_ Hnew].
  destruct (process_email_cases env rules db now e folder)
    as [[r1 Hf]|(res & r1 & _ & Hok)]; cbv zeta in *.
  { rewrite Hf in Hrun. discriminate Hrun. }
  rewrite Hok in Hrun. injection Hrun as <- _.
  unfold store_email. rewrite Hnew. cbn [fst snd].
  set (row := email_of e (next_id e_id (emails db)) folder now).
  assert (Hnone : analysis_by_email
                    (mkDb (emails db ++ [row]) (analyses db) (decisions db))
                    (e_id row) = None).
  { unfold analysis_by_email. cbn [analyses].
    destruct (find (fun a => a_email_id a =? e_id row) (analyses db)) as [a|] eqn:E;
      [|reflexivity].
    apply find_some in E. destruct E as [Ha Heq]. apply Z.eqb_eq in Heq.
    destruct Hkeys as (_ & _ & _ & Hfk). destruct (Hfk a Ha) as (x & Hx & Hxa).
    pose proof (next_id_fresh e_id (emails db) x Hx) as Hfresh.
    cbn [e_id row email_of] in Heq. lia. }
  destruct (save_analysis_verdicts
              (mkDb (emails db ++ [row]) (analyses db) (decisions db))
              (e_id row) res now) as (Hcount & _).
  rewrite Hnone in Hcount.
  unfold save_analysis in *. rewrite Hnone in *. cbn [emails analyses] in *.
  eexists. eexists. split; [reflexivity|]. split; [reflexivity|].
  split; [reflexivity|]. split; [reflexivity|]. split; [reflexivity|].
  rewrite Hcount, Z.eqb_refl. reflexivity.
Qed.

Lemma keys_ok_five_high : keys_ok five_high.
Proof.
  unfold keys_ok. split; [|split; [|split]].
  - vm_compute. repeat constructor; simpl; intuition discriminate.
  - vm_compute. repeat constructor; simpl; intuition discriminate.
  - vm_compute. repeat constructor; simpl; intuition discriminate.
  - intros a Ha. vm_compute in Ha.
    destruct Ha as [<-|[<-|[<-|[<-|[<-|[]]]]]];
      [exists (mail 1 shop)|exists (mail 2 shop)|exists (mail 3 shop)
      |exists (mail 4 shop)|exists (mail 5 shop)];
      (split; [vm_compute; auto 6|reflexivity]).
Qed.

Lemma process_new_email_witness :
  exists row verdict,
    emails (fst (fst (_process_email (answering (PDict good_answer)) sample_rules
                        five_high (day 1) invoice_mail "INBOX")))
    = (emails five_high ++ [row])%list
    /\ e_email_id row = email_id invoice_mail
    /\ analyses (fst (fst (_process_email (answering (PDict good_answer)) sample_rules
                             five_high (day 1) invoice_mail "INBOX")))
       = (analyses five_high ++ [verdict])%list
    /\ a_email_id verdict = e_id row
    /\ a_status verdict = "pending_review"
    /\ verdicts_of (fst (fst (_process_email (answering (PDict good_answer))
                                sample_rules five_high (day 1) invoice_mail "INBOX")))
         (e_id row) = 1%nat.
Proof.
  destruct (_process_email (answering (PDict good_answer)) sample_rules five_high
              (day 1) invoice_mail "INBOX") as [[db' rules'] ok] eqn:E.
  assert (Hok : ok = true) by (vm_compute in E; injection E as _ _ <-; reflexivity).
  subst ok. cbn [fst].
  apply (proj2 (proj2 (process_new_email (answering (PDict good_answer)) sample_rules
                         five_high (day 1) [invoice_mail] invoice_mail "INBOX"
                         db' rules'))).
  - vm_compute. left. reflexivity.
  - exact keys_ok_five_high.
  - exact E.
Defined.

Lemma process_email_preserves_keys_witness :
  keys_ok (fst (fst (_process_email (answering (PDict good_answer)) sample_rules
                       five_high (day 1) invoice_mail "INBOX"))).
Proof.
  apply (process_email_preserves_keys (answering (PDict good_answer)) sample_rules
           five_high (day 1) invoice_mail "INBOX").
  exact keys_ok_five_high.
Defined.

Lemma process_batch_invariants_witness :
  keys_ok (fst (fst (process_batch (answering (PDict good_answer)) sample_rules
                       five_high
                       [(day 1, invoice_mail); (day 1, lunch_mail);
                        (day 2, invoice_mail)] "INBOX"))).
Proof.
  apply (process_batch_invariants (answering (PDict good_answer))
           [(day 1, invoice_mail); (day 1, lunch_mail); (day 2, invoice_mail)]
           "INBOX" sample_rules five_high).
  exact keys_ok_five_high.
Defined.

Example batch_counts :
  let result := process_batch (answering (PDict good_answer)) sample_rules five_high
                  [(day 1, invoice_mail); (day 1, lunch_mail); (day 2, invoice_mail)]
                  "INBOX" in
  (snd result, length (emails (fst (fst result))),
   length (analyses (fst (fst result))))
  = (3%nat, 7%nat, 7%nat).
Proof. vm_compute; reflexivity. Qed.

Lemma run_tiers_classifier_last_witness :
  run_tiers llama sample_rules empty_db (day 61) vip_event_mail
  = run_tiers (answering (PDict good_answer)) sample_rules empty_db (day 61)
      vip_event_mail.
Proof.
  apply (run_tiers_classifier_last llama (answering (PDict good_answer)) sample_rules
           empty_db (day 61) vip_event_mail).
  left. vm_compute. discriminate.
Defined.

Lemma apply_calibration_small_sample_witness :
  apply_calibration llama empty_db Analyzer.default_analysis
  = Some Analyzer.default_analysis.
Proof.
  apply (apply_calibration_small_sample llama empty_db Analyzer.default_analysis).
  intros name st H. vm_compute in H.
  destruct H as [H|[H|[H|[H|[H|[]]]]]]; injection H as _ <-; simpl; lia.
Defined.

End NewMessages.

(* ----------------------------------------------------------------- *)
(** ** sender_memory.py: the examples given to the classifier *)

Module FewShot.
Import Py Rules Db SenderMemory.

Definition row : Type := (Email * Decision * Analysis)%type.

Record example : Type := mkExample {
  ex_sender : string;
  ex_subject : string;
  ex_category : pyval;
  ai_recommendation : string;
  ai_confidence : Q;
  human_decision : option string;
  approved : bool
}.

Definition decided_at (r : row) : Z := d_decided_at (snd (fst r)).

(** [ORDER BY decided_at DESC], realised as a stable insertion sort;
    SQL leaves the order of equal timestamps open. *)
Fixpoint insert_desc (x : row) (rows : list row) : list row :=
  match rows with
  | [] => [x]
  | y :: rows' =>
      if decided_at y <=? decided_at x then x :: y :: rows'
      else y :: insert_desc x rows'
  end.

Definition sort_desc (rows : list row) : list row := fold_right insert_desc [] rows.

(** [Analysis.category == category] for a text argument. *)
Definition category_is (category : string) (a : Analysis) : bool :=
  match a_category a with
  | PStr c => String.eqb c category
  | _ => false
  end.

(** The rows of Email joined to Decision and Analysis with the given
    category and a different sender. *)
Definition category_rows (db : database) (sender category : string) : list row :=
  flat_map (fun e =>
    flat_map (fun d =>
      map (fun a => (e, d, a))
          (filter (fun a => (a_email_id a =? e_id e) && category_is category a)
                  (analyses db)))
      (filter (fun d => d_email_id d =? e_id e) (decisions db)))
    (filter (fun e => negb (String.eqb (e_sender e) sender)) (emails db)).

Definition to_example (r : row) : example :=
  let '(email, decision, analysis) := r in
  {| ex_sender := e_sender email;
     ex_subject := e_subject email;
     ex_category := a_category analysis;
     ai_recommendation := a_recommendation analysis;
     ai_confidence := a_confidence_score analysis;
     human_decision := d_action_taken decision;
     approved := d_approved decision |}.

(** [SenderMemory.get_similar_decisions] *)
Definition get_similar_decisions (db : database) (sender category : string)
    (limit : nat) : list example :=
  let decisions := firstn limit (sort_desc (sender_rows db sender)) in
  let decisions :=
    if (length decisions <? limit)%nat
    then (decisions
            ++ firstn (limit - length decisions)
                      (sort_desc (category_rows db sender category)))%list
    else decisions in
  map to_example decisions.

End FewShot.

Section FewShotFacts.
Import SenderMemory FewShot.

Lemma insert_desc_length (x : row) (rows : list row) :
  length (insert_desc x rows) = S (length rows).
Proof.
  induction rows as [|y ys IH]; [reflexivity|].
  simpl. destruct (decided_at y <=? decided_at x); simpl; [reflexivity|].
  rewrite IH. reflexivity.
Qed.

Lemma insert_desc_In (x z : row) (rows : list row) :
  In z (insert_desc x rows) <-> z = x \/ In z rows.
Proof.
  induction rows as [|y ys IH]; simpl.
  - split; [intros [H|[]]; left; symmetry; exact H|intros [H|[]]; left; symmetry; exact H].
  - destruct (decided_at y <=? decided_at x); simpl.
    + split; [intros [H|H]; [left; symmetry; exact H|right; exact H]
             |intros [H|H]; [left; symmetry; exact H|right; exact H]].
    + rewrite IH. split.
      * intros [H|[H|H]]; [right; left; exact H|left; exact H|right; right; exact H].
      * intros [H|[H|H]]; [right; left; exact H|left; exact H|right; right; exact H].
Qed.

Lemma sort_desc_length (rows : list row) : length (sort_desc rows) = length rows.
Proof.
  induction rows as [|x xs IH]; [reflexivity|].
  unfold sort_desc in *. cbn [fold_right]. rewrite insert_desc_length, IH. reflexivity.
Qed.

Lemma sort_desc_In (z : row) (rows : list row) : In z (sort_desc rows) <-> In z rows.
Proof.
  induction rows as [|x xs IH]; [reflexivity|].
  unfold sort_desc in *. cbn [fold_right]. rewrite insert_desc_In, IH.
  simpl. split; intros [H|H]; auto.
Qed.

(** The sort puts later decisions first. *)
Inductive descending : list row -> Prop :=
| desc_nil : descending []
| desc_one : forall x, descending [x]
| desc_cons : forall x y rows,
    decided_at y <= decided_at x -> descending (y :: rows) ->
    descending (x :: y :: rows).

Lemma insert_desc_descending (x : row) (rows : list row) :
  descending rows -> descending (insert_desc x rows).
Proof.
  induction 1 as [|y|y z rows Hyz Hrest IH]; simpl.
  - constructor.
  - destruct (decided_at y <=? decided_at x) eqn:E.
    + apply Z.leb_le in E. constructor; [exact E|constructor].
    + apply Z.leb_gt in E. constructor; [lia|constructor].
  - destruct (decided_at y <=? decided_at x) eqn:E.
    + apply Z.leb_le in E. constructor; [exact E|]. constructor; assumption.
    + apply Z.leb_gt in E. simpl in IH.
      destruct (decided_at z <=? decided_at x) eqn:E2.
      * constructor; [lia|exact IH].
      * constructor; [exact Hyz|exact IH].
Qed.

Lemma sort_desc_descending (rows : list row) : descending (sort_desc rows).
Proof.
  induction rows as [|x xs IH]; [constructor|].
  unfold sort_desc in *. cbn [fold_right]. apply insert_desc_descending. exact IH.
Qed.

Lemma firstn_descending (n : nat) (rows : list row) :
  descending rows -> descending (firstn n rows).
Proof.
  intros H. revert n. induction H as [|x|x y rows Hxy Hrest IH]; intros n.
  - destruct n; constructor.
  - destruct n as [|[|n]]; constructor.
  - destruct n as [|[|n]]; [constructor|constructor|].
    specialize (IH (S n)). cbn [firstn] in *. constructor; assumption.
Qed.

Lemma In_firstn {A : Type} (n : nat) (xs : list A) (x : A) :
  In x (firstn n xs) -> In x xs.
Proof.
  intros H. rewrite <- (firstn_skipn n xs). apply in_or_app. left. exact H.
Qed.

Lemma sender_rows_sender (db : database) (sender : string) (r : row) :
  In r (sender_rows db sender) -> e_sender (fst (fst r)) = sender.
Proof.
  unfold sender_rows. intros H.
  apply in_flat_map in H. destruct H as (e & He & H).
  apply in_flat_map in H. destruct H as (d & _ & H).
  apply in_map_iff in H. destruct H as (a & <- & _).
  apply filter_In in He. destruct He as [_ He]. apply String.eqb_eq in He. exact He.
Qed.

Lemma category_rows_other (db : database) (sender category : string) (r : row) :
  In r (category_rows db sender category) ->
  e_sender (fst (fst r)) <> sender /\ a_category (snd r) = PStr category.
Proof.
  unfold category_rows. intros H.
  apply in_flat_map in H. destruct H as (e & He & H).
  apply in_flat_map in H. destruct H as (d & _ & H).
  apply in_map_iff in H. destruct H as (a & <- & Ha).
  apply filter_In in He. destruct He as [_ He]. apply negb_true_iff in He.
  apply String.eqb_neq in He.
  apply filter_In in Ha. destruct Ha as [_ Ha]. apply andb_true_iff in Ha.
  destruct Ha as [_ Ha]. unfold category_is in Ha. cbn [fst snd].
  split; [exact He|].
  destruct (a_category a); try discriminate Ha.
  apply String.eqb_eq in Ha. subst. reflexivity.
Qed.

Lemma to_example_sender (r : row) : ex_sender (to_example r) = e_sender (fst (fst r)).
Proof. destruct r as [[e d] a]. reflexivity. Qed.

Lemma to_example_category (r : row) : ex_category (to_example r) = a_category (snd r).
Proof. destruct r as [[e d] a]. reflexivity. Qed.

(** The examples for the classifier number at most [limit]; the
    sender's own decided messages come first, latest decision first, and
    only if they are fewer than [limit] are they followed by messages of
    the requested category from other senders. *)
Theorem get_similar_decisions_spec :
  forall (db : database) (sender category : string) (limit : nat),
    let result := get_similar_decisions db sender category limit in
    let own := length (sender_rows db sender) in
    let others := length (category_rows db sender category) in
    length result = Nat.min limit (own + others)
    /\ (length result <= limit)%nat
    /\ (forall ex, In ex (firstn (Nat.min limit own) result) -> ex_sender ex = sender)
    /\ (forall ex, In ex (skipn (Nat.min limit own) result) ->
          ex_sender ex <> sender /\ ex_category ex = PStr category)
    /\ ((limit <= own)%nat -> forall ex, In ex result -> ex_sender ex = sender)
    /\ firstn (Nat.min limit own) result
       = map to_example (firstn limit (sort_desc (sender_rows db sender)))
    /\ descending (firstn limit (sort_desc (sender_rows db sender))).
Proof.
  intros db sender category limit. cbv zeta. unfold get_similar_decisions.
  set (own := sort_desc (sender_rows db sender)).
  set (oth := sort_desc (category_rows db sender category)).
  assert (Hown_len : length own = length (sender_rows db sender))
    by apply sort_desc_length.
  assert (Hoth_len : length oth = length (category_rows db sender category))
    by apply sort_desc_length.
  rewrite <- Hown_len, <- Hoth_len.
  assert (Hf : length (firstn limit own) = Nat.min limit (length own))
    by apply length_firstn.
  assert (Hown_s : forall r, In r (firstn limit own) -> e_sender (fst (fst r)) = sender).
  { intros r Hr. apply In_firstn in Hr. unfold own in Hr.
    apply (proj1 (sort_desc_In r _)) in Hr.
    exact (sender_rows_sender db sender r Hr). }
  assert (Hoth_s : forall r n, In r (firstn n oth) ->
            e_sender (fst (fst r)) <> sender /\ a_category (snd r) = PStr category).
  { intros r n Hr. apply In_firstn in Hr. unfold oth in Hr.
    apply (proj1 (sort_desc_In r _)) in Hr.
    exact (category_rows_other db sender category r Hr). }
  assert (Hdesc : descending (firstn limit own))
    by (apply firstn_descending; apply sort_desc_descending).
  destruct (length (firstn limit own) <? limit)%nat eqn:E.
  - apply Nat.ltb_lt in E.
    assert (Hmin : Nat.min limit (length own) = length own) by lia.
    assert (Hall : firstn limit own = own).
    { apply firstn_all2. lia. }
    rewrite Hall in *. rewrite Hmin.
    rewrite map_app, length_app, !length_map, length_firstn.
    split; [lia|]. split; [lia|].
    set (extra_rows := map to_example (firstn (limit - length own) oth)).
    assert (F1 : firstn (length own) (map to_example own ++ extra_rows)
                 = map to_example own).
    { rewrite firstn_app, length_map, Nat.sub_diag, firstn_O, app_nil_r.
      apply firstn_all2. rewrite length_map. lia. }
    assert (S1 : skipn (length own) (map to_example own ++ extra_rows) = extra_rows).
    { rewrite skipn_app, length_map, Nat.sub_diag.
      rewrite skipn_all2 by (rewrite length_map; lia). reflexivity. }
    rewrite F1, S1. subst extra_rows.
    split.
    { intros ex Hex. apply in_map_iff in Hex. destruct Hex as (r & <- & Hr).
      rewrite to_example_sender. exact (Hown_s r Hr). }
    split.
    { intros ex Hex. apply in_map_iff in Hex. destruct Hex as (r & <- & Hr).
      rewrite to_example_sender, to_example_category. exact (Hoth_s r _ Hr). }
    split; [intros Hle; lia|]. split; [reflexivity|exact Hdesc].
  - apply Nat.ltb_ge in E.
    assert (Hmin : Nat.min limit (length own) = limit) by lia.
    rewrite Hmin, length_map, Hf.
    split; [lia|]. split; [lia|].
    assert (Hlen : length (map to_example (firstn limit own)) = limit)
      by (rewrite length_map; lia).
    rewrite (firstn_all2 (map to_example (firstn limit own))) by lia.
    rewrite (skipn_all2 (map to_example (firstn limit own))) by lia.
    split.
    { intros ex Hex. apply in_map_iff in Hex. destruct Hex as (r & <- & Hr).
      rewrite to_example_sender. exact (Hown_s r Hr). }
    split; [intros ex []|]. split.
    { intros _ ex Hex. apply in_map_iff in Hex. destruct Hex as (r & <- & Hr).
      rewrite to_example_sender. exact (Hown_s r Hr). }
    split; [reflexivity|exact Hdesc].
Qed.

End FewShotFacts.

Section FewShotWitness.
Import SenderMemory FewShot.

Lemma get_similar_decisions_spec_witness :
  (3 <= length (sender_rows three_deleted shop))%nat
  /\ Forall (fun ex => ex_sender ex = shop)
            (get_similar_decisions three_deleted shop "newsletter" 3).
Proof.
  split; [vm_compute; lia|]. apply Forall_forall.
  apply (get_similar_decisions_spec three_deleted shop "newsletter" 3).
  vm_compute. lia.
Defined.

Example similar_decisions_backfill :
  map (fun ex => (ex_sender ex, human_decision ex))
      (get_similar_decisions
         (mkDb (emails three_deleted ++ [mail 7 billing])
               (analyses three_deleted ++ [verdict_row 4 7 "keep" 0.6 "approved"])
               (decisions three_deleted ++ [decided 4 7 true "kept"]))
         billing "newsletter" 3)
  = [(billing, Some "kept"); (shop, Some "deleted"); (shop, Some "deleted")].
Proof. vm_compute; reflexivity. Qed.

End FewShotWitness.

(* ----------------------------------------------------------------- *)
(** ** learn_patterns.py: the sender scan of the pattern miner *)

Module SenderPatterns.
Import Py Db LearnPatterns.

Record sender_pattern : Type := mkSenderPattern {
  sp_sender : string;
  sp_action : string;
  sp_total_decisions : nat;
  sp_consistency_rate : Q;
  sp_rule_type : string
}.

(** Decision joined to Email, keyed by the sender. *)
Definition sender_decisions (db : database) : list (string * Decision) :=
  flat_map (fun d =>
    map (fun e => (e_sender e, d))
        (filter (fun e => e_id e =? d_email_id d) (emails db)))
    (decisions db).

(** The grouped query of [get_sender_patterns]. *)
Definition sender_groups (db : database) (min_decisions : nat)
  : list (string * nat * nat * nat) :=
  let rows := sender_decisions db in
  filter (fun g => let '(_, total, _, _) := g in (min_decisions <=? total)%nat)
    (map (fun s =>
            let g := group s rows in
            (s, length g,
             count (fun r => action_is "kept" (snd r)) g,
             count (fun r => action_is "deleted" (snd r)) g))
         (nodup string_dec (map fst rows))).

(** What the loop of [get_sender_patterns] appends for one group. *)
Definition sender_proposal (pattern_threshold : Q) (g : string * nat * nat * nat)
  : list sender_pattern :=
  let '(sender, total, keep_count, delete_count) := g in
  let keep_rate := if (0 <? total)%nat then ratio keep_count total else 0%Q in
  let delete_rate := if (0 <? total)%nat then ratio delete_count total else 0%Q in
  if Qle_bool pattern_threshold keep_rate then
    [ {| sp_sender := sender; sp_action := "keep"; sp_total_decisions := total;
         sp_consistency_rate := keep_rate; sp_rule_type := "vip_sender" |} ]
  else if Qle_bool pattern_threshold delete_rate then
    [ {| sp_sender := sender; sp_action := "delete"; sp_total_decisions := total;
         sp_consistency_rate := delete_rate; sp_rule_type := "auto_delete" |} ]
  else [].

(** [get_sender_patterns] *)
Definition get_sender_patterns (db : database) (min_decisions : nat)
    (pattern_threshold : Q) : list sender_pattern :=
  flat_map (sender_proposal pattern_threshold) (sender_groups db min_decisions).

End SenderPatterns.

Section SenderScan.
Import LearnPatterns SenderPatterns.
Variable db : database.

Definition sender_total (s : string) : nat := length (group s (sender_decisions db)).
Definition sender_kept (s : string) : nat :=
  Db.count (fun r => action_is "kept" (snd r)) (group s (sender_decisions db)).
Definition sender_deleted (s : string) : nat :=
  Db.count (fun r => action_is "deleted" (snd r)) (group s (sender_decisions db)).

Lemma sender_group_nonempty (s : string) :
  (0 < sender_total s)%nat -> In s (map fst (sender_decisions db)).
Proof.
  unfold sender_total, group. intros H.
  destruct (filter _ (sender_decisions db)) as [|x xs] eqn:E; [simpl in H; lia|].
  assert (Hx : In x (filter (fun r => String.eqb (fst r) s) (sender_decisions db)))
    by (rewrite E; left; reflexivity).
  apply filter_In in Hx. destruct Hx as [Hin Heq].
  apply String.eqb_eq in Heq. subst s. apply in_map. exact Hin.
Qed.

Lemma sender_groups_keys (n : nat) :
  NoDup (map (fun g => fst (fst (fst g))) (sender_groups db n))
  /\ forall g, In g (sender_groups db n) <->
       exists s, In s (map fst (sender_decisions db))
                 /\ (n <= sender_total s)%nat
                 /\ g = (s, sender_total s, sender_kept s, sender_deleted s).
Proof.
  unfold sender_groups. cbv zeta. split.
  - set (keys := nodup string_dec (map fst (sender_decisions db))).
    assert (Hnd : NoDup keys) by apply NoDup_nodup.
    induction Hnd as [|k ks Hk Hks IH]; [constructor|].
    cbn [map filter].
    match goal with
    | |- context [if ?c then _ else _] => destruct c
    end.
    + cbn [map fst]. constructor; [|exact IH].
      intros Hin. apply in_map_iff in Hin. destruct Hin as (g & Hg & Hgin).
      apply filter_In in Hgin. destruct Hgin as [Hgin _].
      apply in_map_iff in Hgin. destruct Hgin as (s & <- & Hs).
      cbn [fst] in Hg. subst s. exact (Hk Hs).
    + exact IH.
  - intros g. rewrite filter_In, in_map_iff. split.
    + intros [(s & <- & Hs) Hhave]. apply nodup_In in Hs.
      apply Nat.leb_le in Hhave. exists s. repeat split; assumption.
    + intros (s & Hs & Hn & ->). split.
      * exists s. split; [reflexivity|apply nodup_In; exact Hs].
      * apply Nat.leb_le. exact Hn.
Qed.

Lemma proposals_NoDup {A : Type} (key : A -> string) (f : A -> list sender_pattern)
    (gs : list A) :
  (forall g p, In p (f g) -> sp_sender p = key g) ->
  (forall g, (length (f g) <= 1)%nat) ->
  NoDup (map key gs) ->
  NoDup (map sp_sender (flat_map f gs)).
Proof.
  intros Hkey Hone. induction gs as [|g gs IH]; [constructor|].
  cbn [map flat_map]. intros Hnd. inversion Hnd as [|? ? Hg Hgs]; subst.
  rewrite map_app. specialize (IH Hgs).
  pose proof (Hone g) as H1. pose proof (Hkey g) as Hk.
  destruct (f g) as [|p [|q rest]]; [exact IH| |simpl in H1; lia].
  cbn [map app]. constructor; [|exact IH].
  intros Hin. apply in_map_iff in Hin. destruct Hin as (p' & Hp' & Hin').
  apply in_flat_map in Hin'. destruct Hin' as (g' & Hg' & Hpg').
  apply Hg. rewrite <- (Hk p (or_introl eq_refl)), <- Hp', (Hkey g' p' Hpg').
  apply in_map. exact Hg'.
Qed.

(** The sender scan proposes at most one rule per sender, for senders
    with at least 10 decisions: a VIP keep rule when the keep rate is at
    least 0.9, else an auto-delete rule when the delete rate is at least
    0.9; a sender is proposed exactly when one of the two rates reaches
    0.9. *)
Theorem get_sender_patterns_spec :
  let patterns := get_sender_patterns db 10 0.9 in
  NoDup (map sp_sender patterns)
  /\ (forall p, In p patterns ->
        let s := sp_sender p in
        sp_total_decisions p = sender_total s
        /\ (10 <= sender_total s)%nat
        /\ ((sp_action p = "keep" /\ sp_rule_type p = "vip_sender"
             /\ sp_consistency_rate p = Db.ratio (sender_kept s) (sender_total s)
             /\ (0.9 <= Db.ratio (sender_kept s) (sender_total s))%Q)
            \/ (sp_action p = "delete" /\ sp_rule_type p = "auto_delete"
                /\ sp_consistency_rate p = Db.ratio (sender_deleted s) (sender_total s)
                /\ (0.9 <= Db.ratio (sender_deleted s) (sender_total s))%Q
                /\ (Db.ratio (sender_kept s) (sender_total s) < 0.9)%Q)))
  /\ (forall s,
        (exists p, In p patterns /\ sp_sender p = s)
        <-> (10 <= sender_total s)%nat
            /\ (0.9 <= Db.ratio (sender_kept s) (sender_total s)
                \/ 0.9 <= Db.ratio (sender_deleted s) (sender_total s))%Q).
Proof.
  cbv zeta. destruct (sender_groups_keys 10) as (Hnd & Hgroups).
  assert (Hprop : forall s, (10 <= sender_total s)%nat ->
            sender_proposal 0.9 (s, sender_total s, sender_kept s, sender_deleted s)
            = if Qle_bool 0.9 (Db.ratio (sender_kept s) (sender_total s))
              then [mkSenderPattern s "keep" (sender_total s)
                      (Db.ratio (sender_kept s) (sender_total s)) "vip_sender"]
              else if Qle_bool 0.9 (Db.ratio (sender_deleted s) (sender_total s))
              then [mkSenderPattern s "delete" (sender_total s)
                      (Db.ratio (sender_deleted s) (sender_total s)) "auto_delete"]
              else []).
  { intros s Hs. unfold sender_proposal.
    assert (Hpos : (0 <? sender_total s)%nat = true) by (apply Nat.ltb_lt; lia).
    rewrite Hpos. reflexivity. }
  split; [|split].
  - unfold get_sender_patterns.
    apply (proposals_NoDup (fun g => fst (fst (fst g)))); [| |exact Hnd].
    + intros [[[s t] k] d] p Hp. unfold sender_proposal in Hp. cbn [fst].
      destruct (Qle_bool 0.9 _); [destruct Hp as [<-|[]]; reflexivity|].
      destruct (Qle_bool 0.9 _); [destruct Hp as [<-|[]]; reflexivity|destruct Hp].
    + intros [[[s t] k] d]. unfold sender_proposal.
      destruct (Qle_bool 0.9 _); [simpl; lia|].
      destruct (Qle_bool 0.9 _); simpl; lia.
  - intros p Hp. unfold get_sender_patterns in Hp. apply in_flat_map in Hp.
    destruct Hp as (g & Hg & Hp). apply Hgroups in Hg.
    destruct Hg as (s & _ & Hn & ->). rewrite (Hprop s Hn) in Hp.
    destruct (Qle_bool 0.9 (Db.ratio (sender_kept s) (sender_total s))) eqn:Ek.
    + destruct Hp as [<-|[]]. cbn [sp_sender sp_total_decisions sp_action sp_rule_type
                                    sp_consistency_rate].
      apply Qle_bool_iff in Ek. split; [reflexivity|]. split; [exact Hn|].
      left. repeat split; assumption.
    + destruct (Qle_bool 0.9 (Db.ratio (sender_deleted s) (sender_total s))) eqn:Ed;
        [|destruct Hp].
      destruct Hp as [<-|[]]. cbn [sp_sender sp_total_decisions sp_action sp_rule_type
                                    sp_consistency_rate].
      apply Qle_bool_iff in Ed. apply Qle_bool_false_lt in Ek.
      split; [reflexivity|]. split; [exact Hn|]. right. repeat split; assumption.
  - intros s. split.
    + intros (p & Hp & <-). unfold get_sender_patterns in Hp. apply in_flat_map in Hp.
      destruct Hp as (g & Hg & Hp). apply Hgroups in Hg.
      destruct Hg as (s & _ & Hn & ->). rewrite (Hprop s Hn) in Hp.
      destruct (Qle_bool 0.9 (Db.ratio (sender_kept s) (sender_total s))) eqn:Ek.
      * destruct Hp as [<-|[]]. cbn [sp_sender]. apply Qle_bool_iff in Ek.
        split; [exact Hn|left; exact Ek].
      * destruct (Qle_bool 0.9 (Db.ratio (sender_deleted s) (sender_total s))) eqn:Ed;
          [|destruct Hp].
        destruct Hp as [<-|[]]. cbn [sp_sender]. apply Qle_bool_iff in Ed.
        split; [exact Hn|right; exact Ed].
    + intros [Hn Hrate].
      assert (Hg : In (s, sender_total s, sender_kept s, sender_deleted s)
                      (sender_groups db 10)).
      { apply Hgroups. exists s. split; [apply sender_group_nonempty; lia|].
        split; [exact Hn|reflexivity]. }
      destruct (Qle_bool 0.9 (Db.ratio (sender_kept s) (sender_total s))) eqn:Ek.
      * exists (mkSenderPattern s "keep" (sender_total s)
                  (Db.ratio (sender_kept s) (sender_total s)) "vip_sender").
        split; [|reflexivity].
        unfold get_sender_patterns. apply in_flat_map. eexists. split; [exact Hg|].
        rewrite (Hprop s Hn), Ek. left. reflexivity.
      * destruct Hrate as [Hk|Hd];
          [apply Qle_bool_iff in Hk; congruence|].
        apply Qle_bool_iff in Hd.
        exists (mkSenderPattern s "delete" (sender_total s)
                  (Db.ratio (sender_deleted s) (sender_total s)) "auto_delete").
        split; [|reflexivity].
        unfold get_sender_patterns. apply in_flat_map. eexists. split; [exact Hg|].
        rewrite (Hprop s Hn), Ek, Hd. left. reflexivity.
Qed.

End SenderScan.

Lemma get_sender_patterns_spec_witness :
  (exists p, In p (SenderPatterns.get_sender_patterns (bulk 10 shop "kept") 10 0.9)
             /\ SenderPatterns.sp_sender p = shop)
  /\ ~ (exists p, In p (SenderPatterns.get_sender_patterns (bulk 9 shop "kept") 10 0.9)
                  /\ SenderPatterns.sp_sender p = shop).
Proof.
  split.
  - apply (get_sender_patterns_spec (bulk 10 shop "kept")).
    split; [vm_compute; lia|left; vm_compute; discriminate].
  - intros H. apply (get_sender_patterns_spec (bulk 9 shop "kept")) in H.
    destruct H as [H _]. vm_compute in H. lia.
Defined.

Example ten_kept_proposed :
  map (fun p => (SenderPatterns.sp_sender p, SenderPatterns.sp_action p,
                 SenderPatterns.sp_rule_type p))
      (SenderPatterns.get_sender_patterns (bulk 10 shop "kept") 10 0.9)
  = [(shop, "keep", "vip_sender")].
Proof. vm_compute; reflexivity. Qed.

(* ----------------------------------------------------------------- *)
(** ** learn_patterns.py: the domain of a sender *)

Section Domains.
Import LearnPatterns.

Lemma contains_at (s : string) : contains "@" s = false <-> after_at s = None.
Proof.
  induction s as [|c s IH]; [split; reflexivity|].
  cbn [contains after_at String.prefix].
  destruct (ascii_dec "@"%char c) as [<-|N].
  - cbn [Ascii.eqb Bool.eqb andb]. destruct s; cbn [orb]; split; intros H; discriminate H.
  - assert (E : Ascii.eqb c "@"%char = false).
    { apply Ascii.eqb_neq. intros ->. apply N. reflexivity. }
    rewrite E. cbn [orb]. exact IH.
Qed.

(** The domain of a sender is the text after its first "@", and the
    whole sender when it has none: an address [local@domain] gives back
    [domain], and a proposed domain is never empty and never contains an
    "@". *)
Theorem domain_of_spec :
  forall (db : database) (local dom s : string) (n : nat) (t : Q),
    (contains "@" local = false -> domain_of (local ++ "@" ++ dom) = dom)
    /\ (contains "@" s = false -> domain_of s = s)
    /\ (forall p, In p (get_domain_patterns db n t) ->
          domain p <> EmptyString /\ contains "@" (domain p) = false
          /\ action p = "delete" /\ (n <= total_decisions p)%nat).
Proof.
  intros db local dom s n t. split; [|split].
  - intros H. unfold domain_of.
    assert (Hafter : after_at (local ++ "@" ++ dom) = Some dom).
    { induction local as [|c l IH]; [reflexivity|].
      apply contains_at in H. cbn [after_at] in H.
      change ((String c l ++ "@" ++ dom)%string)
        with (String c (l ++ "@" ++ dom)%string).
      cbn [after_at]. destruct (Ascii.eqb c "@"%char) eqn:E; [discriminate H|].
      apply IH. apply contains_at. exact H. }
    rewrite Hafter. reflexivity.
  - intros H. apply contains_at in H. unfold domain_of. rewrite H. reflexivity.
  - intros p Hp. apply in_get_domain_patterns in Hp.
    destruct Hp as (d & _ & Hn & Hne & Hat & _ & ->).
    cbn [domain action total_decisions]. repeat split; assumption.
Qed.

Lemma domain_of_spec_witness :
  domain_of ("promo" ++ "@" ++ "shop.example.com") = "shop.example.com"
  /\ domain_of "MAILER-DAEMON" = "MAILER-DAEMON".
Proof.
  split.
  - apply (domain_of_spec empty_db "promo" "shop.example.com" "" 8 0.9).
    vm_compute; reflexivity.
  - apply (domain_of_spec empty_db "" "" "MAILER-DAEMON" 8 0.9).
    vm_compute; reflexivity.
Defined.

End Domains.

(* ----------------------------------------------------------------- *)
(** ** app.py: recording a human decision *)

Module Review.
Import Py Db.

Record DecisionRequest : Type := mkRequest {
  req_approved : bool;
  req_action_taken : string;
  req_notes : option string
}.

(** The outcome of the request: recorded, a 404 answer with its detail,
    or a 500 answer after a failed commit (its detail is the text of the
    exception). *)
Inductive response : Type :=
| Recorded
| NotFound (detail : string)
| ServerError.

(** The notes column as text; no note is the empty text. *)
Definition notes_text (notes : option string) : string :=
  match notes with Some n => n | None => EmptyString end.

(** Assigning the columns of the decision row [first()] returned. *)
Fixpoint update_decision (email : Z) (req : DecisionRequest) (now : Z)
    (rows : list Decision) : list Decision :=
  match rows with
  | [] => []
  | d :: rows' =>
      if d_email_id d =? email
      then mkDecision (d_id d) (d_email_id d) (req_approved req)
             (Some (req_action_taken req)) (notes_text (req_notes req)) now :: rows'
      else d :: update_decision email req now rows'
  end.

(** Assigning the status of the verdict row [first()] returned. *)
Fixpoint set_status (email : Z) (status : string) (rows : list Analysis)
  : list Analysis :=
  match rows with
  | [] => []
  | a :: rows' =>
      if a_email_id a =? email
      then mkAnalysis (a_id a) (a_email_id a) (a_recommendation a)
             (a_confidence_score a) (a_reasoning a) (a_category a) (a_priority a)
             (a_model_name a) (a_model_version a) status (a_analyzed_at a) :: rows'
      else a :: set_status email status rows'
  end.

(** [make_decision]: the decision of a reviewer on the verdict of a
    message.  [accepts] tells whether the commit goes through; the
    accuracy statistics refreshed afterwards live in a table of their
    own. *)
Definition make_decision (accepts : database -> bool) (db : database) (now : Z)
    (email_id : Z) (decision : DecisionRequest) : database * response :=
  match find (fun e => e_id e =? email_id) (emails db) with
  | None => (db, NotFound "Email not found")
  | Some _ =>
      match analysis_by_email db email_id with
      | None => (db, NotFound "Analysis not found")
      | Some _ =>
          let decisions' :=
            match find (fun d => d_email_id d =? email_id) (decisions db) with
            | Some _ => update_decision email_id decision now (decisions db)
            | None =>
                (decisions db
                   ++ [mkDecision (next_id d_id (decisions db)) email_id
                         (req_approved decision) (Some (req_action_taken decision))
                         (notes_text (req_notes decision)) now])%list
            end in
          let status := if req_approved decision then "approved" else "rejected" in
          let db' := mkDb (emails db) (set_status email_id status (analyses db))
                          decisions' in
          if accepts db' then (db', Recorded)
          else (db, ServerError)
      end
  end.

(** The number of decision rows a message has. *)
Definition decisions_of (db : database) (email : Z) : nat :=
  count (fun d => d_email_id d =? email) (decisions db).

End Review.

Section ReviewFacts.
Import Review.

Lemma find_update_decision (k : Z) (req : DecisionRequest) (now : Z)
    (rows : list Decision) :
  find (fun d => d_email_id d =? k) (update_decision k req now rows)
  = option_map (fun d => mkDecision (d_id d) (d_email_id d) (req_approved req)
                           (Some (req_action_taken req))
                           (notes_text (req_notes req)) now)
               (find (fun d => d_email_id d =? k) rows).
Proof.
  induction rows as [|d rows IH]; [reflexivity|].
  simpl. destruct (d_email_id d =? k) eqn:E.
  - simpl. rewrite E. reflexivity.
  - simpl. rewrite E. exact IH.
Qed.

Lemma count_update_decision (j k : Z) (req : DecisionRequest) (now : Z)
    (rows : list Decision) :
  Db.count (fun d => d_email_id d =? j) (update_decision k req now rows)
  = Db.count (fun d => d_email_id d =? j) rows.
Proof.
  unfold Db.count. induction rows as [|d rows IH]; [reflexivity|].
  simpl. destruct (d_email_id d =? k) eqn:E.
  - simpl. destruct (d_email_id d =? j); reflexivity.
  - simpl. destruct (d_email_id d =? j); simpl; rewrite IH; reflexivity.
Qed.

Lemma ids_update_decision (k : Z) (req : DecisionRequest) (now : Z)
    (rows : list Decision) :
  map d_id (update_decision k req now rows) = map d_id rows.
Proof.
  induction rows as [|d rows IH]; [reflexivity|].
  simpl. destruct (d_email_id d =? k); simpl; [reflexivity|].
  rewrite IH. reflexivity.
Qed.

Lemma find_set_status (k : Z) (status : string) (rows : list Analysis) :
  option_map a_status (find (fun a => a_email_id a =? k) (set_status k status rows))
  = option_map (fun _ => status) (find (fun a => a_email_id a =? k) rows).
Proof.
  induction rows as [|a rows IH]; [reflexivity|].
  simpl. destruct (a_email_id a =? k) eqn:E.
  - simpl. rewrite E. reflexivity.
  - simpl. rewrite E. exact IH.
Qed.

Lemma set_status_filter (j k : Z) (status : string) (rows : list Analysis) :
  length (filter (fun a => a_email_id a =? j) (set_status k status rows))
  = length (filter (fun a => a_email_id a =? j) rows).
Proof.
  induction rows as [|a rows IH]; [reflexivity|].
  simpl. destruct (a_email_id a =? k) eqn:E.
  - simpl. destruct (a_email_id a =? j); reflexivity.
  - simpl. destruct (a_email_id a =? j); simpl; rewrite IH; reflexivity.
Qed.

Lemma set_status_fields (k : Z) (status : string) (rows : list Analysis) :
  map (fun a => (a_id a, a_email_id a, a_recommendation a, a_confidence_score a))
      (set_status k status rows)
  = map (fun a => (a_id a, a_email_id a, a_recommendation a, a_confidence_score a))
        rows.
Proof.
  induction rows as [|a rows IH]; [reflexivity|].
  simpl. destruct (a_email_id a =? k); simpl; [reflexivity|].
  rewrite IH. reflexivity.
Qed.

Lemma set_status_others (k : Z) (status : string) (rows : list Analysis) (a : Analysis) :
  In a rows -> a_email_id a <> k -> In a (set_status k status rows).
Proof.
  induction rows as [|x rows IH]; [intros []|].
  simpl. intros [<-|H] Hk.
  - apply Z.eqb_neq in Hk. rewrite Hk. left. reflexivity.
  - destruct (a_email_id x =? k); right; [exact H|exact (IH H Hk)].
Qed.

(** Recording a decision needs a stored message with a verdict;
    otherwise the request is answered 404 and nothing changes.  A
    recorded decision leaves the messages and the content of the verdicts
    as they were, sets the status of the message's verdict to approved
    or rejected, and leaves the message with exactly one decision, the
    one just made: a second decision replaces the first. *)
Theorem make_decision_spec :
  forall (accepts : database -> bool) (db : database) (now : Z) (email_id : Z)
         (req : DecisionRequest),
    let result := make_decision accepts db now email_id req in
    let db' := fst result in
    (snd result <> Recorded -> db' = db)
    /\ (find (fun e => e_id e =? email_id) (emails db) = None ->
        snd result = NotFound "Email not found")
    /\ (find (fun e => e_id e =? email_id) (emails db) <> None ->
        analysis_by_email db email_id = None ->
        snd result = NotFound "Analysis not found")
    /\ (snd result = Recorded ->
        emails db' = emails db
        /\ map (fun a => (a_id a, a_email_id a, a_recommendation a,
                           a_confidence_score a)) (analyses db')
           = map (fun a => (a_id a, a_email_id a, a_recommendation a,
                             a_confidence_score a)) (analyses db)
        /\ (forall a, In a (analyses db) -> a_email_id a <> email_id ->
                      In a (analyses db'))
        /\ option_map a_status (analysis_by_email db' email_id)
           = Some (if req_approved req then "approved" else "rejected")
        /\ (exists d, find (fun d => d_email_id d =? email_id) (decisions db') = Some d
                      /\ d_approved d = req_approved req
                      /\ d_action_taken d = Some (req_action_taken req)
                      /\ d_decided_at d = now)
        /\ (forall k, decisions_of db' k
                      = if (k =? email_id) && (decisions_of db email_id =? 0)%nat
                        then 1%nat else decisions_of db k)
        /\ ((forall k, (decisions_of db k <= 1)%nat) ->
            forall k, (decisions_of db' k <= 1)%nat)).
Proof.
  intros accepts db now email_id req. cbv zeta. unfold make_decision.
  destruct (find (fun e => e_id e =? email_id) (emails db)) as [email|] eqn:Ee.
  2:{ cbn [fst snd]. split; [reflexivity|]. split; [reflexivity|].
      split; [intros H; exfalso; apply H; reflexivity|intros H; discriminate H]. }
  destruct (analysis_by_email db email_id) as [analysis|] eqn:Ea.
  2:{ cbn [fst snd]. split; [reflexivity|]. split; [intros H; discriminate H|].
      split; [reflexivity|intros H; discriminate H]. }
  set (decisions' := match find (fun d => d_email_id d =? email_id) (decisions db) with
                     | Some _ => update_decision email_id req now (decisions db)
                     | None => _
                     end).
  set (status := if req_approved req then "approved" else "rejected").
  destruct (accepts _).
  2:{ cbn [fst snd]. split; [reflexivity|]. split; [intros H; discriminate H|].
      split; [intros _ H; discriminate H|intros H; discriminate H]. }
  cbn [fst snd emails analyses decisions].
  split; [intros H; exfalso; apply H; reflexivity|].
  split; [intros H; discriminate H|]. split; [intros _ H; discriminate H|].
  intros _.
  assert (Hcount : forall k, Db.count (fun d => d_email_id d =? k) decisions'
                             = if (k =? email_id) && (decisions_of db email_id =? 0)%nat
                               then 1%nat else decisions_of db k).
  { intros k. subst decisions'. unfold decisions_of.
    destruct (find (fun d => d_email_id d =? email_id) (decisions db)) as [old|] eqn:Ed.
    - rewrite count_update_decision.
      assert (Hpos : Nat.eqb (Db.count (fun d => d_email_id d =? email_id) (decisions db)) 0
                     = false).
      { apply Nat.eqb_neq. apply find_some in Ed. destruct Ed as [Hin Hk].
        unfold Db.count. intros Hz.
        assert (Hf : In old (filter (fun d => d_email_id d =? email_id) (decisions db)))
          by (apply filter_In; split; assumption).
        destruct (filter _ (decisions db)); [destruct Hf|discriminate Hz]. }
      rewrite Hpos, andb_false_r. reflexivity.
    - rewrite count_app. rewrite (find_none_count _ _ Ed). cbn [Nat.eqb andb].
      unfold Db.count at 2. cbn [filter d_email_id]. rewrite (Z.eqb_sym email_id k).
      destruct (k =? email_id) eqn:Ek; cbn [andb length].
      + apply Z.eqb_eq in Ek. subst k. rewrite (find_none_count _ _ Ed). reflexivity.
      + lia. }
  split; [reflexivity|]. split; [apply set_status_fields|].
  split; [intros a Ha Hk; apply set_status_others; assumption|].
  split.
  { unfold analysis_by_email in *. cbn [analyses]. rewrite find_set_status, Ea.
    reflexivity. }
  split.
  { subst decisions'.
    destruct (find (fun d => d_email_id d =? email_id) (decisions db)) as [old|] eqn:Ed.
    - rewrite find_update_decision, Ed. cbn [option_map].
      eexists. split; [reflexivity|]. repeat split.
    - rewrite (find_app_none _ _ _ Ed); [|cbn [d_email_id]; apply Z.eqb_refl].
      eexists. split; [reflexivity|]. repeat split. }
  split; [exact Hcount|].
  intros Hinv k. unfold decisions_of at 1. cbn [decisions]. rewrite Hcount.
  destruct ((k =? email_id) && (decisions_of db email_id =? 0)%nat); [lia|apply Hinv].
Qed.

End ReviewFacts.

Section ReviewWitness.
Import Review.

Definition approve_delete : DecisionRequest := mkRequest true "deleted" None.

(** Three messages of the shop, the third with a verdict waiting for its
    review. *)
Definition awaiting : database :=
  {| emails := emails three_deleted;
     analyses := (analyses two_deleted
                    ++ [verdict_row 3 3 "delete" 0.8 "pending_review"])%list;
     decisions := decisions two_deleted |}.

Lemma make_decision_spec_witness :
  snd (make_decision (fun _ => true) awaiting (day 30) 3 approve_delete) = Recorded
  /\ option_map a_status
       (analysis_by_email
          (fst (make_decision (fun _ => true) awaiting (day 30) 3 approve_delete)) 3)
     = Some "approved".
Proof.
  split; [vm_compute; reflexivity|].
  apply (proj2 (proj2 (proj2
           (make_decision_spec (fun _ => true) awaiting (day 30) 3 approve_delete)))).
  vm_compute; reflexivity.
Defined.

End ReviewWitness.

(* ================================================================= *)
(** ** The review feeds the sender history *)

Section Feedback.
Import Review SenderMemory.

Lemma list_sum_cons (x : nat) (l : list nat) :
  list_sum (x :: l) = (x + list_sum l)%nat.
Proof. reflexivity. Qed.

Lemma count_flat_map {A B : Type} (p : B -> bool) (g : A -> list B) (l : list A) :
  Db.count p (flat_map g l) = list_sum (map (fun x => Db.count p (g x)) l).
Proof.
  induction l as [|x l IH]; [reflexivity|].
  cbn [flat_map map]. rewrite list_sum_cons, count_app, IH. reflexivity.
Qed.

Lemma count_map_row (q : Decision -> bool) (e : Email) (d : Decision)
    (l : list Analysis) :
  Db.count (fun r : Email * Decision * Analysis => q (snd (fst r)))
           (map (fun a => (e, d, a)) l)
  = (Nat.b2n (q d) * length l)%nat.
Proof.
  unfold Db.count. induction l as [|a l IH]; [cbn; lia|].
  cbn [map filter fst snd]. destruct (q d); cbn [length Nat.b2n] in *; lia.
Qed.

Lemma count_joined (q : Decision -> bool) (p : Decision -> bool) (n : nat)
    (ds : list Decision) :
  list_sum (map (fun d => (Nat.b2n (q d) * n)%nat) (filter p ds))
  = (Db.count (fun d => p d && q d) ds * n)%nat.
Proof.
  unfold Db.count. induction ds as [|d ds IH]; [reflexivity|].
  cbn [filter]. destruct (p d); cbn [andb].
  - cbn [map]. rewrite list_sum_cons, IH.
    destruct (q d); cbn [Nat.b2n length]; lia.
  - exact IH.
Qed.

(** Counting the joined rows of a sender: for each of the sender's
    messages, its decisions times its verdicts. *)
Lemma sender_rows_count (q : Decision -> bool) (db : database) (s : string) :
  Db.count (fun r => q (snd (fst r))) (sender_rows db s)
  = list_sum
      (map (fun e => (Db.count (fun d => (d_email_id d =? e_id e)%Z && q d) (decisions db)
                      * verdicts_of db (e_id e))%nat)
           (filter (fun e => String.eqb (e_sender e) s) (emails db))).
Proof.
  unfold sender_rows. rewrite count_flat_map. f_equal. apply map_ext. intros e.
  rewrite count_flat_map.
  rewrite (map_ext _ (fun d => (Nat.b2n (q d)
                                * verdicts_of db (e_id e))%nat)).
  - apply count_joined.
  - intros d. apply count_map_row.
Qed.

Lemma sender_rows_length (db : database) (s : string) :
  length (sender_rows db s)
  = Db.count (fun r => (fun _ : Decision => true) (snd (fst r))) (sender_rows db s).
Proof.
  unfold Db.count. induction (sender_rows db s) as [|r l IH]; [reflexivity|].
  cbn [filter length]. rewrite <- IH. reflexivity.
Qed.

Lemma list_sum_plus {A : Type} (f g : A -> nat) (l : list A) :
  list_sum (map (fun x => (f x + g x)%nat) l)
  = (list_sum (map f l) + list_sum (map g l))%nat.
Proof.
  induction l as [|x l IH]; [reflexivity|].
  cbn [map]. rewrite !list_sum_cons, IH. lia.
Qed.

Lemma list_sum_zero {A : Type} (f : A -> nat) (l : list A) :
  (forall x, In x l -> f x = 0%nat) -> list_sum (map f l) = 0%nat.
Proof.
  induction l as [|x l IH]; [reflexivity|]. intros H. cbn [map].
  rewrite list_sum_cons, (H x (or_introl eq_refl)), IH; [reflexivity|].
  intros y Hy. apply H. right. exact Hy.
Qed.

(** Among messages with distinct keys, a sum that only the message [k]
    contributes to. *)
Lemma list_sum_single (p : Email -> bool) (c : nat) (k : Z) (email : Email)
    (l : list Email) :
  NoDup (map e_id l) ->
  find (fun e => e_id e =? k) l = Some email ->
  list_sum (map (fun e => (Nat.b2n (k =? e_id e)%Z * c)%nat) (filter p l))
  = (Nat.b2n (p email) * c)%nat.
Proof.
  induction l as [|x l IH]; [intros _ H; discriminate H|].
  cbn [map find]. intros Hnd Hf. inversion Hnd as [|? ? Hnot Hnd']. subst.
  destruct (e_id x =? k) eqn:Ex.
  - injection Hf as ->. apply Z.eqb_eq in Ex.
    assert (Hrest : list_sum (map (fun e => (Nat.b2n (k =? e_id e)%Z * c)%nat)
                               (filter p l)) = 0%nat).
    { apply list_sum_zero. intros y Hy. apply filter_In in Hy. destruct Hy as [Hy _].
      destruct (k =? e_id y) eqn:Ey; [|reflexivity].
      apply Z.eqb_eq in Ey. exfalso. apply Hnot. rewrite Ex, Ey.
      apply in_map. exact Hy. }
    cbn [filter]. destruct (p email); cbn [map].
    + rewrite list_sum_cons, Hrest, <- Ex, Z.eqb_refl. cbn [Nat.b2n]. lia.
    + rewrite Hrest. reflexivity.
  - cbn [filter]. destruct (p x); cbn [map].
    + rewrite list_sum_cons, (IH Hnd' Hf), Z.eqb_sym, Ex. cbn [Nat.b2n]. lia.
    + exact (IH Hnd' Hf).
Qed.

(** The joined rows of every sender after a first decision on a
    message. *)
Lemma first_decision_rows (q : Decision -> bool) (db : database) (email_id : Z)
    (email : Email) (status : string) (dn : Decision) (s : string) :
  NoDup (map e_id (emails db)) ->
  find (fun e => e_id e =? email_id) (emails db) = Some email ->
  d_email_id dn = email_id ->
  Db.count (fun r => q (snd (fst r)))
           (sender_rows (mkDb (emails db) (set_status email_id status (analyses db))
                              (decisions db ++ [dn])%list) s)
  = (Db.count (fun r => q (snd (fst r))) (sender_rows db s)
     + Nat.b2n (String.eqb (e_sender email) s) * (Nat.b2n (q dn) * verdicts_of db email_id))%nat.
Proof.
  intros Hnd Hf Hk. rewrite !sender_rows_count. cbn [emails decisions].
  rewrite (map_ext _ (fun e =>
     (Db.count (fun d => (d_email_id d =? e_id e)%Z && q d) (decisions db)
        * verdicts_of db (e_id e)
      + Nat.b2n (email_id =? e_id e)%Z * (Nat.b2n (q dn) * verdicts_of db email_id))%nat)).
  - rewrite list_sum_plus. f_equal.
    apply (list_sum_single (fun e => String.eqb (e_sender e) s) _ email_id email);
      assumption.
  - intros e. rewrite count_app.
    assert (Hv : verdicts_of (mkDb (emails db) (set_status email_id status (analyses db))
                                   (decisions db ++ [dn])%list) (e_id e)
                 = verdicts_of db (e_id e)).
    { unfold verdicts_of, Db.count. cbn [analyses]. apply set_status_filter. }
    rewrite Hv. unfold Db.count at 2. cbn [filter]. rewrite Hk.
    destruct (email_id =? e_id e) eqn:Ee; cbn [andb Nat.b2n].
    + apply Z.eqb_eq in Ee. rewrite <- Ee.
      destruct (q dn); cbn [length Nat.b2n]; lia.
    + cbn [length]. lia.
Qed.

Lemma first_decision_total (db : database) (email_id : Z) (email : Email)
    (status : string) (dn : Decision) (s : string) :
  NoDup (map e_id (emails db)) ->
  find (fun e => e_id e =? email_id) (emails db) = Some email ->
  d_email_id dn = email_id ->
  length (sender_rows (mkDb (emails db) (set_status email_id status (analyses db))
                            (decisions db ++ [dn])%list) s)
  = (length (sender_rows db s)
     + Nat.b2n (String.eqb (e_sender email) s) * verdicts_of db email_id)%nat.
Proof.
  intros Hnd Hf Hk. rewrite !sender_rows_length.
  rewrite (first_decision_rows (fun _ => true) db email_id email status dn s Hnd Hf Hk).
  cbn [Nat.b2n]. lia.
Qed.

(** The first decision a reviewer records for a message enters the
    history of its sender, and of no other sender: the sender's number of
    decisions grows by one, and so does its count of kept or of deleted
    messages when that is the action taken. *)
Theorem decision_feeds_sender_stats :
  forall (accepts : database -> bool) (db db' : database) (now email_id : Z)
         (req : DecisionRequest) (email : Email),
    NoDup (map e_id (emails db)) ->
    (verdicts_of db email_id <= 1)%nat ->
    find (fun e => e_id e =? email_id) (emails db) = Some email ->
    decisions_of db email_id = 0%nat ->
    make_decision accepts db now email_id req = (db', Recorded) ->
    forall s : string,
      let st := get_sender_stats db s in
      let st' := get_sender_stats db' s in
      let hit := String.eqb (e_sender email) s in
      SenderMemory.total_decisions st'
      = (SenderMemory.total_decisions st + Nat.b2n hit)%nat
      /\ kept_count st'
         = (kept_count st
            + Nat.b2n (hit && String.eqb (req_action_taken req) "kept"))%nat
      /\ deleted_count st'
         = (deleted_count st
            + Nat.b2n (hit && String.eqb (req_action_taken req) "deleted"))%nat.
Proof.
  intros accepts db db' now email_id req email Hnd Hv Hf Hd Hm s. cbv zeta.
  unfold make_decision in Hm. rewrite Hf in Hm.
  destruct (analysis_by_email db email_id) as [analysis|] eqn:Ea; [|discriminate Hm].
  assert (Hone : verdicts_of db email_id = 1%nat).
  { unfold analysis_by_email in Ea. apply find_some in Ea. destruct Ea as [Hin Hk].
    assert (Hfil : In analysis (filter (fun a => a_email_id a =? email_id) (analyses db)))
      by (apply filter_In; split; assumption).
    unfold verdicts_of, Db.count in *.
    destruct (filter (fun a => a_email_id a =? email_id) (analyses db));
      [destruct Hfil|cbn [length] in *; lia]. }
  assert (Hnone : find (fun d => d_email_id d =? email_id) (decisions db) = None).
  { destruct (find (fun d => d_email_id d =? email_id) (decisions db)) as [old|] eqn:Ed;
      [|reflexivity].
    apply find_some in Ed. destruct Ed as [Hin Hk].
    assert (Hfil : In old (filter (fun d => d_email_id d =? email_id) (decisions db)))
      by (apply filter_In; split; assumption).
    unfold decisions_of, Db.count in Hd.
    destruct (filter (fun d => d_email_id d =? email_id) (decisions db));
      [destruct Hfil|discriminate Hd]. }
  rewrite Hnone in Hm. destruct (accepts _); [|discriminate Hm].
  injection Hm as <-.
  destruct (get_sender_stats_eq db s) as (Ht & Hk & Hdl & _).
  match goal with
  | |- context [get_sender_stats ?d s] =>
      lazymatch d with
      | db => fail
      | _ => destruct (get_sender_stats_eq d s) as (Ht' & Hk' & Hdl' & _)
      end
  end.
  cbv zeta in *. rewrite Ht, Hk, Hdl, Ht', Hk', Hdl'. clear Ht Hk Hdl Ht' Hk' Hdl'.
  rewrite (first_decision_total db email_id email) by (assumption || reflexivity).
  rewrite !(first_decision_rows _ db email_id email) by (assumption || reflexivity).
  rewrite Hone. unfold action_is. cbn [d_action_taken].
  destruct (String.eqb (e_sender email) s),
           (String.eqb (req_action_taken req) "kept"),
           (String.eqb (req_action_taken req) "deleted");
    cbn [andb Nat.b2n]; repeat split; lia.
Qed.

End Feedback.

Section FeedbackWitness.
Import Review SenderMemory.

Lemma decision_feeds_sender_stats_witness :
  SenderMemory.total_decisions
    (get_sender_stats (fst (make_decision (fun _ => true) awaiting (day 30) 3 approve_delete))
                      shop)
  = 3%nat.
Proof.
  apply (proj1 (decision_feeds_sender_stats (fun _ => true) awaiting _ (day 30) 3
                  approve_delete (mail 3 shop)
                  ltac:(vm_compute; repeat constructor; simpl; intuition discriminate)
                  ltac:(vm_compute; lia)
                  ltac:(vm_compute; reflexivity)
                  ltac:(vm_compute; reflexivity)
                  ltac:(vm_compute; reflexivity) shop)).
Defined.

(** With two deleted messages of the shop on record the bypass is
    silent; the reviewer's third deletion makes it answer. *)
Example third_decision_opens_bypass :
  should_skip_llm awaiting shop = None
  /\ option_map recommendation
       (should_skip_llm
          (fst (make_decision (fun _ => true) awaiting (day 30) 3 approve_delete)) shop)
     = Some "delete".
Proof. split; vm_compute; reflexivity. Qed.

End FeedbackWitness.
